(** * Gemini research tools: the client layer (src/core/client.py, src/core/models.py)

    A shallow embedding of [DeepResearchClient] and [QuickSearchClient] and
    of the pydantic models they return, followed by the properties of the
    polling loop, the streaming generator and the response parsers. *)

From Stdlib Require Import Ascii String QArith.
From stdpp Require Import base strings list gmap option pretty.

Local Open Scope string_scope.
Local Open Scope list_scope.

(** ** Python values as the client observes them *)

(** [hasattr(obj, name)]: an attribute of a vendor object is there or not. *)
Inductive attr (A : Type) : Type :=
  | Missing
  | Has (a : A).
Arguments Missing {A}.
Arguments Has {A} a.

(** [getattr(obj, name, default)]. *)
Definition getattr {A} (a : attr A) (default : A) : A :=
  match a with
  | Missing => default
  | Has x => x
  end.

(** An object the client never looks into: only [bool(x)] and [str(x)] are
    taken of it (the [error] attribute of an interaction or of a chunk). *)
Record Opaque := { truthy : bool; str : string }.

Definition py_None : Opaque := {| truthy := false; str := "None" |}.
Definition py_str (s : string) : Opaque :=
  {| truthy := negb (bool_decide (s = "")); str := s |}.

(** A raised exception: its class, the classes that class inherits from,
    and [str(e)].  The exceptions of the model are those an
    [except Exception] clause catches. *)
Record Exception := {
  exc_class : string;
  exc_bases : list string;
  exc_str : string;
}.

(** [isinstance(e, cls)], which is also what [except cls] tests. *)
Definition isinstance (e : Exception) (cls : string) : bool :=
  bool_decide (cls = exc_class e) || bool_decide (cls ∈ exc_bases e).

Definition Result (A : Type) : Type := Exception + A.

Definition LF : string := String "010"%char "".

(** Truthiness of an optional string: [None] and the empty string are falsy. *)
Definition str_truthy (s : option string) : bool :=
  match s with
  | Some x => negb (bool_decide (x = ""))
  | None => false
  end.

(** ** src/core/models.py *)

Inductive ResearchStatusEnum := IN_PROGRESS | COMPLETED | FAILED | CANCELLED.

Global Instance ResearchStatusEnum_eq_dec : EqDecision ResearchStatusEnum.
Proof. solve_decision. Defined.

(** The [.value] of a member of the [str] enum. *)
Definition ResearchStatusEnum_value (s : ResearchStatusEnum) : string :=
  match s with
  | IN_PROGRESS => "in_progress"
  | COMPLETED => "completed"
  | FAILED => "failed"
  | CANCELLED => "cancelled"
  end.

Module ResearchStatus.
Record t := {
  interaction_id : string;
  status : ResearchStatusEnum;
  error : option string;
}.
End ResearchStatus.

Module ResearchResult.
Record t := {
  interaction_id : string;
  status : ResearchStatusEnum;
  content : option string;
  citations : option (list string);
  error : option string;
}.
End ResearchResult.

Inductive ResearchEventType := START | THOUGHT | TEXT_DELTA | COMPLETE | ERROR.

Global Instance ResearchEventType_eq_dec : EqDecision ResearchEventType.
Proof. solve_decision. Defined.

Module ResearchEvent.
Record t := {
  event_type : ResearchEventType;
  interaction_id : option string;
  content : option string;
  event_id : option string;
}.
End ResearchEvent.

Module Citation.
Record t := { url : string; title : option string }.
End Citation.

Module GroundingSupport.
Record t := {
  text : string;
  start_index : Z;
  end_index : Z;
  citation_indices : list Z;
}.
End GroundingSupport.

Module QuickSearchResult.
Record t := {
  query : string;
  content : string;
  citations : list Citation.t;
  grounding_supports : list GroundingSupport.t;
  search_queries : list string;
  model : string;
  error : option string;
}.
End QuickSearchResult.

Module UrlMetadata.
Record t := { url : string; status : string; title : option string }.
End UrlMetadata.

Module UrlAnalysisResult.
Record t := {
  urls : list string;
  query : string;
  content : string;
  url_metadata : list UrlMetadata.t;
  model : string;
  error : option string;
}.
End UrlAnalysisResult.

(** ** The vendor SDK's objects *)

(** Modelled from the spec: the classes of the [google.genai] package, which
    the repository imports and does not contain.  A task fetch "returns
    status plus an ordered list of outputs, each possibly carrying text
    and/or grounding metadata"; grounded generation returns "text plus
    per-candidate grounding metadata (search queries used, grounding chunks
    with web source URL/title, and retrieval-status-per-URL)".  The records
    below carry the attributes the client reads: an attribute the client
    guards with [hasattr] is an [attr], a value it tests for truthiness is an
    [option], and a value of an interaction that it hands unguarded to one
    of its own pydantic models, or iterates over unguarded, has the type
    that use requires.  The objects of a generated candidate are pydantic
    models of the SDK whose fields are all declared optional: there an
    attribute that is present may still hold [None]. *)

Module Web.
Record t := { uri : attr string; title : attr (option string) }.
End Web.

Module GroundingChunk.
Record t := { web : attr (option Web.t) }.
End GroundingChunk.

(** Grounding metadata carried by an output of an interaction. *)
Module OutputGrounding.
Record t := { grounding_chunks : attr (list GroundingChunk.t) }.
End OutputGrounding.

Module Output.
Record t := {
  text : attr (option string);
  grounding_metadata : attr (option OutputGrounding.t);
}.
End Output.

Module Interaction.
Record t := {
  id : string;
  status : string;
  outputs : option (list Output.t);
  error : attr Opaque;
}.
End Interaction.

Module DeltaContent.
Record t := { text : attr (option string) }.
End DeltaContent.

Module Delta.
Record t := {
  type : string;
  text : attr (option string);
  content : attr (option DeltaContent.t);
  repr : string;  (* str(delta) *)
}.
End Delta.

(** One item of the iterable returned by [interactions.create(stream=True)]. *)
Module Chunk.
Record t := {
  event_type : string;
  interaction : attr (option Interaction.t);
  event_id : attr (option string);
  delta : attr Delta.t;
  error : attr Opaque;
}.
End Chunk.

(** Modelled from the spec: the web source of a grounding chunk of a
    generated candidate ("grounding chunks with web source URL/title"),
    either of which may be [None]. *)
Module GroundingChunkWeb.
Record t := { uri : attr (option string); title : attr (option string) }.
End GroundingChunkWeb.

(** Modelled from the spec: a grounding chunk of a generated candidate. *)
Module CandidateChunk.
Record t := { web : attr (option GroundingChunkWeb.t) }.
End CandidateChunk.

Module Segment.
Record t := {
  text : attr (option string);
  start_index : attr (option Z);
  end_index : attr (option Z);
}.
End Segment.

Module Support.
Record t := {
  segment : attr (option Segment.t);
  grounding_chunk_indices : attr (option (list Z));
}.
End Support.

Module GroundingMetadata.
Record t := {
  web_search_queries : attr (option (list string));
  grounding_chunks : attr (option (list CandidateChunk.t));
  grounding_supports : attr (option (list Support.t));
}.
End GroundingMetadata.

Module UrlMeta.
Record t := {
  retrieved_url : attr (option string);
  url_retrieval_status : attr (option string);
}.
End UrlMeta.

Module UrlContextMetadata.
Record t := { url_metadata : attr (option (list UrlMeta.t)) }.
End UrlContextMetadata.

Module Candidate.
Record t := {
  grounding_metadata : attr (option GroundingMetadata.t);
  url_context_metadata : attr (option UrlContextMetadata.t);
}.
End Candidate.

Module Response.
Record t := { text : option string; candidates : option (list Candidate.t) }.
End Response.

(** ** The remote service and the world the client runs in *)

Inductive Tool := google_search | url_context.

(** Keyword arguments of [interactions.create]. *)
Record CreateArgs := {
  create_input : string;
  create_agent : string;
  create_background : bool;
  create_stream : bool;
  create_agent_config : option (gmap string string);
  create_previous_interaction_id : option string;
}.

(** Keyword arguments of [models.generate_content]. *)
Record GenerateArgs := {
  generate_model : string;
  generate_contents : string;
  generate_tools : list Tool;
}.

(** A call made on [self._client], as it is logged. *)
Inductive Call :=
  | InteractionsGet (interaction_id : string)
  | InteractionsCreate (args : CreateArgs)
  | GenerateContent (args : GenerateArgs).

(** What the client runs against: [self._client], the clock and pydantic.
    The service answers a call by its arguments and by the number of calls
    made before it; the [n]-th reading of [time.time()] is [time n], in
    seconds; [validation_text model fields] is the [str] of the
    [ValidationError] that pydantic raises when the constructor of [model]
    is handed [None] for the required [fields] (the wording is pydantic's). *)
Record Remote := {
  interactions_get : nat → string → Result Interaction.t;
  interactions_create : nat → CreateArgs → Result Interaction.t;
  interactions_create_stream : nat → CreateArgs → Result (list Chunk.t);
  generate_content : nat → GenerateArgs → Result Response.t;
  time : nat → Q;
  validation_text : string → list string → string;
}.

Record World := {
  calls : list Call;   (* remote calls made so far, oldest first *)
  ticks : nat;         (* readings of the clock taken so far *)
  slept : list Z;      (* arguments of asyncio.sleep so far, oldest first *)
}.

Definition log_call (c : Call) (w : World) : World :=
  {| calls := calls w ++ [c]; ticks := ticks w; slept := slept w |}.

(** A coroutine of the client: it may raise, and it changes the world. *)
Definition M (A : Type) : Type := World → Result A * World.

Global Instance M_ret : MRet M := λ A (a : A) w, (inr a, w).
Global Instance M_bind : MBind M := λ A B (f : A → M B) (m : M A) w,
  match m w with
  | (inl e, w') => (inl e, w')
  | (inr a, w') => f a w'
  end.

Definition raise {A} (e : Exception) : M A := λ w, (inl e, w).

(** [try: body  except Exception as e: handler(e)]. *)
Definition try_except {A} (body : M A) (handler : Exception → M A) : M A :=
  λ w, match body w with
       | (inl e, w') => handler e w'
       | (inr a, w') => (inr a, w')
       end.

(** A pure computation that may raise, run as a coroutine. *)
Definition lift {A} (r : Result A) : M A := λ w, (r, w).

Definition TypeError (msg : string) : Exception :=
  {| exc_class := "TypeError";
     exc_bases := ["Exception"; "BaseException"; "object"];
     exc_str := msg |}.
Definition AttributeError (msg : string) : Exception :=
  {| exc_class := "AttributeError";
     exc_bases := ["Exception"; "BaseException"; "object"];
     exc_str := msg |}.
Definition TimeoutError (msg : string) : Exception :=
  {| exc_class := "TimeoutError";
     exc_bases := ["OSError"; "Exception"; "BaseException"; "object"];
     exc_str := msg |}.

(** [pydantic.ValidationError]. *)
Definition ValidationError (msg : string) : Exception :=
  {| exc_class := "ValidationError";
     exc_bases := ["ValueError"; "Exception"; "BaseException"; "object"];
     exc_str := msg |}.

(** [for x in l: body], where the body may raise: the loop stops there. *)
Fixpoint for_each {A S} (body : S → A → Result S) (l : list A) (s : S) : Result S :=
  match l with
  | [] => inr s
  | x :: l =>
      match body s x with
      | inl e => inl e
      | inr s => for_each body l s
      end
  end.

(** [[name]] when a required field is handed [None]. *)
Definition refused {A} (name : string) (value : option A) : list string :=
  match value with
  | Some _ => []
  | None => [name]
  end.

(** The constructors of the pydantic models whose arguments come from the
    vendor's objects: a required field refuses [None]. *)
Section Validation.
Variable env : Remote.

(** [Citation(url=..., title=...)] *)
Definition new_Citation (url title : option string) : Result Citation.t :=
  match url with
  | Some url => inr {| Citation.url := url; Citation.title := title |}
  | None => inl (ValidationError (validation_text env "Citation" ["url"]))
  end.

(** [GroundingSupport(text=..., start_index=..., end_index=..., citation_indices=...)] *)
Definition new_GroundingSupport (text : option string) (start_index end_index : option Z)
    (citation_indices : list Z) : Result GroundingSupport.t :=
  match text, start_index, end_index with
  | Some text, Some start_index, Some end_index =>
      inr {| GroundingSupport.text := text;
             GroundingSupport.start_index := start_index;
             GroundingSupport.end_index := end_index;
             GroundingSupport.citation_indices := citation_indices |}
  | _, _, _ =>
      inl (ValidationError
             (validation_text env "GroundingSupport"
                (refused "text" text ++ refused "start_index" start_index
                   ++ refused "end_index" end_index)))
  end.

(** [UrlMetadata(url=..., status=..., title=...)] *)
Definition new_UrlMetadata (url status title : option string) : Result UrlMetadata.t :=
  match url, status with
  | Some url, Some status =>
      inr {| UrlMetadata.url := url; UrlMetadata.status := status;
             UrlMetadata.title := title |}
  | _, _ =>
      inl (ValidationError
             (validation_text env "UrlMetadata"
                (refused "url" url ++ refused "status" status)))
  end.

End Validation.

(** [hasattr(output, "text") and output.text], and then [output.text]. *)
Definition output_text (output : Output.t) : option string :=
  match Output.text output with
  | Has (Some s) => if bool_decide (s = "") then None else Some s
  | _ => None
  end.

(** [for output in ...: if hasattr(output, "text") and output.text: ...; break]:
    the text of the first output, in the order given, that has one. *)
Fixpoint scan_text (outputs : list Output.t) : option string :=
  match outputs with
  | [] => None
  | output :: rest =>
      match output_text output with
      | Some s => Some s
      | None => scan_text rest
      end
  end.

(** ** class DeepResearchClient *)

Module DeepResearchClient.

Definition AGENT_NAME : string := "deep-research-pro-preview-12-2025".
Definition DEFAULT_POLL_INTERVAL : Z := 10.
Definition DEFAULT_TIMEOUT : Z := 3600.

Definition SYSTEM_PROMPT_JA : string :=
  "必ず日本語で回答してください。推論過程や思考の要約も日本語で出力してください。".

Definition status_map : gmap string ResearchStatusEnum :=
  {[ "in_progress" := IN_PROGRESS;
     "completed" := COMPLETED;
     "failed" := FAILED;
     "cancelled" := CANCELLED ]}.

Definition _build_input (query : string) (format_instructions : option string) : string :=
  let parts := [SYSTEM_PROMPT_JA; query] in
  let parts :=
    if str_truthy format_instructions
    then parts ++ [default "" format_instructions]
    else parts in
  String.concat (LF +:+ LF) parts.

(** [chunk.web.uri] under [hasattr(chunk, "web") and hasattr(chunk.web, "uri")]. *)
Definition chunk_uri (chunk : GroundingChunk.t) : option string :=
  match GroundingChunk.web chunk with
  | Has (Some web) =>
      match Web.uri web with
      | Has uri => Some uri
      | Missing => None
      end
  | _ => None
  end.

(** The chunks the inner loop of [_extract_citations] runs over for one
    output: none unless both [hasattr] tests pass. *)
Definition output_chunks (output : Output.t) : list GroundingChunk.t :=
  match Output.grounding_metadata output with
  | Has (Some metadata) =>
      match OutputGrounding.grounding_chunks metadata with
      | Has chunks => chunks
      | Missing => []
      end
  | _ => []
  end.

Definition _extract_citations (interaction : Interaction.t)
  : Result (option (list string)) :=
  match Interaction.outputs interaction with
  | None => inl (TypeError "'NoneType' object is not iterable")
  | Some outputs =>
      let citations :=
        fold_left (λ citations output,
          fold_left (λ citations chunk,
            match chunk_uri chunk with
            | Some uri => citations ++ [uri]
            | None => citations
            end) (output_chunks output) citations) outputs [] in
      inr (match citations with [] => None | _ :: _ => Some citations end)
  end.

(** [str(error) if error else None]. *)
Definition error_message (error : Opaque) : option string :=
  if truthy error then Some (str error) else None.

(** Truthiness of [interaction.outputs]. *)
Definition outputs_truthy (outputs : option (list Output.t)) : bool :=
  match outputs with
  | Some (_ :: _) => true
  | _ => false
  end.

Section Methods.
(** [self._client] *)
Variable _client : Remote.

Definition client_interactions_get (interaction_id : string) : M Interaction.t :=
  λ w, (interactions_get _client (length (calls w)) interaction_id,
        log_call (InteractionsGet interaction_id) w).

Definition client_interactions_create (args : CreateArgs) : M Interaction.t :=
  λ w, (interactions_create _client (length (calls w)) args,
        log_call (InteractionsCreate args) w).

Definition client_interactions_create_stream (args : CreateArgs) : M (list Chunk.t) :=
  λ w, (interactions_create_stream _client (length (calls w)) args,
        log_call (InteractionsCreate args) w).

Definition time_time : World → Q * World :=
  λ w, (time _client (ticks w),
        {| calls := calls w; ticks := S (ticks w); slept := slept w |}).

Definition asyncio_sleep (delay : Z) : World → World :=
  λ w, {| calls := calls w; ticks := ticks w; slept := slept w ++ [delay] |}.

Definition start_research (query : string) (format_instructions : option string)
  : M string :=
  let input_text := _build_input query format_instructions in
  interaction ← client_interactions_create
    {| create_input := input_text;
       create_agent := AGENT_NAME;
       create_background := true;
       create_stream := false;
       create_agent_config := None;
       create_previous_interaction_id := None |};
  mret (Interaction.id interaction).

Definition get_status (interaction_id : string) : M ResearchStatus.t :=
  interaction ← client_interactions_get interaction_id;
  let status := default IN_PROGRESS (status_map !! Interaction.status interaction) in
  let error := getattr (Interaction.error interaction) py_None in
  mret {| ResearchStatus.interaction_id := interaction_id;
          ResearchStatus.status := status;
          ResearchStatus.error := error_message error |}.

Definition get_result (interaction_id : string) : M ResearchResult.t :=
  interaction ← client_interactions_get interaction_id;
  let status := default IN_PROGRESS (status_map !! Interaction.status interaction) in
  '(content, citations) ←
    (if bool_decide (status = COMPLETED) && outputs_truthy (Interaction.outputs interaction)
     then
       let content := scan_text (reverse (default [] (Interaction.outputs interaction))) in
       citations ← lift (_extract_citations interaction);
       mret (content, citations)
     else mret (None, None));
  let error := getattr (Interaction.error interaction) py_None in
  mret {| ResearchResult.interaction_id := interaction_id;
          ResearchResult.status := status;
          ResearchResult.content := content;
          ResearchResult.citations := citations;
          ResearchResult.error := error_message error |}.

(** The [while True] loop of [poll_until_complete]; [fuel] bounds the
    number of iterations and [None] says the bound was too small. *)
Fixpoint poll_loop (fuel : nat) (interaction_id : string) (poll_interval timeout : Z)
    (start_time : Q) (w : World) : option (Result ResearchResult.t * World) :=
  match fuel with
  | O => None
  | S fuel' =>
      match get_status interaction_id w with
      | (inl e, w1) => Some (inl e, w1)
      | (inr status, w1) =>
          if bool_decide (ResearchStatus.status status = COMPLETED)
          then Some (get_result interaction_id w1)
          else if bool_decide (ResearchStatus.status status ∈ [FAILED; CANCELLED])
          then Some (inr {| ResearchResult.interaction_id := interaction_id;
                            ResearchResult.status := ResearchStatus.status status;
                            ResearchResult.content := None;
                            ResearchResult.citations := None;
                            ResearchResult.error := ResearchStatus.error status |},
                     w1)
          else
            let '(now, w2) := time_time w1 in
            let elapsed := (now - start_time)%Q in
            if Qle_bool (inject_Z timeout) elapsed
            then Some (inl (TimeoutError
                              ("Research did not complete within " +:+ pretty timeout
                               +:+ " seconds. Interaction ID: " +:+ interaction_id)),
                       w2)
            else poll_loop fuel' interaction_id poll_interval timeout start_time
                   (asyncio_sleep poll_interval w2)
      end
  end.

Definition poll_until_complete (fuel : nat) (interaction_id : string)
    (poll_interval timeout : Z) (w : World)
  : option (Result ResearchResult.t * World) :=
  let '(start_time, w0) := time_time w in
  poll_loop fuel interaction_id poll_interval timeout start_time w0.

Definition research (fuel : nat) (query : string) (format_instructions : option string)
    (poll_interval timeout : Z) (w : World)
  : option (Result ResearchResult.t * World) :=
  match start_research query format_instructions w with
  | (inl e, w') => Some (inl e, w')
  | (inr interaction_id, w') =>
      poll_until_complete fuel interaction_id poll_interval timeout w'
  end.

(** *** [stream_research]

    The async generator is run to exhaustion: what it yields, in order,
    how it ends (the chunks run out, or an exception escapes) and the
    world it leaves. *)

(** The chain [if content.delta / elif interaction.complete / elif error]
    for one chunk, with [interaction_id] and [last_event_id] as they are
    when the chain is reached. *)
Definition stream_dispatch (chunk : Chunk.t) (interaction_id last_event_id : option string)
    (w : World) : list ResearchEvent.t * Result unit * World :=
  if bool_decide (Chunk.event_type chunk = "content.delta") then
    match Chunk.delta chunk with
    | Missing => ([], inr (), w)
    | Has delta =>
        if bool_decide (Delta.type delta = "text") then
          match Delta.text delta with
          | Missing => ([], inl (AttributeError "object has no attribute 'text'"), w)
          | Has text =>
              ([ {| ResearchEvent.event_type := TEXT_DELTA;
                    ResearchEvent.interaction_id := interaction_id;
                    ResearchEvent.content := text;
                    ResearchEvent.event_id := last_event_id |} ], inr (), w)
          end
        else if bool_decide (Delta.type delta = "thought_summary") then
          let thought_text :=
            match Delta.content delta with
            | Has (Some content) =>
                match DeltaContent.text content with
                | Has text => text
                | Missing => Some (Delta.repr delta)
                end
            | _ => Some (Delta.repr delta)
            end in
          ([ {| ResearchEvent.event_type := THOUGHT;
                ResearchEvent.interaction_id := interaction_id;
                ResearchEvent.content := thought_text;
                ResearchEvent.event_id := last_event_id |} ], inr (), w)
        else ([], inr (), w)
    end
  else if bool_decide (Chunk.event_type chunk = "interaction.complete") then
    let final_content :=
      match Chunk.interaction chunk with
      | Has (Some interaction) =>
          if outputs_truthy (Interaction.outputs interaction)
          then scan_text (reverse (default [] (Interaction.outputs interaction)))
          else None
      | _ => None
      end in
    let '(final_content, w) :=
      match final_content with
      | None =>
          if str_truthy interaction_id then
            match get_result (default "" interaction_id) w with
            | (inr result, w') =>
                (if str_truthy (ResearchResult.content result)
                 then ResearchResult.content result
                 else None, w')
            | (inl _, w') => (None, w')
            end
          else (None, w)
      | Some _ => (final_content, w)
      end in
    ([ {| ResearchEvent.event_type := COMPLETE;
          ResearchEvent.interaction_id := interaction_id;
          ResearchEvent.content := final_content;
          ResearchEvent.event_id := last_event_id |} ], inr (), w)
  else if bool_decide (Chunk.event_type chunk = "error") then
    let error_msg := getattr (Chunk.error chunk) (py_str "Unknown error") in
    ([ {| ResearchEvent.event_type := ERROR;
          ResearchEvent.interaction_id := interaction_id;
          ResearchEvent.content := Some (str error_msg);
          ResearchEvent.event_id := last_event_id |} ], inr (), w)
  else ([], inr (), w).

(** The body of [for chunk in stream] and the loop itself. *)
Fixpoint stream_loop (stream : list Chunk.t) (interaction_id last_event_id : option string)
    (w : World) : list ResearchEvent.t * Result unit * World :=
  match stream with
  | [] => ([], inr (), w)
  | chunk :: rest =>
      let started :=
        if bool_decide (Chunk.event_type chunk = "interaction.start") then
          match Chunk.interaction chunk with
          | Has (Some interaction) =>
              let interaction_id := Some (Interaction.id interaction) in
              inr (interaction_id,
                   [ {| ResearchEvent.event_type := START;
                        ResearchEvent.interaction_id := interaction_id;
                        ResearchEvent.content := None;
                        ResearchEvent.event_id := None |} ])
          | Has None => inl (AttributeError "'NoneType' object has no attribute 'id'")
          | Missing => inl (AttributeError "object has no attribute 'interaction'")
          end
        else inr (interaction_id, []) in
      match started with
      | inl e => ([], inl e, w)
      | inr (interaction_id, yielded) =>
          let last_event_id :=
            match Chunk.event_id chunk with
            | Has event_id => if str_truthy event_id then event_id else last_event_id
            | Missing => last_event_id
            end in
          match stream_dispatch chunk interaction_id last_event_id w with
          | (events, inl e, w') => (yielded ++ events, inl e, w')
          | (events, inr _, w') =>
              let '(later, r, w'') := stream_loop rest interaction_id last_event_id w' in
              (yielded ++ events ++ later, r, w'')
          end
      end
  end.

(** The body of [for chunk in stream], for one chunk: the events it yields,
    and the [interaction_id] and [last_event_id] it leaves, unless it
    raises. *)
Definition stream_body (chunk : Chunk.t) (interaction_id last_event_id : option string)
    (w : World)
  : list ResearchEvent.t * Result (option string * option string) * World :=
  let started :=
    if bool_decide (Chunk.event_type chunk = "interaction.start") then
      match Chunk.interaction chunk with
      | Has (Some interaction) =>
          let interaction_id := Some (Interaction.id interaction) in
          inr (interaction_id,
               [ {| ResearchEvent.event_type := START;
                    ResearchEvent.interaction_id := interaction_id;
                    ResearchEvent.content := None;
                    ResearchEvent.event_id := None |} ])
      | Has None => inl (AttributeError "'NoneType' object has no attribute 'id'")
      | Missing => inl (AttributeError "object has no attribute 'interaction'")
      end
    else inr (interaction_id, []) in
  match started with
  | inl e => ([], inl e, w)
  | inr (interaction_id, yielded) =>
      let last_event_id :=
        match Chunk.event_id chunk with
        | Has event_id => if str_truthy event_id then event_id else last_event_id
        | Missing => last_event_id
        end in
      match stream_dispatch chunk interaction_id last_event_id w with
      | (events, inl e, w') => (yielded ++ events, inl e, w')
      | (events, inr _, w') => (yielded ++ events, inr (interaction_id, last_event_id), w')
      end
  end.

Definition stream_research (query : string) (format_instructions : option string)
    (w : World) : list ResearchEvent.t * Result unit * World :=
  let input_text := _build_input query format_instructions in
  match client_interactions_create_stream
          {| create_input := input_text;
             create_agent := AGENT_NAME;
             create_background := true;
             create_stream := true;
             create_agent_config :=
               Some {[ "type" := "deep-research"; "thinking_summaries" := "auto" ]};
             create_previous_interaction_id := None |} w with
  | (inl e, w') => ([], inl e, w')
  | (inr stream, w') => stream_loop stream None None w'
  end.

Definition ask_followup (previous_interaction_id question : string) : M string :=
  interaction ← client_interactions_create
    {| create_input := question;
       create_agent := AGENT_NAME;
       create_background := false;
       create_stream := false;
       create_agent_config := None;
       create_previous_interaction_id := Some previous_interaction_id |};
  mret (if outputs_truthy (Interaction.outputs interaction)
        then default "" (scan_text (reverse (default [] (Interaction.outputs interaction))))
        else "").

End Methods.
End DeepResearchClient.

(** ** class QuickSearchClient *)

Module QuickSearchClient.

Definition DEFAULT_MODEL : string := "gemini-3-flash-preview".
Definition SUPPORTED_MODELS : list string :=
  ["gemini-3-pro-preview"; "gemini-3-flash-preview"].

Definition SYSTEM_PROMPT_JA : string := "必ず日本語で回答してください。".

Definition _build_prompt (query language : string) : string :=
  if bool_decide (language = "ja")
  then SYSTEM_PROMPT_JA +:+ LF +:+ LF +:+ query
  else query.

(** [response.text if response.text else ""]. *)
Definition response_content (response : Response.t) : string :=
  if str_truthy (Response.text response) then default "" (Response.text response) else "".

(** [candidates[0]] under [response.candidates and len(response.candidates) > 0]. *)
Definition first_candidate (response : Response.t) : option Candidate.t :=
  match Response.candidates response with
  | Some (candidate :: _) => Some candidate
  | _ => None
  end.

(** [x] under [hasattr(obj, name) and obj.name], for a sequence. *)
Definition truthy_list {A} (a : attr (option (list A))) : option (list A) :=
  match a with
  | Has (Some (x :: l)) => Some (x :: l)
  | _ => None
  end.

Section Methods.
(** [self._client] *)
Variable _client : Remote.

Definition client_generate_content (args : GenerateArgs) : M Response.t :=
  λ w, (generate_content _client (length (calls w)) args,
        log_call (GenerateContent args) w).

(** The loop over [metadata.grounding_chunks]. *)
Definition extract_citations (chunks : list CandidateChunk.t) : Result (list Citation.t) :=
  for_each (λ citations chunk,
    match CandidateChunk.web chunk with
    | Has (Some web) =>
        match new_Citation _client
                (getattr (GroundingChunkWeb.uri web) (Some ""))
                (getattr (GroundingChunkWeb.title web) None) with
        | inl e => inl e
        | inr citation => inr (citations ++ [citation])
        end
    | _ => inr citations
    end) chunks [].

(** [list(support.grounding_chunk_indices) if hasattr(...) else []] *)
Definition citation_indices_of (support : Support.t) : Result (list Z) :=
  match Support.grounding_chunk_indices support with
  | Has (Some indices) => inr indices
  | Has None => inl (TypeError "'NoneType' object is not iterable")
  | Missing => inr []
  end.

(** The loop over [metadata.grounding_supports]. *)
Definition extract_supports (supports : list Support.t)
  : Result (list GroundingSupport.t) :=
  for_each (λ grounding_supports support,
    match Support.segment support with
    | Has (Some segment) =>
        match citation_indices_of support with
        | inl e => inl e
        | inr citation_indices =>
            match new_GroundingSupport _client
                    (getattr (Segment.text segment) (Some ""))
                    (getattr (Segment.start_index segment) (Some 0%Z))
                    (getattr (Segment.end_index segment) (Some 0%Z))
                    citation_indices with
            | inl e => inl e
            | inr grounding_support => inr (grounding_supports ++ [grounding_support])
            end
        end
    | _ => inr grounding_supports
    end) supports [].

(** The block "Extract grounding metadata", which [quick_search] and
    [search_and_analyze] both carry: citations, grounding supports and
    search queries of the first candidate. *)
Definition extract_grounding (response : Response.t)
  : Result (list Citation.t * list GroundingSupport.t * list string) :=
  match first_candidate response with
  | Some candidate =>
      match Candidate.grounding_metadata candidate with
      | Has (Some metadata) =>
          let search_queries :=
            default [] (truthy_list (GroundingMetadata.web_search_queries metadata)) in
          match
            match truthy_list (GroundingMetadata.grounding_chunks metadata) with
            | Some chunks => extract_citations chunks
            | None => inr []
            end
          with
          | inl e => inl e
          | inr citations =>
              match
                match truthy_list (GroundingMetadata.grounding_supports metadata) with
                | Some supports => extract_supports supports
                | None => inr []
                end
              with
              | inl e => inl e
              | inr grounding_supports =>
                  inr (citations, grounding_supports, search_queries)
              end
          end
      | _ => inr ([], [], [])
      end
  | None => inr ([], [], [])
  end.

(** The block "Extract URL metadata" of [analyze_urls]. *)
Definition extract_url_metadata (response : Response.t) : Result (list UrlMetadata.t) :=
  match first_candidate response with
  | Some candidate =>
      match Candidate.url_context_metadata candidate with
      | Has (Some metadata) =>
          match truthy_list (UrlContextMetadata.url_metadata metadata) with
          | Some metas =>
              for_each (λ url_metadata url_meta,
                match new_UrlMetadata _client
                        (getattr (UrlMeta.retrieved_url url_meta) (Some ""))
                        (getattr (UrlMeta.url_retrieval_status url_meta) (Some "unknown"))
                        None with
                | inl e => inl e
                | inr entry => inr (url_metadata ++ [entry])
                end) metas []
          | None => inr []
          end
      | _ => inr []
      end
  | None => inr []
  end.

Definition quick_search (query model language : string) : M QuickSearchResult.t :=
  let prompt := _build_prompt query language in
  let config := [google_search] in
  try_except
    (response ← client_generate_content
       {| generate_model := model; generate_contents := prompt; generate_tools := config |};
     let content := response_content response in
     '(citations, grounding_supports, search_queries) ← lift (extract_grounding response);
     mret {| QuickSearchResult.query := query;
             QuickSearchResult.content := content;
             QuickSearchResult.citations := citations;
             QuickSearchResult.grounding_supports := grounding_supports;
             QuickSearchResult.search_queries := search_queries;
             QuickSearchResult.model := model;
             QuickSearchResult.error := None |})
    (λ e,
     mret {| QuickSearchResult.query := query;
             QuickSearchResult.content := "";
             QuickSearchResult.citations := [];
             QuickSearchResult.grounding_supports := [];
             QuickSearchResult.search_queries := [];
             QuickSearchResult.model := model;
             QuickSearchResult.error := Some (exc_str e) |}).

Definition analyze_urls (urls : list string) (query model language : string)
  : M UrlAnalysisResult.t :=
  if bool_decide (20 < length urls)%nat then
    mret {| UrlAnalysisResult.urls := urls;
            UrlAnalysisResult.query := query;
            UrlAnalysisResult.content := "";
            UrlAnalysisResult.url_metadata := [];
            UrlAnalysisResult.model := model;
            UrlAnalysisResult.error := Some "Maximum 20 URLs allowed per request" |}
  else
    let url_list := String.concat LF urls in
    let full_prompt :=
      _build_prompt (query +:+ LF +:+ LF +:+ "URLs:" +:+ LF +:+ url_list) language in
    let config := [url_context] in
    try_except
      (response ← client_generate_content
         {| generate_model := model; generate_contents := full_prompt;
            generate_tools := config |};
       let content := response_content response in
       url_metadata ← lift (extract_url_metadata response);
       mret {| UrlAnalysisResult.urls := urls;
               UrlAnalysisResult.query := query;
               UrlAnalysisResult.content := content;
               UrlAnalysisResult.url_metadata := url_metadata;
               UrlAnalysisResult.model := model;
               UrlAnalysisResult.error := None |})
      (λ e,
       mret {| UrlAnalysisResult.urls := urls;
               UrlAnalysisResult.query := query;
               UrlAnalysisResult.content := "";
               UrlAnalysisResult.url_metadata := [];
               UrlAnalysisResult.model := model;
               UrlAnalysisResult.error := Some (exc_str e) |}).

Definition search_and_analyze (query : string) (urls : option (list string))
    (model language : string) : M QuickSearchResult.t :=
  let prompt := _build_prompt query language in
  let prompt :=
    match urls with
    | Some (u :: us) =>
        let url_list := String.concat LF (u :: us) in
        prompt +:+ LF +:+ LF +:+ "参考URL:" +:+ LF +:+ url_list
    | _ => prompt
    end in
  let tools := [google_search; url_context] in
  try_except
    (response ← client_generate_content
       {| generate_model := model; generate_contents := prompt; generate_tools := tools |};
     let content := response_content response in
     '(citations, grounding_supports, search_queries) ← lift (extract_grounding response);
     mret {| QuickSearchResult.query := query;
             QuickSearchResult.content := content;
             QuickSearchResult.citations := citations;
             QuickSearchResult.grounding_supports := grounding_supports;
             QuickSearchResult.search_queries := search_queries;
             QuickSearchResult.model := model;
             QuickSearchResult.error := None |})
    (λ e,
     mret {| QuickSearchResult.query := query;
             QuickSearchResult.content := "";
             QuickSearchResult.citations := [];
             QuickSearchResult.grounding_supports := [];
             QuickSearchResult.search_queries := [];
             QuickSearchResult.model := model;
             QuickSearchResult.error := Some (exc_str e) |}).

End Methods.
End QuickSearchClient.

(** ** Values of the mappings the tool handlers return *)

(** The values the handlers put in their result dicts: [None], strings,
    lists, and dicts as lists of entries in the order of the dict literal. *)
Local Unset Elimination Schemes.
Inductive PyValue :=
  | VNone
  | VStr (s : string)
  | VList (items : list PyValue)
  | VDict (entries : list (string * PyValue)).
Local Set Elimination Schemes.

Definition opt_str (s : option string) : PyValue :=
  match s with
  | Some x => VStr x
  | None => VNone
  end.

Definition str_list (l : list string) : PyValue := VList (VStr <$> l).

Definition opt_str_list (l : option (list string)) : PyValue :=
  match l with
  | Some x => str_list x
  | None => VNone
  end.

(** [d.keys()] and [d.get(key)] of a dict literal. *)
Definition dict_keys (d : list (string * PyValue)) : list string := d.*1.

Fixpoint dict_get (key : string) (d : list (string * PyValue)) : option PyValue :=
  match d with
  | [] => None
  | (k, v) :: rest => if bool_decide (k = key) then Some v else dict_get key rest
  end.

(** ** src/mcp/server.py: the tool handlers

    The handlers are given the SDK client that the memoized
    [DeepResearchClient] and [QuickSearchClient] hold once
    [get_deep_research_client()] and [get_quick_search_client()] have built
    them. *)

Module McpServer.

Definition research_result_dict (result : ResearchResult.t) : list (string * PyValue) :=
  [ ("interaction_id", VStr (ResearchResult.interaction_id result));
    ("status", VStr (ResearchStatusEnum_value (ResearchResult.status result)));
    ("content", opt_str (ResearchResult.content result));
    ("citations", opt_str_list (ResearchResult.citations result));
    ("error", opt_str (ResearchResult.error result)) ].

(** The two [except] clauses of [deep_research]. *)
Definition research_failure_dict (e : Exception) : list (string * PyValue) :=
  [ ("interaction_id", VNone);
    ("status", VStr "failed");
    ("content", VNone);
    ("citations", VNone);
    ("error", VStr (if isinstance e "TimeoutError"
                    then exc_str e
                    else "Research failed: " +:+ exc_str e)) ].

Definition citation_dicts (citations : list Citation.t) : PyValue :=
  VList ((λ c, VDict [ ("url", VStr (Citation.url c));
                       ("title", opt_str (Citation.title c)) ]) <$> citations).

Definition search_result_dict (result : QuickSearchResult.t) : list (string * PyValue) :=
  [ ("query", VStr (QuickSearchResult.query result));
    ("content", VStr (QuickSearchResult.content result));
    ("citations", citation_dicts (QuickSearchResult.citations result));
    ("search_queries", str_list (QuickSearchResult.search_queries result));
    ("model", VStr (QuickSearchResult.model result));
    ("error", opt_str (QuickSearchResult.error result)) ].

Definition search_failure_dict (label query model : string) (e : Exception)
  : list (string * PyValue) :=
  [ ("query", VStr query);
    ("content", VNone);
    ("citations", VList []);
    ("search_queries", VList []);
    ("model", VStr model);
    ("error", VStr (label +:+ exc_str e)) ].

(** What the loop of the handler [stream_research] does with one event:
    it returns a dict at an [error] event, and otherwise updates
    [interaction_id], [content_parts] and [thoughts]. *)
Definition consume_event (event : ResearchEvent.t)
    (state : option string * list string * list string)
  : list (string * PyValue) + (option string * list string * list string) :=
  let '(interaction_id, content_parts, thoughts) := state in
  match ResearchEvent.event_type event with
  | START => inr (ResearchEvent.interaction_id event, content_parts, thoughts)
  | TEXT_DELTA =>
      inr (interaction_id,
           if str_truthy (ResearchEvent.content event)
           then content_parts ++ [default "" (ResearchEvent.content event)]
           else content_parts,
           thoughts)
  | THOUGHT =>
      inr (interaction_id, content_parts,
           if str_truthy (ResearchEvent.content event)
           then thoughts ++ [default "" (ResearchEvent.content event)]
           else thoughts)
  | ERROR =>
      inl [ ("interaction_id", opt_str interaction_id);
            ("status", VStr "failed");
            ("content", VNone);
            ("thoughts", str_list thoughts);
            ("error", opt_str (ResearchEvent.content event)) ]
  | COMPLETE => inr state
  end.

Fixpoint consume_events (events : list ResearchEvent.t)
    (state : option string * list string * list string)
  : list (string * PyValue) + (option string * list string * list string) :=
  match events with
  | [] => inr state
  | event :: rest =>
      match consume_event event state with
      | inl returned => inl returned
      | inr state' => consume_events rest state'
      end
  end.

(** The dict returned when the events run out. *)
Definition stream_completed_dict (state : option string * list string * list string)
  : list (string * PyValue) :=
  let '(interaction_id, content_parts, thoughts) := state in
  [ ("interaction_id", opt_str interaction_id);
    ("status", VStr "completed");
    ("content", VStr (String.concat "" content_parts));
    ("thoughts", str_list thoughts);
    ("error", VNone) ].

Definition stream_failure_dict (e : Exception) : list (string * PyValue) :=
  [ ("interaction_id", VNone);
    ("status", VStr "failed");
    ("content", VNone);
    ("thoughts", VList []);
    ("error", VStr ("Streaming research failed: " +:+ exc_str e)) ].

Section Tools.
Variable _client : Remote.

Definition deep_research (fuel : nat) (query : string) (format_instructions : option string)
    (wait_for_completion : bool) (timeout : Z) (w : World)
  : option (list (string * PyValue) * World) :=
  if wait_for_completion then
    match DeepResearchClient.research _client fuel query format_instructions
            DeepResearchClient.DEFAULT_POLL_INTERVAL timeout w with
    | None => None
    | Some (inr result, w') => Some (research_result_dict result, w')
    | Some (inl e, w') => Some (research_failure_dict e, w')
    end
  else
    match DeepResearchClient.start_research _client query format_instructions w with
    | (inr interaction_id, w') =>
        Some ([ ("interaction_id", VStr interaction_id);
                ("status", VStr "in_progress");
                ("content", VNone);
                ("citations", VNone);
                ("error", VNone);
                ("message",
                 VStr "Research started. Use get_research_status to check progress.") ],
              w')
    | (inl e, w') => Some (research_failure_dict e, w')
    end.

Definition get_research_status (interaction_id : string) : M (list (string * PyValue)) :=
  try_except
    (status ← DeepResearchClient.get_status _client interaction_id;
     mret [ ("interaction_id", VStr (ResearchStatus.interaction_id status));
            ("status", VStr (ResearchStatusEnum_value (ResearchStatus.status status)));
            ("error", opt_str (ResearchStatus.error status)) ])
    (λ e,
     mret [ ("interaction_id", VStr interaction_id);
            ("status", VStr "failed");
            ("error", VStr ("Failed to get status: " +:+ exc_str e)) ]).

Definition get_research_result (interaction_id : string) : M (list (string * PyValue)) :=
  try_except
    (result ← DeepResearchClient.get_result _client interaction_id;
     mret (research_result_dict result))
    (λ e,
     mret [ ("interaction_id", VStr interaction_id);
            ("status", VStr "failed");
            ("content", VNone);
            ("citations", VNone);
            ("error", VStr ("Failed to get result: " +:+ exc_str e)) ]).

Definition ask_followup_question (previous_interaction_id question : string)
  : M (list (string * PyValue)) :=
  try_except
    (answer ← DeepResearchClient.ask_followup _client previous_interaction_id question;
     mret [ ("previous_interaction_id", VStr previous_interaction_id);
            ("question", VStr question);
            ("answer", VStr answer);
            ("error", VNone) ])
    (λ e,
     mret [ ("previous_interaction_id", VStr previous_interaction_id);
            ("question", VStr question);
            ("answer", VNone);
            ("error", VStr ("Failed to get follow-up answer: " +:+ exc_str e)) ]).

(** [async for event in client.stream_research(...)]: the generator is
    resumed chunk by chunk, and is not resumed any more once the handler has
    returned. *)
Fixpoint consume_stream (stream : list Chunk.t) (generator_id generator_last : option string)
    (state : option string * list string * list string) (w : World)
  : list (string * PyValue) * World :=
  match stream with
  | [] => (stream_completed_dict state, w)
  | chunk :: rest =>
      let '(events, r, w') :=
        DeepResearchClient.stream_body _client chunk generator_id generator_last w in
      match consume_events events state with
      | inl returned => (returned, w')
      | inr state' =>
          match r with
          | inl e => (stream_failure_dict e, w')
          | inr (generator_id', generator_last') =>
              consume_stream rest generator_id' generator_last' state' w'
          end
      end
  end.

Definition stream_research (query : string) (format_instructions : option string) (w : World)
  : list (string * PyValue) * World :=
  match DeepResearchClient.client_interactions_create_stream _client
          {| create_input := DeepResearchClient._build_input query format_instructions;
             create_agent := DeepResearchClient.AGENT_NAME;
             create_background := true;
             create_stream := true;
             create_agent_config :=
               Some {[ "type" := "deep-research"; "thinking_summaries" := "auto" ]};
             create_previous_interaction_id := None |} w with
  | (inl e, w') => (stream_failure_dict e, w')
  | (inr stream, w') => consume_stream stream None None (None, [], []) w'
  end.

Definition quick_search (query model language : string) : M (list (string * PyValue)) :=
  try_except
    (result ← QuickSearchClient.quick_search _client query model language;
     mret (search_result_dict result))
    (λ e, mret (search_failure_dict "Quick search failed: " query model e)).

Definition analyze_urls (urls : list string) (query model language : string)
  : M (list (string * PyValue)) :=
  try_except
    (result ← QuickSearchClient.analyze_urls _client urls query model language;
     mret [ ("urls", str_list (UrlAnalysisResult.urls result));
            ("query", VStr (UrlAnalysisResult.query result));
            ("content", VStr (UrlAnalysisResult.content result));
            ("url_metadata",
             VList ((λ m, VDict [ ("url", VStr (UrlMetadata.url m));
                                  ("status", VStr (UrlMetadata.status m));
                                  ("title", opt_str (UrlMetadata.title m)) ])
                    <$> UrlAnalysisResult.url_metadata result));
            ("model", VStr (UrlAnalysisResult.model result));
            ("error", opt_str (UrlAnalysisResult.error result)) ])
    (λ e,
     mret [ ("urls", str_list urls);
            ("query", VStr query);
            ("content", VNone);
            ("url_metadata", VList []);
            ("model", VStr model);
            ("error", VStr ("URL analysis failed: " +:+ exc_str e)) ]).

Definition search_and_analyze (query : string) (urls : option (list string))
    (model language : string) : M (list (string * PyValue)) :=
  try_except
    (result ← QuickSearchClient.search_and_analyze _client query urls model language;
     mret (search_result_dict result))
    (λ e, mret (search_failure_dict "Search and analyze failed: " query model e)).

End Tools.
End McpServer.

(** ** src/dify/tools: the status and result tools of the plugin

    A tool reads its credentials and parameters from string-keyed dicts and
    yields messages; [create_json_message] and [create_text_message] belong
    to the plugin framework and are modelled by the message they wrap. The
    tools are given the service that [genai.Client(api_key=...)] reaches. *)

Inductive ToolInvokeMessage :=
  | JsonMessage (d : list (string * PyValue))
  | TextMessage (text : string).

Definition ValueError (msg : string) : Exception :=
  {| exc_class := "ValueError";
     exc_bases := ["Exception"; "BaseException"; "object"];
     exc_str := msg |}.

Module DifyTool.

(** [_get_client]: [ValueError] unless the credentials hold a non-empty
    [gemini_api_key]. *)
Definition _get_client (credentials : gmap string string) : Result unit :=
  if str_truthy (credentials !! "gemini_api_key")
  then inr ()
  else inl (ValueError "Gemini API key is required").

End DifyTool.

Module GetResearchStatusTool.

Definition status_map : gmap string string :=
  {[ "in_progress" := "in_progress";
     "completed" := "completed";
     "failed" := "failed";
     "cancelled" := "cancelled" ]}.

Definition status_ja : gmap string string :=
  {[ "in_progress" := "進行中";
     "completed" := "完了";
     "failed" := "失敗";
     "cancelled" := "キャンセル";
     "unknown" := "不明" ]}.

Definition _format_status_output (interaction_id status : string) (error : Opaque)
  : string :=
  let lines :=
    [ "## リサーチステータス";
      "";
      "- **Interaction ID**: `" +:+ interaction_id +:+ "`";
      "- **ステータス**: " +:+ default status (status_ja !! status) ] in
  let lines :=
    if truthy error then lines ++ ["- **エラー**: " +:+ str error] else lines in
  let lines :=
    if bool_decide (status = "completed") then
      lines ++ [""; "`get_research_result` で結果を取得できます。"]
    else if bool_decide (status = "in_progress") then
      lines ++ [""; "リサーチはまだ進行中です。しばらく待ってから再度確認してください。"]
    else lines in
  String.concat LF lines.

Section Invoke.
Variable sdk : Remote.
Variable credentials : gmap string string.

Definition _invoke (tool_parameters : gmap string string) (w : World)
  : list ToolInvokeMessage * World :=
  let interaction_id := default "" (tool_parameters !! "interaction_id") in
  if bool_decide (interaction_id = "") then
    ([ JsonMessage [("error", VStr "interaction_id is required")];
       TextMessage "Error: interaction_id is required" ], w)
  else
    let attempt : Result (list ToolInvokeMessage) * World :=
      match DifyTool._get_client credentials with
      | inl e => (inl e, w)
      | inr _ =>
          match interactions_get sdk (length (calls w)) interaction_id with
          | inl e => (inl e, log_call (InteractionsGet interaction_id) w)
          | inr interaction =>
              let status := default "unknown" (status_map !! Interaction.status interaction) in
              let error := getattr (Interaction.error interaction) py_None in
              (inr [ JsonMessage
                       [ ("interaction_id", VStr interaction_id);
                         ("status", VStr status);
                         ("error", if truthy error then VStr (str error) else VNone) ];
                     TextMessage (_format_status_output interaction_id status error) ],
               log_call (InteractionsGet interaction_id) w)
          end
      end in
    match attempt with
    | (inr messages, w') => (messages, w')
    | (inl e, w') =>
        let error_message := "ステータス確認中にエラーが発生しました: " +:+ exc_str e in
        ([ JsonMessage
             [ ("interaction_id", VStr interaction_id);
               ("status", VStr "error");
               ("error", VStr (exc_str e)) ];
           TextMessage ("## エラー" +:+ LF +:+ LF +:+ error_message) ], w')
    end.

End Invoke.
End GetResearchStatusTool.

Module GetResearchResultTool.

Definition _format_result_output (interaction_id : string) (content : option string)
    (citations : list string) : string :=
  let lines :=
    [ "## リサーチ結果";
      "";
      "**Interaction ID**: `" +:+ interaction_id +:+ "`";
      "" ] in
  let lines :=
    if str_truthy content
    then lines ++ [default "" content; ""]
    else lines ++ ["（コンテンツなし）"; ""] in
  let lines :=
    match citations with
    | [] => lines
    | _ :: _ =>
        fold_left (λ lines '(i, url), lines ++ [pretty i +:+ ". " +:+ url])
          (zip (seq 1 (length citations)) citations)
          (lines ++ ["### 参照元:"])
    end in
  String.concat LF lines.

Section Invoke.
Variable sdk : Remote.
Variable credentials : gmap string string.

Definition _invoke (tool_parameters : gmap string string) (w : World)
  : list ToolInvokeMessage * World :=
  let interaction_id := default "" (tool_parameters !! "interaction_id") in
  if bool_decide (interaction_id = "") then
    ([ JsonMessage [("error", VStr "interaction_id is required")];
       TextMessage "Error: interaction_id is required" ], w)
  else
    let attempt : Result (list ToolInvokeMessage) * World :=
      match DifyTool._get_client credentials with
      | inl e => (inl e, w)
      | inr _ =>
          match interactions_get sdk (length (calls w)) interaction_id with
          | inl e => (inl e, log_call (InteractionsGet interaction_id) w)
          | inr interaction =>
              let w' := log_call (InteractionsGet interaction_id) w in
              if negb (bool_decide (Interaction.status interaction = "completed")) then
                (inr [ JsonMessage
                         [ ("interaction_id", VStr interaction_id);
                           ("status", VStr (Interaction.status interaction));
                           ("error", VStr "Research is not yet completed") ];
                       TextMessage
                         ("## リサーチ未完了" +:+ LF +:+ LF
                          +:+ "リサーチはまだ完了していません。" +:+ LF
                          +:+ "- **Interaction ID**: `" +:+ interaction_id +:+ "`" +:+ LF
                          +:+ "- **現在のステータス**: " +:+ Interaction.status interaction
                          +:+ LF +:+ LF
                          +:+ "`get_research_status` でステータスを確認してください。") ],
                 w')
              else
                let '(content, citations) :=
                  match Interaction.outputs interaction with
                  | Some (output :: outputs) =>
                      (scan_text (reverse (output :: outputs)),
                       fold_left (λ citations output,
                         fold_left (λ citations chunk,
                           match DeepResearchClient.chunk_uri chunk with
                           | Some uri => citations ++ [uri]
                           | None => citations
                           end) (DeepResearchClient.output_chunks output) citations)
                         (output :: outputs) [])
                  | _ => (None, [])
                  end in
                (inr [ JsonMessage
                         [ ("interaction_id", VStr interaction_id);
                           ("status", VStr "completed");
                           ("content", opt_str content);
                           ("citations", str_list citations) ];
                       TextMessage (_format_result_output interaction_id content citations) ],
                 w')
          end
      end in
    match attempt with
    | (inr messages, w') => (messages, w')
    | (inl e, w') =>
        let error_message := "結果取得中にエラーが発生しました: " +:+ exc_str e in
        ([ JsonMessage
             [ ("interaction_id", VStr interaction_id);
               ("status", VStr "error");
               ("content", VNone);
               ("citations", VList []);
               ("error", VStr (exc_str e)) ];
           TextMessage ("## エラー" +:+ LF +:+ LF +:+ error_message) ], w')
    end.

End Invoke.
End GetResearchResultTool.

(** ** Vocabulary of the properties *)

(** An output carries the non-empty text [s]. *)
Definition has_text (output : Output.t) (s : string) : Prop :=
  Output.text output = Has (Some s) ∧ s ≠ "".

(** An output carries no text, or an empty one. *)
Definition textless (output : Output.t) : Prop := ∀ s, ¬ has_text output s.

(** [chunk] is a grounding chunk of [output]. *)
Definition chunk_of (output : Output.t) (chunk : GroundingChunk.t) : Prop :=
  ∃ metadata chunks,
    Output.grounding_metadata output = Has (Some metadata)
    ∧ OutputGrounding.grounding_chunks metadata = Has chunks
    ∧ chunk ∈ chunks.

(** A grounding chunk with a web uri. *)
Definition has_web_uri (chunk : GroundingChunk.t) : Prop :=
  ∃ web uri, GroundingChunk.web chunk = Has (Some web) ∧ Web.uri web = Has uri.

(** [s] is the text of the first output of the list, front to back, that
    carries a non-empty text. *)
Definition first_text_is (outputs : list Output.t) (s : string) : Prop :=
  ∃ before output after,
    outputs = before ++ output :: after ∧ Forall textless before ∧ has_text output s.

(** [s] is the text of the last output of the list that carries a non-empty
    text: the first one met when the list is scanned newest-first. *)
Definition last_text_is (outputs : list Output.t) (s : string) : Prop :=
  ∃ older output newer,
    outputs = older ++ output :: newer ∧ has_text output s ∧ Forall textless newer.

(** The uris [_extract_citations] collects from a list of outputs. *)
Definition collected_uris (outputs : list Output.t) : list string :=
  omap DeepResearchClient.chunk_uri (outputs ≫= DeepResearchClient.output_chunks).

(** ** Requests the clients send *)

(** The arguments [ask_followup] passes to [interactions.create]. *)
Definition followup_request (previous_interaction_id question : string) : CreateArgs :=
  {| create_input := question;
     create_agent := DeepResearchClient.AGENT_NAME;
     create_background := false;
     create_stream := false;
     create_agent_config := None;
     create_previous_interaction_id := Some previous_interaction_id |}.

(** The claim that [ask_followup] answers with the first non-empty text of
    the outputs, front to back. *)
Definition ask_followup_first_text_claim : Prop :=
  ∀ (sdk : Remote) (previous_interaction_id question : string) (w : World)
    (interaction : Interaction.t),
    interactions_create sdk (length (calls w))
      (followup_request previous_interaction_id question) = inr interaction →
    ∃ answer w',
      DeepResearchClient.ask_followup sdk previous_interaction_id question w
        = (inr answer, w')
      ∧ (∀ outputs s, Interaction.outputs interaction = Some outputs →
           first_text_is outputs s → answer = s)
      ∧ ((∀ outputs, Interaction.outputs interaction = Some outputs →
            Forall textless outputs) → answer = "").

(** ** Sample objects *)

Definition text_output (s : string) : Output.t :=
  {| Output.text := Has (Some s); Output.grounding_metadata := Missing |}.

Definition sample_interaction (status : string) (outputs : list Output.t) : Interaction.t :=
  {| Interaction.id := "h";
     Interaction.status := status;
     Interaction.outputs := Some outputs;
     Interaction.error := Has py_None |}.

Definition two_texts : Interaction.t :=
  sample_interaction "completed" [text_output "first"; text_output "second"].

Definition sample_exception : Exception :=
  {| exc_class := "RuntimeError";
     exc_bases := ["Exception"; "BaseException"; "object"];
     exc_str := "service unavailable" |}.

(** A stand-in for the wording of pydantic. *)
Definition sample_validation_text (model : string) (fields : list string) : string :=
  pretty (length fields) +:+ " validation error for " +:+ model.

Definition sample_sdk : Remote :=
  {| interactions_get := λ _ _, inr two_texts;
     interactions_create := λ _ _, inr two_texts;
     interactions_create_stream := λ _ _, inl sample_exception;
     generate_content := λ _ _, inl sample_exception;
     time := λ n, inject_Z (Z.of_nat n);
     validation_text := sample_validation_text |}.

Definition empty_world : World := {| calls := []; ticks := 0; slept := [] |}.

(** The arguments [quick_search], [analyze_urls] and [search_and_analyze]
    pass to [models.generate_content]. *)
Definition quick_search_request (query model language : string) : GenerateArgs :=
  {| generate_model := model;
     generate_contents := QuickSearchClient._build_prompt query language;
     generate_tools := [google_search] |}.

Definition analyze_urls_request (urls : list string) (query model language : string)
  : GenerateArgs :=
  {| generate_model := model;
     generate_contents :=
       QuickSearchClient._build_prompt
         (query +:+ LF +:+ LF +:+ "URLs:" +:+ LF +:+ String.concat LF urls) language;
     generate_tools := [url_context] |}.

Definition search_and_analyze_request (query : string) (urls : option (list string))
    (model language : string) : GenerateArgs :=
  {| generate_model := model;
     generate_contents :=
       match urls with
       | Some (u :: us) =>
           QuickSearchClient._build_prompt query language
             +:+ LF +:+ LF +:+ "参考URL:" +:+ LF +:+ String.concat LF (u :: us)
       | _ => QuickSearchClient._build_prompt query language
       end;
     generate_tools := [google_search; url_context] |}.

(** The grounding metadata of the first candidate of a response. *)
Definition response_grounding (response : Response.t) : option GroundingMetadata.t :=
  match Response.candidates response with
  | Some (candidate :: _) =>
      match Candidate.grounding_metadata candidate with
      | Has (Some metadata) => Some metadata
      | _ => None
      end
  | _ => None
  end.

(** The grounding chunks of a response: those of its first candidate, none
    when the response has no candidate, no grounding metadata or no list of
    chunks. *)
Definition response_chunks (response : Response.t) : list CandidateChunk.t :=
  match response_grounding response with
  | Some metadata =>
      match GroundingMetadata.grounding_chunks metadata with
      | Has (Some chunks) => chunks
      | _ => []
      end
  | None => []
  end.

(** The grounding supports of a response, likewise. *)
Definition response_supports (response : Response.t) : list Support.t :=
  match response_grounding response with
  | Some metadata =>
      match GroundingMetadata.grounding_supports metadata with
      | Has (Some supports) => supports
      | _ => []
      end
  | None => []
  end.

(** The web search queries of a response, likewise. *)
Definition response_queries (response : Response.t) : list string :=
  match response_grounding response with
  | Some metadata =>
      match GroundingMetadata.web_search_queries metadata with
      | Has (Some queries) => queries
      | _ => []
      end
  | None => []
  end.

(** The retrieval entries of a response: those of the URL context metadata
    of its first candidate, none when there is no such list. *)
Definition response_retrievals (response : Response.t) : list UrlMeta.t :=
  match Response.candidates response with
  | Some (candidate :: _) =>
      match Candidate.url_context_metadata candidate with
      | Has (Some metadata) =>
          match UrlContextMetadata.url_metadata metadata with
          | Has (Some metas) => metas
          | _ => []
          end
      | _ => []
      end
  | _ => []
  end.

(** The web sources of the grounding chunks that have one, in chunk order. *)
Definition web_sources (chunks : list CandidateChunk.t) : list GroundingChunkWeb.t :=
  omap (λ chunk, match CandidateChunk.web chunk with
                 | Has (Some web) => Some web
                 | _ => None
                 end) chunks.

(** [x] is the value of the attribute [a], or [absent] when the object has
    no such attribute; an attribute that holds [None] gives no value. *)
Definition attr_gives {A} (a : attr (option A)) (absent : A) (x : A) : Prop :=
  match a with
  | Has (Some v) => x = v
  | Has None => False
  | Missing => x = absent
  end.

(** The attribute [a] does not hold [None]. *)
Definition attr_set {A} (a : attr (option A)) : Prop := a ≠ Has None.

(** [citation] cites the web source [web]: its uri and its title. *)
Definition cites (citation : Citation.t) (web : GroundingChunkWeb.t) : Prop :=
  attr_gives (GroundingChunkWeb.uri web) "" (Citation.url citation)
  ∧ Citation.title citation
    = match GroundingChunkWeb.title web with
      | Has title => title
      | Missing => None
      end.




(** A grounding chunk of a candidate with a web uri and no title. *)
Definition source_chunk (uri : string) : CandidateChunk.t :=
  {| CandidateChunk.web :=
       Has (Some {| GroundingChunkWeb.uri := Has (Some uri);
                    GroundingChunkWeb.title := Has None |}) |}.

(** A response grounded in the chunks [{url: a}, {url: b}]. *)
Definition grounded_metadata : GroundingMetadata.t :=
  {| GroundingMetadata.web_search_queries := Has None;
     GroundingMetadata.grounding_chunks := Has (Some [source_chunk "a"; source_chunk "b"]);
     GroundingMetadata.grounding_supports := Has None |}.



Definition grounded_candidate : Candidate.t :=
  {| Candidate.grounding_metadata := Has (Some grounded_metadata);
     Candidate.url_context_metadata := Missing |}.

Definition grounded_response : Response.t :=
  {| Response.text := Some "answer"; Response.candidates := Some [grounded_candidate] |}.

Definition grounded_sdk : Remote :=
  {| interactions_get := λ _ _, inl sample_exception;
     interactions_create := λ _ _, inl sample_exception;
     interactions_create_stream := λ _ _, inl sample_exception;
     generate_content := λ _ _, inr grounded_response;
     time := λ n, inject_Z (Z.of_nat n);
     validation_text := sample_validation_text |}.

(** The result the [except] clause of [quick_search] and of
    [search_and_analyze] builds. *)
Definition search_failure (query model : string) (e : Exception) : QuickSearchResult.t :=
  {| QuickSearchResult.query := query;
     QuickSearchResult.content := "";
     QuickSearchResult.citations := [];
     QuickSearchResult.grounding_supports := [];
     QuickSearchResult.search_queries := [];
     QuickSearchResult.model := model;
     QuickSearchResult.error := Some (exc_str e) |}.

(** The result the [except] clause of [analyze_urls] builds. *)
Definition analysis_failure (urls : list string) (query model : string) (e : Exception)
  : UrlAnalysisResult.t :=
  {| UrlAnalysisResult.urls := urls;
     UrlAnalysisResult.query := query;
     UrlAnalysisResult.content := "";
     UrlAnalysisResult.url_metadata := [];
     UrlAnalysisResult.model := model;
     UrlAnalysisResult.error := Some (exc_str e) |}.


(** ** Vocabulary of the polling loop *)

(** The canonical status [get_status] and [get_result] give a vendor status. *)
Definition canonical_status (s : string) : ResearchStatusEnum :=
  default IN_PROGRESS (DeepResearchClient.status_map !! s).

(** The answer of the service to the [k]-th fetch made from the world [w] on. *)
Definition poll_reply (sdk : Remote) (interaction_id : string) (w : World) (k : nat)
  : Result Interaction.t :=
  interactions_get sdk (length (calls w) + k) interaction_id.

(** The [k]-th poll from [w] on observes no terminal status. *)
Definition pending (sdk : Remote) (interaction_id : string) (w : World) (k : nat) : Prop :=
  ∃ interaction,
    poll_reply sdk interaction_id w k = inr interaction
    ∧ canonical_status (Interaction.status interaction) = IN_PROGRESS.

(** [elapsed >= timeout]. *)
Definition reaches (timeout : Z) (elapsed : Q) : Prop := (inject_Z timeout <= elapsed)%Q.

(** The elapsed time [poll_until_complete], called in the world [w], computes
    after its [k]-th poll: the start time is the reading number [ticks w],
    and each poll that observes no terminal status takes one more reading. *)
Definition elapsed_after (sdk : Remote) (w : World) (k : nat) : Q :=
  (time sdk (S (ticks w) + k) - time sdk (ticks w))%Q.

(** One round of the loop that ends in [asyncio.sleep]: a fetch, a reading
    of the clock, a sleep. *)
Definition next_round (interaction_id : string) (poll_interval : Z) (w : World) : World :=
  {| calls := calls w ++ [InteractionsGet interaction_id];
     ticks := S (ticks w);
     slept := slept w ++ [poll_interval] |}.

Fixpoint after_rounds (interaction_id : string) (poll_interval : Z) (k : nat) (w : World)
  : World :=
  match k with
  | O => w
  | S k' => after_rounds interaction_id poll_interval k' (next_round interaction_id poll_interval w)
  end.

(** The world in which [poll_until_complete], called in [w], makes its
    [k]-th poll: the start time has been read and [k] rounds have passed. *)
Definition at_poll (interaction_id : string) (poll_interval : Z) (k : nat) (w : World)
  : World :=
  after_rounds interaction_id poll_interval k
    {| calls := calls w; ticks := S (ticks w); slept := slept w |}.

(** A service on which the task is in progress at the first poll and has
    failed at the second, with a clock that advances one second a reading. *)
Definition failing_interaction : Interaction.t :=
  {| Interaction.id := "h";
     Interaction.status := "failed";
     Interaction.outputs := Some [];
     Interaction.error := Has (py_str "quota exceeded") |}.

Definition failing_sdk : Remote :=
  {| interactions_get := λ n _,
       match n with
       | O => inr (sample_interaction "in_progress" [])
       | S _ => inr failing_interaction
       end;
     interactions_create := λ _ _, inl sample_exception;
     interactions_create_stream := λ _ _, inl sample_exception;
     generate_content := λ _ _, inl sample_exception;
     time := λ n, inject_Z (Z.of_nat n);
     validation_text := sample_validation_text |}.

(** A service on which the task keeps the vendor status [status]. *)
Definition pending_sdk (status : string) : Remote :=
  {| interactions_get := λ _ _, inr (sample_interaction status []);
     interactions_create := λ _ _, inl sample_exception;
     interactions_create_stream := λ _ _, inl sample_exception;
     generate_content := λ _ _, inl sample_exception;
     time := λ n, inject_Z (Z.of_nat n);
     validation_text := sample_validation_text |}.

(** The error message of a fetched interaction: the text of its error when
    it has one that is truthy. *)
Definition remote_error (interaction : Interaction.t) : option string :=
  match Interaction.error interaction with
  | Has error => if truthy error then Some (str error) else None
  | Missing => None
  end.

(** The [TimeoutError] of the check of [poll_until_complete]. *)
Definition poll_timeout (interaction_id : string) (timeout : Z) : Exception :=
  TimeoutError ("Research did not complete within " +:+ pretty timeout
                +:+ " seconds. Interaction ID: " +:+ interaction_id).

(** C1 as the spec states it: a [TimeoutError] exactly when the elapsed
    time reaches the timeout with no terminal status observed so far. *)
Definition poll_timeout_claim : Prop :=
  ∀ (sdk : Remote) (interaction_id : string) (poll_interval timeout : Z) (w : World),
    (∃ fuel e w',
       DeepResearchClient.poll_until_complete sdk fuel interaction_id poll_interval timeout w
         = Some (inl e, w')
       ∧ exc_class e = "TimeoutError")
    ↔ (∃ k, (∀ j, (j ≤ k)%nat → pending sdk interaction_id w j)
            ∧ reaches timeout (elapsed_after sdk w k)).

(** A service whose fetches time out on the network, with a clock that
    stands still. *)
Definition unreachable_sdk : Remote :=
  {| interactions_get := λ _ _, inl (TimeoutError "timed out");
     interactions_create := λ _ _, inl sample_exception;
     interactions_create_stream := λ _ _, inl sample_exception;
     generate_content := λ _ _, inl sample_exception;
     time := λ _, 0%Q;
     validation_text := sample_validation_text |}.

(** A service on which the task is in progress at the first poll and
    completed from the second on. *)
Definition completing_sdk : Remote :=
  {| interactions_get := λ n _,
       match n with
       | O => inr (sample_interaction "in_progress" [])
       | S _ => inr (sample_interaction "completed" [text_output "report"])
       end;
     interactions_create := λ _ _, inl sample_exception;
     interactions_create_stream := λ _ _, inl sample_exception;
     generate_content := λ _ _, inl sample_exception;
     time := λ n, inject_Z (Z.of_nat n);
     validation_text := sample_validation_text |}.

(** A service on which the creation of a task times out on the network. *)
Definition slow_sdk : Remote :=
  {| interactions_get := λ _ _, inl sample_exception;
     interactions_create := λ _ _,
       inl {| exc_class := "ConnectTimeout";
              exc_bases := ["TimeoutError"; "OSError"; "Exception"; "BaseException";
                            "object"];
              exc_str := "connect timed out" |};
     interactions_create_stream := λ _ _, inl sample_exception;
     generate_content := λ _ _, inl sample_exception;
     time := λ n, inject_Z (Z.of_nat n);
     validation_text := sample_validation_text |}.

(** ** Further requests and sample objects *)

(** The arguments [start_research] passes to [interactions.create]. *)
Definition start_request (query : string) (format_instructions : option string)
  : CreateArgs :=
  {| create_input := DeepResearchClient._build_input query format_instructions;
     create_agent := DeepResearchClient.AGENT_NAME;
     create_background := true;
     create_stream := false;
     create_agent_config := None;
     create_previous_interaction_id := None |}.

(** The arguments [stream_research] passes to [interactions.create]. *)
Definition stream_request (query : string) (format_instructions : option string)
  : CreateArgs :=
  {| create_input := DeepResearchClient._build_input query format_instructions;
     create_agent := DeepResearchClient.AGENT_NAME;
     create_background := true;
     create_stream := true;
     create_agent_config :=
       Some {[ "type" := "deep-research"; "thinking_summaries" := "auto" ]};
     create_previous_interaction_id := None |}.

(** A service that creates the task "h" and then reports it as [status]. *)
Definition research_sdk (status : string) : Remote :=
  {| interactions_get := λ _ _, inr (sample_interaction status [text_output "report"]);
     interactions_create := λ _ _, inr (sample_interaction "in_progress" []);
     interactions_create_stream := λ _ _, inl sample_exception;
     generate_content := λ _ _, inl sample_exception;
     time := λ n, inject_Z (Z.of_nat n);
     validation_text := sample_validation_text |}.




Definition is_completion_chunk (chunk : Chunk.t) : Prop :=
  Chunk.event_type chunk = "interaction.complete".

Global Instance is_completion_chunk_dec chunk : Decision (is_completion_chunk chunk).
Proof. unfold is_completion_chunk. apply _. Defined.

(** [entry] reports the provider's retrieval entry [url_meta]. *)
Definition reports (entry : UrlMetadata.t) (url_meta : UrlMeta.t) : Prop :=
  attr_gives (UrlMeta.retrieved_url url_meta) "" (UrlMetadata.url entry)
  ∧ attr_gives (UrlMeta.url_retrieval_status url_meta) "unknown" (UrlMetadata.status entry)
  ∧ UrlMetadata.title entry = None.

(** Neither field of the retrieval entry holds [None]. *)
Definition retrieval_set (url_meta : UrlMeta.t) : Prop :=
  attr_set (UrlMeta.retrieved_url url_meta)
  ∧ attr_set (UrlMeta.url_retrieval_status url_meta).

(** The supports that have a segment, in the provider's order. *)
Definition segmented_supports (supports : list Support.t) : list (Support.t * Segment.t) :=
  omap (λ support, match Support.segment support with
                   | Has (Some segment) => Some (support, segment)
                   | _ => None
                   end) supports.

(** A response that reports the retrieval of two pages, the second without
    a status. *)
Definition retrieved_response : Response.t :=
  {| Response.text := Some "analysis";
     Response.candidates :=
       Some [ {| Candidate.grounding_metadata := Missing;
                 Candidate.url_context_metadata :=
                   Has (Some {| UrlContextMetadata.url_metadata :=
                     Has (Some [ {| UrlMeta.retrieved_url := Has (Some "https://a.example");
                                    UrlMeta.url_retrieval_status := Has (Some "SUCCESS") |};
                                 {| UrlMeta.retrieved_url := Has (Some "https://b.example");
                                    UrlMeta.url_retrieval_status := Missing |} ]) |}) |} ] |}.

Definition retrieving_sdk : Remote :=
  {| interactions_get := λ _ _, inl sample_exception;
     interactions_create := λ _ _, inl sample_exception;
     interactions_create_stream := λ _ _, inl sample_exception;
     generate_content := λ _ _, inr retrieved_response;
     time := λ n, inject_Z (Z.of_nat n);
     validation_text := sample_validation_text |}.

(** [grounding_support] renders a provider support and its segment. *)
Definition renders (grounding_support : GroundingSupport.t)
    (entry : Support.t * Segment.t) : Prop :=
  attr_gives (Segment.text entry.2) "" (GroundingSupport.text grounding_support)
  ∧ attr_gives (Segment.start_index entry.2) 0%Z
      (GroundingSupport.start_index grounding_support)
  ∧ attr_gives (Segment.end_index entry.2) 0%Z
      (GroundingSupport.end_index grounding_support)
  ∧ attr_gives (Support.grounding_chunk_indices entry.1) []
      (GroundingSupport.citation_indices grounding_support).

(** No field of the segment, nor the list of chunk indices, holds [None]. *)
Definition segment_set (entry : Support.t * Segment.t) : Prop :=
  attr_set (Segment.text entry.2)
  ∧ attr_set (Segment.start_index entry.2)
  ∧ attr_set (Segment.end_index entry.2)
  ∧ attr_set (Support.grounding_chunk_indices entry.1).

(** The uri of the web source is not [None]. *)
Definition source_set (web : GroundingChunkWeb.t) : Prop :=
  attr_set (GroundingChunkWeb.uri web).

(** A response whose grounding metadata carries search queries and two
    supports, the first without a segment. *)
Definition supported_metadata : GroundingMetadata.t :=
  {| GroundingMetadata.web_search_queries := Has (Some ["nobel 2024"; "physics prize"]);
     GroundingMetadata.grounding_chunks := Missing;
     GroundingMetadata.grounding_supports :=
       Has (Some [ {| Support.segment := Has None;
                      Support.grounding_chunk_indices := Has (Some [0%Z]) |};
                   {| Support.segment :=
                        Has (Some {| Segment.text := Has (Some "claim");
                                     Segment.start_index := Missing;
                                     Segment.end_index := Has (Some 5%Z) |});
                      Support.grounding_chunk_indices := Missing |} ]) |}.

Definition supported_candidate : Candidate.t :=
  {| Candidate.grounding_metadata := Has (Some supported_metadata);
     Candidate.url_context_metadata := Missing |}.

Definition supported_response : Response.t :=
  {| Response.text := None; Response.candidates := Some [supported_candidate] |}.

Definition supported_sdk : Remote :=
  {| interactions_get := λ _ _, inl sample_exception;
     interactions_create := λ _ _, inl sample_exception;
     interactions_create_stream := λ _ _, inl sample_exception;
     generate_content := λ _ _, inr supported_response;
     time := λ n, inject_Z (Z.of_nat n);
     validation_text := sample_validation_text |}.

(** ** Vocabulary of the streaming handler *)

(** The handle of the last start event, [initial] when there is none. *)
Definition last_started (events : list ResearchEvent.t) (initial : option string)
  : option string :=
  fold_left (λ interaction_id event,
    match ResearchEvent.event_type event with
    | START => ResearchEvent.interaction_id event
    | _ => interaction_id
    end) events initial.

(** The non-empty contents of the events of type [type], in order. *)
Definition contents_of (type : ResearchEventType) (events : list ResearchEvent.t)
  : list string :=
  omap (λ event,
    if bool_decide (ResearchEvent.event_type event = type)
    then match ResearchEvent.content event with
         | Some (String c rest) => Some (String c rest)
         | _ => None
         end
    else None) events.

Definition is_error_event (event : ResearchEvent.t) : Prop :=
  ResearchEvent.event_type event = ERROR.

(** The handler [stream_research] run on all the events the generator
    yields and on the way the generator ends. *)
Definition handle_events (events : list ResearchEvent.t) (r : Result unit)
  : list (string * PyValue) :=
  match McpServer.consume_events events (None, [], []) with
  | inl returned => returned
  | inr state =>
      match r with
      | inl e => McpServer.stream_failure_dict e
      | inr _ => McpServer.stream_completed_dict state
      end
  end.

(** ** Vocabulary of the event stream *)



(** A [thought] or [text_delta] event; a [complete] or [error] event. *)
Definition is_delta_event (event : ResearchEvent.t) : Prop :=
  ResearchEvent.event_type event = THOUGHT ∨ ResearchEvent.event_type event = TEXT_DELTA.

Definition is_end_event (event : ResearchEvent.t) : Prop :=
  ResearchEvent.event_type event = COMPLETE ∨ ResearchEvent.event_type event = ERROR.

Definition is_start_chunk (chunk : Chunk.t) : bool :=
  bool_decide (Chunk.event_type chunk = "interaction.start").

Definition is_end_chunk (chunk : Chunk.t) : bool :=
  bool_decide (Chunk.event_type chunk = "interaction.complete")
  || bool_decide (Chunk.event_type chunk = "error").




Definition error_chunk : Chunk.t :=
  {| Chunk.event_type := "error";
     Chunk.interaction := Missing;
     Chunk.event_id := Missing;
     Chunk.delta := Missing;
     Chunk.error := Has (py_str "stream broken") |}.

Definition text_chunk (s : string) : Chunk.t :=
  {| Chunk.event_type := "content.delta";
     Chunk.interaction := Missing;
     Chunk.event_id := Missing;
     Chunk.delta := Has {| Delta.type := "text";
                           Delta.text := Has (Some s);
                           Delta.content := Missing;
                           Delta.repr := "" |};
     Chunk.error := Missing |}.

Definition start_chunk (interaction_id : string) : Chunk.t :=
  {| Chunk.event_type := "interaction.start";
     Chunk.interaction := Has (Some {| Interaction.id := interaction_id;
                                       Interaction.status := "in_progress";
                                       Interaction.outputs := None;
                                       Interaction.error := Missing |});
     Chunk.event_id := Missing;
     Chunk.delta := Missing;
     Chunk.error := Missing |}.

Definition complete_chunk (outputs : list Output.t) : Chunk.t :=
  {| Chunk.event_type := "interaction.complete";
     Chunk.interaction := Has (Some {| Interaction.id := "h";
                                       Interaction.status := "completed";
                                       Interaction.outputs := Some outputs;
                                       Interaction.error := Missing |});
     Chunk.event_id := Missing;
     Chunk.delta := Missing;
     Chunk.error := Missing |}.

(** A provider that sends the chunks [chunks] on every streaming request. *)
Definition streaming_sdk (chunks : list Chunk.t) : Remote :=
  {| interactions_get := λ _ _, inl sample_exception;
     interactions_create := λ _ _, inl sample_exception;
     interactions_create_stream := λ _ _, inr chunks;
     generate_content := λ _ _, inl sample_exception;
     time := λ n, inject_Z (Z.of_nat n);
     validation_text := sample_validation_text |}.

(** * Properties *)

(** ** Scanning outputs for text *)

Lemma output_text_Some output s : output_text output = Some s ↔ has_text output s.
Proof.
  unfold output_text, has_text. destruct (Output.text output) as [|[t|]].
  - split; [done | by intros [? _]].
  - case_bool_decide as Ht.
    + split; [done | intros [[= ->] Hne]; done].
    + split; [intros [= ->]; done | intros [[= ->] _]; done].
  - split; [done | by intros [? _]].
Qed.

Lemma output_text_None output : output_text output = None ↔ textless output.
Proof.
  unfold textless. split.
  - intros Hn s Hs%output_text_Some. congruence.
  - intros Hall. destruct (output_text output) as [s|] eqn:E; [|done].
    apply output_text_Some in E. by destruct (Hall s).
Qed.

Lemma scan_text_app l1 l2 :
  scan_text (l1 ++ l2) = match scan_text l1 with
                         | Some s => Some s
                         | None => scan_text l2
                         end.
Proof.
  induction l1 as [|o l1 IH]; simpl; [done|].
  destruct (output_text o); [done | exact IH].
Qed.

Lemma scan_text_None l : scan_text l = None ↔ Forall textless l.
Proof.
  induction l as [|o l IH]; simpl.
  - split; [constructor | done].
  - destruct (output_text o) as [s|] eqn:E.
    + split; [done|]. intros [Ho _]%Forall_cons.
      apply output_text_None in Ho. congruence.
    + rewrite IH, Forall_cons, <- output_text_None. tauto.
Qed.

(** Scanning newest-first finds the last output with a text. *)
Lemma scan_text_reverse older output newer s :
  has_text output s → Forall textless newer →
  scan_text (reverse (older ++ output :: newer)) = Some s.
Proof.
  intros Hs Hnewer.
  rewrite reverse_app, reverse_cons, <- (assoc_L (++)), scan_text_app.
  assert (scan_text (reverse newer) = None) as ->.
  { apply scan_text_None, Forall_reverse, Hnewer. }
  simpl. apply output_text_Some in Hs. by rewrite Hs.
Qed.

Lemma scan_text_reverse_None l :
  Forall textless l → scan_text (reverse l) = None.
Proof. intros. by apply scan_text_None, Forall_reverse. Qed.

(** ** The status map *)

Lemma status_map_lookup (s : string) :
  DeepResearchClient.status_map !! s =
    if decide (s = "in_progress") then Some IN_PROGRESS
    else if decide (s = "completed") then Some COMPLETED
    else if decide (s = "failed") then Some FAILED
    else if decide (s = "cancelled") then Some CANCELLED
    else None.
Proof.
  unfold DeepResearchClient.status_map.
  do 3 (case_decide; [subst; by vm_compute | rewrite lookup_insert_ne by done]).
  case_decide; [subst; by vm_compute | by apply lookup_singleton_ne].
Qed.

(** ** Citations of an interaction *)

Lemma fold_left_append {A B} (f : A → option B) (l : list A) (acc : list B) :
  fold_left (λ acc x, match f x with Some y => acc ++ [y] | None => acc end) l acc
  = acc ++ omap f l.
Proof.
  revert acc. induction l as [|x l IH]; intros acc; simpl.
  - by rewrite (right_id_L [] (++)).
  - rewrite IH. destruct (f x); [by rewrite <- (assoc_L (++)) | done].
Qed.

(** The two nested loops of [_extract_citations] collect the uris of the
    chunks of all outputs, in iteration order, duplicates kept. *)
Lemma extract_citations_loops (outputs : list Output.t) (acc : list string) :
  fold_left (λ citations output,
    fold_left (λ citations chunk,
      match DeepResearchClient.chunk_uri chunk with
      | Some uri => citations ++ [uri]
      | None => citations
      end) (DeepResearchClient.output_chunks output) citations) outputs acc
  = acc ++ omap DeepResearchClient.chunk_uri
             (outputs ≫= DeepResearchClient.output_chunks).
Proof.
  revert acc. induction outputs as [|o os IH]; intros acc; simpl.
  - by rewrite (right_id_L [] (++)).
  - rewrite IH, fold_left_append, omap_app. by rewrite (assoc_L (++)).
Qed.

Lemma chunk_uri_Some chunk uri :
  DeepResearchClient.chunk_uri chunk = Some uri ↔
  ∃ web, GroundingChunk.web chunk = Has (Some web) ∧ Web.uri web = Has uri.
Proof.
  unfold DeepResearchClient.chunk_uri.
  destruct (GroundingChunk.web chunk) as [|[web|]].
  - split; [done | by intros (? & ? & _)].
  - destruct (Web.uri web) as [|u] eqn:E.
    + split; [done | intros (? & [= <-] & ?); congruence].
    + split; [intros [= ->]; eauto | intros (? & [= <-] & ?); congruence].
  - split; [done | by intros (? & ? & _)].
Qed.

Lemma elem_of_output_chunks output chunk :
  chunk ∈ DeepResearchClient.output_chunks output ↔ chunk_of output chunk.
Proof.
  unfold DeepResearchClient.output_chunks, chunk_of.
  destruct (Output.grounding_metadata output) as [|[m|]].
  - split; [by intros ?%elem_of_nil | by intros (? & ? & ? & _)].
  - destruct (OutputGrounding.grounding_chunks m) as [|cs] eqn:E.
    + split; [by intros ?%elem_of_nil | intros (? & ? & [= <-] & ? & _); congruence].
    + split; [intros; eauto 6 | intros (? & ? & [= <-] & ? & ?); congruence].
  - split; [by intros ?%elem_of_nil | by intros (? & ? & ? & _)].
Qed.

Lemma collected_uris_nil outputs :
  (∀ output chunk, output ∈ outputs → chunk_of output chunk → ¬ has_web_uri chunk) →
  collected_uris outputs = [].
Proof.
  intros Hno. unfold collected_uris.
  destruct (omap _ _) as [|u us] eqn:E; [done|exfalso].
  assert (u ∈ omap DeepResearchClient.chunk_uri
            (outputs ≫= DeepResearchClient.output_chunks)) as Hu.
  { rewrite E. left. }
  apply list_elem_of_omap in Hu as (chunk & Hin & Huri).
  apply list_elem_of_bind in Hin as (output & Hchunk & Hout).
  apply (Hno output chunk Hout).
  - by apply elem_of_output_chunks.
  - apply chunk_uri_Some in Huri as (web & ? & ?). by exists web, u.
Qed.

Lemma extract_citations_eq interaction outputs :
  Interaction.outputs interaction = Some outputs →
  DeepResearchClient._extract_citations interaction
  = inr (match collected_uris outputs with [] => None | _ :: _ => Some (collected_uris outputs) end).
Proof.
  intros Ho. unfold DeepResearchClient._extract_citations. rewrite Ho.
  by rewrite extract_citations_loops.
Qed.

(** ** [get_status] and [get_result] when the fetch succeeds *)

Section Fetch.
Variable sdk : Remote.

Lemma get_status_eq interaction_id w :
  DeepResearchClient.get_status sdk interaction_id w =
    (match interactions_get sdk (length (calls w)) interaction_id with
     | inl e => inl e
     | inr interaction =>
         inr {| ResearchStatus.interaction_id := interaction_id;
                ResearchStatus.status :=
                  default IN_PROGRESS
                    (DeepResearchClient.status_map !! Interaction.status interaction);
                ResearchStatus.error :=
                  DeepResearchClient.error_message
                    (getattr (Interaction.error interaction) py_None) |}
     end, log_call (InteractionsGet interaction_id) w).
Proof.
  unfold DeepResearchClient.get_status, DeepResearchClient.client_interactions_get,
    mbind, M_bind, mret, M_ret.
  by destruct (interactions_get sdk _ _).
Qed.

Lemma get_result_eq interaction_id w interaction :
  interactions_get sdk (length (calls w)) interaction_id = inr interaction →
  let status :=
    default IN_PROGRESS (DeepResearchClient.status_map !! Interaction.status interaction) in
  let outputs := default [] (Interaction.outputs interaction) in
  let filled :=
    bool_decide (status = COMPLETED)
    && DeepResearchClient.outputs_truthy (Interaction.outputs interaction) in
  DeepResearchClient.get_result sdk interaction_id w =
    (inr {| ResearchResult.interaction_id := interaction_id;
            ResearchResult.status := status;
            ResearchResult.content :=
              if filled then scan_text (reverse outputs) else None;
            ResearchResult.citations :=
              if filled
              then match collected_uris outputs with
                   | [] => None
                   | _ :: _ => Some (collected_uris outputs)
                   end
              else None;
            ResearchResult.error :=
              DeepResearchClient.error_message
                (getattr (Interaction.error interaction) py_None) |},
     log_call (InteractionsGet interaction_id) w).
Proof.
  intros Hget. simpl.
  unfold DeepResearchClient.get_result, DeepResearchClient.client_interactions_get,
    mbind, M_bind, mret, M_ret, lift.
  rewrite Hget.
  destruct (bool_decide _ && _) eqn:Hfilled; [|done].
  apply andb_true_iff in Hfilled as [_ Hout].
  destruct (Interaction.outputs interaction) as [outputs|] eqn:Ho; [|done].
  by rewrite (extract_citations_eq _ _ Ho).
Qed.
End Fetch.

Lemma mapped_status_value (s : string) (canonical : ResearchStatusEnum) :
  ResearchStatusEnum_value canonical = s →
  default IN_PROGRESS (DeepResearchClient.status_map !! s) = canonical.
Proof. intros <-. by destruct canonical. Qed.

Lemma mapped_status_unknown (s : string) :
  (∀ canonical, ResearchStatusEnum_value canonical ≠ s) →
  default IN_PROGRESS (DeepResearchClient.status_map !! s) = IN_PROGRESS.
Proof.
  intros Hno. rewrite status_map_lookup.
  repeat case_decide; try done; subst.
  - by destruct (Hno COMPLETED).
  - by destruct (Hno FAILED).
  - by destruct (Hno CANCELLED).
Qed.

Lemma mapped_status_completed (s : string) :
  default IN_PROGRESS (DeepResearchClient.status_map !! s) = COMPLETED ↔ s = "completed".
Proof.
  rewrite status_map_lookup. repeat case_decide; subst; simpl; split; done.
Qed.

(** C7: for every vendor status string, get_status returns one of the four
    canonical statuses: the one whose name is the vendor string when there
    is such a one, and in_progress for every other string. It makes one
    fetch and does not raise when the fetch succeeds. *)
Theorem get_status_canonical (sdk : Remote) (interaction_id : string) (w : World)
    (interaction : Interaction.t) :
  interactions_get sdk (length (calls w)) interaction_id = inr interaction →
  ∃ status,
    DeepResearchClient.get_status sdk interaction_id w
      = (inr status, log_call (InteractionsGet interaction_id) w)
    ∧ ResearchStatus.interaction_id status = interaction_id
    ∧ (∀ canonical, ResearchStatusEnum_value canonical = Interaction.status interaction →
         ResearchStatus.status status = canonical)
    ∧ ((∀ canonical, ResearchStatusEnum_value canonical ≠ Interaction.status interaction) →
         ResearchStatus.status status = IN_PROGRESS).
Proof.
  intros Hget. rewrite get_status_eq, Hget.
  eexists. split; [reflexivity|]. simpl. split; [done|]. split.
  - apply mapped_status_value.
  - apply mapped_status_unknown.
Qed.

Lemma get_status_canonical_witness :
  ∃ status,
    DeepResearchClient.get_status sample_sdk "h" empty_world
      = (inr status, log_call (InteractionsGet "h") empty_world)
    ∧ ResearchStatus.interaction_id status = "h"
    ∧ (∀ canonical, ResearchStatusEnum_value canonical = Interaction.status two_texts →
         ResearchStatus.status status = canonical)
    ∧ ((∀ canonical, ResearchStatusEnum_value canonical ≠ Interaction.status two_texts) →
         ResearchStatus.status status = IN_PROGRESS).
Proof. exact (get_status_canonical sample_sdk "h" empty_world two_texts eq_refl). Defined.

(** A vendor status outside the four names is reported as in_progress. *)
Example get_status_unrecognized :
  canonical_status "requires_action" = IN_PROGRESS
  ∧ canonical_status "COMPLETED" = IN_PROGRESS
  ∧ canonical_status "cancelled" = CANCELLED.
Proof. by vm_compute. Qed.

(** C4: for every fetched interaction, get_result sets content to the text
    of the last output that carries a non-empty text when the status is
    completed (the first hit of the newest-first scan), to None when no
    output carries one; when the status is not completed, content and
    citations are both None. *)
Theorem get_result_content (sdk : Remote) (interaction_id : string) (w : World)
    (interaction : Interaction.t) :
  interactions_get sdk (length (calls w)) interaction_id = inr interaction →
  ∃ result,
    DeepResearchClient.get_result sdk interaction_id w
      = (inr result, log_call (InteractionsGet interaction_id) w)
    ∧ (Interaction.status interaction = "completed" →
         (∀ outputs s, Interaction.outputs interaction = Some outputs →
            last_text_is outputs s → ResearchResult.content result = Some s)
         ∧ ((∀ outputs, Interaction.outputs interaction = Some outputs →
               Forall textless outputs) →
            ResearchResult.content result = None))
    ∧ (Interaction.status interaction ≠ "completed" →
         ResearchResult.content result = None ∧ ResearchResult.citations result = None).
Proof.
  intros Hget. rewrite (get_result_eq _ _ _ _ Hget).
  eexists. split; [reflexivity|]. simpl. split.
  - intros Hdone. apply mapped_status_completed in Hdone. rewrite Hdone. split.
    + intros outputs s Ho (older & output & newer & -> & Hs & Hnewer).
      rewrite Ho.
      assert (DeepResearchClient.outputs_truthy (Some (older ++ output :: newer)) = true)
        as -> by by destruct older.
      simpl. by apply scan_text_reverse.
    + intros Hnone. destruct (Interaction.outputs interaction) as [outputs|]; [|done].
      simpl. case_match; [|done].
      by apply scan_text_reverse_None, Hnone.
  - intros Hnot.
    assert (bool_decide
              (default IN_PROGRESS
                 (DeepResearchClient.status_map !! Interaction.status interaction)
               = COMPLETED) = false) as ->.
    { apply bool_decide_eq_false. by rewrite mapped_status_completed. }
    done.
Qed.

Lemma get_result_content_witness :
  ∃ result,
    DeepResearchClient.get_result sample_sdk "h" empty_world
      = (inr result, log_call (InteractionsGet "h") empty_world)
    ∧ (Interaction.status two_texts = "completed" →
         (∀ outputs s, Interaction.outputs two_texts = Some outputs →
            last_text_is outputs s → ResearchResult.content result = Some s)
         ∧ ((∀ outputs, Interaction.outputs two_texts = Some outputs →
               Forall textless outputs) →
            ResearchResult.content result = None))
    ∧ (Interaction.status two_texts ≠ "completed" →
         ResearchResult.content result = None ∧ ResearchResult.citations result = None).
Proof. exact (get_result_content sample_sdk "h" empty_world two_texts eq_refl). Defined.

(** The example of the specification: the outputs, newest first, are an
    output without text, "final" and "ignored-older"; the content is "final". *)
Example get_result_scans_newest_first :
  scan_text (reverse [text_output "ignored-older"; text_output "final";
                      {| Output.text := Has None; Output.grounding_metadata := Missing |}])
  = Some "final".
Proof. reflexivity. Qed.

(** C10: get_result never returns an empty citations list; for a completed
    interaction none of whose outputs has a grounding chunk with a web uri,
    citations is None. *)
Theorem get_result_citations_absent (sdk : Remote) (interaction_id : string) (w : World)
    (interaction : Interaction.t) :
  interactions_get sdk (length (calls w)) interaction_id = inr interaction →
  ∃ result,
    DeepResearchClient.get_result sdk interaction_id w
      = (inr result, log_call (InteractionsGet interaction_id) w)
    ∧ ResearchResult.citations result ≠ Some []
    ∧ (Interaction.status interaction = "completed" →
       (∀ outputs output chunk,
          Interaction.outputs interaction = Some outputs →
          output ∈ outputs → chunk_of output chunk → ¬ has_web_uri chunk) →
       ResearchResult.status result = COMPLETED
       ∧ ResearchResult.citations result = None).
Proof.
  intros Hget. rewrite (get_result_eq _ _ _ _ Hget).
  eexists. split; [reflexivity|]. simpl. split.
  - destruct (bool_decide _ && _); [|done].
    by destruct (collected_uris _).
  - intros Hdone Hno. apply mapped_status_completed in Hdone. rewrite Hdone.
    split; [done|].
    destruct (Interaction.outputs interaction) as [outputs|]; simpl; [|done].
    case_match; [|done].
    rewrite collected_uris_nil; [done|]. intros output chunk. by apply Hno.
Qed.

Lemma get_result_citations_absent_witness :
  ∃ result,
    DeepResearchClient.get_result sample_sdk "h" empty_world
      = (inr result, log_call (InteractionsGet "h") empty_world)
    ∧ ResearchResult.citations result ≠ Some []
    ∧ (Interaction.status two_texts = "completed" →
       (∀ outputs output chunk,
          Interaction.outputs two_texts = Some outputs →
          output ∈ outputs → chunk_of output chunk → ¬ has_web_uri chunk) →
       ResearchResult.status result = COMPLETED
       ∧ ResearchResult.citations result = None).
Proof. exact (get_result_citations_absent sample_sdk "h" empty_world two_texts eq_refl). Defined.

(** ** [ask_followup] *)

(** C8: for every follow-up response, ask_followup returns the text of the
    last output that carries a non-empty text (the first one met scanning
    the outputs in reverse), and the empty string when outputs is None,
    empty, or holds no output with a non-empty text. *)
Theorem ask_followup_last_text (sdk : Remote) (previous_interaction_id question : string)
    (w : World) (interaction : Interaction.t) :
  interactions_create sdk (length (calls w))
    (followup_request previous_interaction_id question) = inr interaction →
  ∃ answer,
    DeepResearchClient.ask_followup sdk previous_interaction_id question w
      = (inr answer,
         log_call (InteractionsCreate (followup_request previous_interaction_id question)) w)
    ∧ (∀ outputs s, Interaction.outputs interaction = Some outputs →
         last_text_is outputs s → answer = s)
    ∧ ((∀ outputs, Interaction.outputs interaction = Some outputs →
          Forall textless outputs) → answer = "").
Proof.
  intros Hcreate.
  unfold DeepResearchClient.ask_followup, DeepResearchClient.client_interactions_create,
    mbind, M_bind, mret, M_ret.
  change {| create_input := question; create_agent := DeepResearchClient.AGENT_NAME;
            create_background := false; create_stream := false;
            create_agent_config := None;
            create_previous_interaction_id := Some previous_interaction_id |}
    with (followup_request previous_interaction_id question).
  rewrite Hcreate. eexists. split; [reflexivity|]. split.
  - intros outputs s Ho (older & output & newer & -> & Hs & Hnewer).
    rewrite Ho.
    assert (DeepResearchClient.outputs_truthy (Some (older ++ output :: newer)) = true)
      as -> by by destruct older.
    simpl. by rewrite (scan_text_reverse _ _ _ s).
  - intros Hnone. destruct (Interaction.outputs interaction) as [outputs|]; [|done].
    case_match; [|done]. simpl.
    by rewrite scan_text_reverse_None by by apply Hnone.
Qed.

Lemma ask_followup_last_text_witness :
  ∃ answer,
    DeepResearchClient.ask_followup sample_sdk "h" "q" empty_world
      = (inr answer, log_call (InteractionsCreate (followup_request "h" "q")) empty_world)
    ∧ (∀ outputs s, Interaction.outputs two_texts = Some outputs →
         last_text_is outputs s → answer = s)
    ∧ ((∀ outputs, Interaction.outputs two_texts = Some outputs →
          Forall textless outputs) → answer = "").
Proof. apply (ask_followup_last_text sample_sdk "h" "q" empty_world two_texts). reflexivity. Defined.

Lemma text_output_has_text s : s ≠ "" → has_text (text_output s) s.
Proof. by split. Qed.

(** The claim as the specification words it fails on a response with two
    texts: the first non-empty text of the outputs is "first", and
    ask_followup answers "second". *)
Lemma ask_followup_first_text_refuted :
  first_text_is [text_output "first"; text_output "second"] "first"
  ∧ DeepResearchClient.ask_followup sample_sdk "h" "q" empty_world
    = (inr "second", log_call (InteractionsCreate (followup_request "h" "q")) empty_world)
  ∧ ¬ ask_followup_first_text_claim.
Proof.
  assert (first_text_is [text_output "first"; text_output "second"] "first") as Hfirst.
  { exists [], (text_output "first"), [text_output "second"].
    split; [done|]. split; [constructor|]. by apply text_output_has_text. }
  split; [exact Hfirst|]. split; [reflexivity|].
  intros Hclaim.
  destruct (Hclaim sample_sdk "h" "q" empty_world two_texts eq_refl)
    as (answer & w' & Hrun & Hans & _).
  specialize (Hans _ "first" eq_refl Hfirst).
  vm_compute in Hrun. congruence.
Qed.

(** ** [QuickSearchClient] *)

Section QuickSearch.
Variable sdk : Remote.

Lemma quick_search_eq query model language w :
  QuickSearchClient.quick_search sdk query model language w =
    (inr match generate_content sdk (length (calls w))
                 (quick_search_request query model language) with
         | inr response =>
             match QuickSearchClient.extract_grounding sdk response with
             | inr (citations, grounding_supports, search_queries) =>
                 {| QuickSearchResult.query := query;
                    QuickSearchResult.content := QuickSearchClient.response_content response;
                    QuickSearchResult.citations := citations;
                    QuickSearchResult.grounding_supports := grounding_supports;
                    QuickSearchResult.search_queries := search_queries;
                    QuickSearchResult.model := model;
                    QuickSearchResult.error := None |}
             | inl e => search_failure query model e
             end
         | inl e => search_failure query model e
         end,
     log_call (GenerateContent (quick_search_request query model language)) w).
Proof.
  unfold QuickSearchClient.quick_search, try_except,
    QuickSearchClient.client_generate_content, lift, mbind, M_bind, mret, M_ret.
  fold (quick_search_request query model language).
  destruct (generate_content sdk _ _) as [e|response]; [done|].
  by destruct (QuickSearchClient.extract_grounding sdk response) as [e|[[? ?] ?]].
Qed.

Lemma search_and_analyze_eq query urls model language w :
  QuickSearchClient.search_and_analyze sdk query urls model language w =
    (inr match generate_content sdk (length (calls w))
                 (search_and_analyze_request query urls model language) with
         | inr response =>
             match QuickSearchClient.extract_grounding sdk response with
             | inr (citations, grounding_supports, search_queries) =>
                 {| QuickSearchResult.query := query;
                    QuickSearchResult.content := QuickSearchClient.response_content response;
                    QuickSearchResult.citations := citations;
                    QuickSearchResult.grounding_supports := grounding_supports;
                    QuickSearchResult.search_queries := search_queries;
                    QuickSearchResult.model := model;
                    QuickSearchResult.error := None |}
             | inl e => search_failure query model e
             end
         | inl e => search_failure query model e
         end,
     log_call (GenerateContent (search_and_analyze_request query urls model language)) w).
Proof.
  unfold QuickSearchClient.search_and_analyze, try_except,
    QuickSearchClient.client_generate_content, lift, mbind, M_bind, mret, M_ret.
  fold (search_and_analyze_request query urls model language).
  destruct (generate_content sdk _ _) as [e|response]; [done|].
  by destruct (QuickSearchClient.extract_grounding sdk response) as [e|[[? ?] ?]].
Qed.

Lemma analyze_urls_eq urls query model language w :
  QuickSearchClient.analyze_urls sdk urls query model language w =
    if bool_decide (20 < length urls)%nat then
      (inr {| UrlAnalysisResult.urls := urls;
              UrlAnalysisResult.query := query;
              UrlAnalysisResult.content := "";
              UrlAnalysisResult.url_metadata := [];
              UrlAnalysisResult.model := model;
              UrlAnalysisResult.error := Some "Maximum 20 URLs allowed per request" |}, w)
    else
      (inr match generate_content sdk (length (calls w))
                   (analyze_urls_request urls query model language) with
           | inr response =>
               match QuickSearchClient.extract_url_metadata sdk response with
               | inr url_metadata =>
                   {| UrlAnalysisResult.urls := urls;
                      UrlAnalysisResult.query := query;
                      UrlAnalysisResult.content :=
                        QuickSearchClient.response_content response;
                      UrlAnalysisResult.url_metadata := url_metadata;
                      UrlAnalysisResult.model := model;
                      UrlAnalysisResult.error := None |}
               | inl e => analysis_failure urls query model e
               end
           | inl e => analysis_failure urls query model e
           end,
       log_call (GenerateContent (analyze_urls_request urls query model language)) w).
Proof.
  unfold QuickSearchClient.analyze_urls. case_bool_decide; [done|].
  unfold try_except, QuickSearchClient.client_generate_content, lift,
    mbind, M_bind, mret, M_ret.
  fold (analyze_urls_request urls query model language).
  destruct (generate_content sdk _ _) as [e|response]; [done|].
  by destruct (QuickSearchClient.extract_url_metadata sdk response).
Qed.

(** A loop that appends what it builds from the items it picks: it ends
    without raising exactly when every picked item is accepted, and then
    it has appended one built value per picked item, in order. *)
Lemma for_each_collect {A B C} (pick : A → option B) (build : B → Result C)
    (built : C → B → Prop) (accepted : B → Prop) (l : list A) (acc : list C) :
  (∀ y z, build y = inr z → built z y ∧ accepted y) →
  (∀ y e, build y = inl e → ¬ accepted y) →
  match for_each (λ acc x,
          match pick x with
          | Some y =>
              match build y with
              | inl e => inl e
              | inr z => inr (acc ++ [z])
              end
          | None => inr acc
          end) l acc with
  | inr out => ∃ rest, out = acc ++ rest
                       ∧ Forall2 built rest (omap pick l)
                       ∧ Forall accepted (omap pick l)
  | inl e => ¬ Forall accepted (omap pick l)
  end.
Proof.
  intros Hok Hko. revert acc. induction l as [|x l IH]; intros acc; simpl.
  - exists []. by rewrite (right_id_L [] (++)).
  - destruct (pick x) as [y|]; [|apply IH].
    destruct (build y) as [e|z] eqn:Hbuild.
    + intros Hall. apply Forall_cons in Hall as [Hy _]. by apply (Hko _ _ Hbuild).
    + destruct (Hok _ _ Hbuild) as [Hbuilt Haccepted].
      specialize (IH (acc ++ [z])).
      destruct (for_each _ l (acc ++ [z])) as [e|out].
      * intros Hall. apply Forall_cons in Hall as [_ Hall]. by apply IH.
      * destruct IH as (rest & -> & Hrest & Hall).
        exists (z :: rest). rewrite <- (assoc_L (++)). simpl.
        split; [done|]. split; by constructor.
Qed.

Lemma for_each_ext {A S} (body body' : S → A → Result S) (l : list A) (s : S) :
  (∀ s x, body s x = body' s x) → for_each body l s = for_each body' l s.
Proof.
  intros Hext. revert s. induction l as [|x l IH]; intros s; simpl; [done|].
  rewrite Hext. destruct (body' s x); [done|apply IH].
Qed.

Lemma attr_gives_getattr {A} (a : attr (option A)) (absent x : A) :
  getattr a (Some absent) = Some x → attr_gives a absent x ∧ attr_set a.
Proof. unfold attr_set. destruct a as [|[v|]]; simpl; intros; by simplify_eq. Qed.

Lemma attr_set_getattr {A} (a : attr (option A)) (absent : A) :
  getattr a (Some absent) = None → ¬ attr_set a.
Proof. unfold attr_set. destruct a as [|[v|]]; simpl; intros Hget Hset; by simplify_eq. Qed.

(** The loop over the grounding chunks builds one citation per chunk with a
    web source, in chunk order, and raises when a web source has the uri
    [None]. *)
Lemma extract_citations_spec (chunks : list CandidateChunk.t) :
  match QuickSearchClient.extract_citations sdk chunks with
  | inr citations =>
      Forall2 cites citations (web_sources chunks)
      ∧ Forall source_set (web_sources chunks)
  | inl e => ¬ Forall source_set (web_sources chunks)
  end.
Proof.
  unfold QuickSearchClient.extract_citations, web_sources.
  set (pick := λ chunk : CandidateChunk.t,
         match CandidateChunk.web chunk with
         | Has (Some web) => Some web
         | _ => None
         end).
  set (build := λ web : GroundingChunkWeb.t,
         new_Citation sdk (getattr (GroundingChunkWeb.uri web) (Some ""))
           (getattr (GroundingChunkWeb.title web) None)).
  rewrite (for_each_ext _ (λ acc x,
             match pick x with
             | Some y =>
                 match build y with
                 | inl e => inl e
                 | inr z => inr (acc ++ [z])
                 end
             | None => inr acc
             end)).
  2:{ intros acc chunk. unfold pick. by destruct (CandidateChunk.web chunk) as [|[web|]]. }
  assert (∀ web citation, build web = inr citation → cites citation web ∧ source_set web)
    as Hok.
  { intros web citation. unfold build, new_Citation.
    destruct (getattr (GroundingChunkWeb.uri web) (Some "")) as [url|] eqn:Huri; [|done].
    intros [= <-]. destruct (attr_gives_getattr _ _ _ Huri) as [Hurl Hset].
    split; [split; [done|]|done]. simpl.
    by destruct (GroundingChunkWeb.title web). }
  assert (∀ web e, build web = inl e → ¬ source_set web) as Hko.
  { intros web e. unfold build, new_Citation.
    destruct (getattr (GroundingChunkWeb.uri web) (Some "")) as [url|] eqn:Huri; [done|].
    intros _. by apply (attr_set_getattr _ _ Huri). }
  pose proof (for_each_collect pick build cites source_set chunks [] Hok Hko) as Hloop.
  destruct (for_each _ chunks []) as [e|citations]; [done|].
  by destruct Hloop as (rest & -> & Hrest & Hall).
Qed.

(** The loop over the grounding supports builds one grounding support per
    support with a segment, in order, and raises when a field of a segment
    or the list of chunk indices is [None]. *)
Lemma extract_supports_spec (supports : list Support.t) :
  match QuickSearchClient.extract_supports sdk supports with
  | inr grounding_supports =>
      Forall2 renders grounding_supports (segmented_supports supports)
      ∧ Forall segment_set (segmented_supports supports)
  | inl e => ¬ Forall segment_set (segmented_supports supports)
  end.
Proof.
  unfold QuickSearchClient.extract_supports, segmented_supports.
  set (pick := λ support : Support.t,
         match Support.segment support with
         | Has (Some segment) => Some (support, segment)
         | _ => None
         end).
  set (build := λ entry : Support.t * Segment.t,
         match QuickSearchClient.citation_indices_of entry.1 with
         | inl e => inl e
         | inr citation_indices =>
             new_GroundingSupport sdk
               (getattr (Segment.text entry.2) (Some ""))
               (getattr (Segment.start_index entry.2) (Some 0%Z))
               (getattr (Segment.end_index entry.2) (Some 0%Z))
               citation_indices
         end).
  rewrite (for_each_ext _ (λ acc x,
             match pick x with
             | Some y =>
                 match build y with
                 | inl e => inl e
                 | inr z => inr (acc ++ [z])
                 end
             | None => inr acc
             end)).
  2:{ intros acc support. unfold pick, build.
      destruct (Support.segment support) as [|[segment|]]; [done| |done]. simpl.
      by destruct (QuickSearchClient.citation_indices_of support). }
  assert (∀ entry grounding_support,
            build entry = inr grounding_support →
            renders grounding_support entry ∧ segment_set entry) as Hok.
  { intros [support segment] grounding_support.
    unfold build, QuickSearchClient.citation_indices_of, new_GroundingSupport,
      renders, segment_set, attr_set. simpl.
    destruct (Support.grounding_chunk_indices support) as [|[indices|]],
      (Segment.text segment) as [|[text|]],
      (Segment.start_index segment) as [|[start_index|]],
      (Segment.end_index segment) as [|[end_index|]]; simpl; try done.
    all: by intros [= <-]. }
  assert (∀ entry e, build entry = inl e → ¬ segment_set entry) as Hko.
  { intros [support segment] e.
    unfold build, QuickSearchClient.citation_indices_of, new_GroundingSupport,
      segment_set, attr_set. simpl.
    destruct (Support.grounding_chunk_indices support) as [|[indices|]],
      (Segment.text segment) as [|[text|]],
      (Segment.start_index segment) as [|[start_index|]],
      (Segment.end_index segment) as [|[end_index|]]; simpl; try done.
    all: intros _ (? & ? & ? & ?); done. }
  pose proof (for_each_collect pick build renders segment_set supports [] Hok Hko) as Hloop.
  destruct (for_each _ supports []) as [e|grounding_supports]; [done|].
  by destruct Hloop as (rest & -> & Hrest & Hall).
Qed.

Lemma omap_Some_id {A} (l : list A) : omap Some l = l.
Proof. induction l as [|x l IH]; [done|]. csimpl. by rewrite IH. Qed.

(** The block "Extract URL metadata" builds one entry per retrieval entry
    of the response, in order, and raises when a field of one is [None]. *)
Lemma extract_url_metadata_spec (response : Response.t) :
  match QuickSearchClient.extract_url_metadata sdk response with
  | inr url_metadata =>
      Forall2 reports url_metadata (response_retrievals response)
      ∧ Forall retrieval_set (response_retrievals response)
  | inl e => ¬ Forall retrieval_set (response_retrievals response)
  end.
Proof.
  unfold QuickSearchClient.extract_url_metadata, QuickSearchClient.first_candidate,
    response_retrievals.
  destruct (Response.candidates response) as [[|candidate rest]|];
    [by split; constructor| |by split; constructor].
  destruct (Candidate.url_context_metadata candidate) as [|[metadata|]];
    [by split; constructor| |by split; constructor].
  destruct (UrlContextMetadata.url_metadata metadata) as [|[[|meta metas]|]];
    [by split; constructor|by split; constructor| |by split; constructor].
  cbn [QuickSearchClient.truthy_list].
  set (build := λ url_meta : UrlMeta.t,
         new_UrlMetadata sdk
           (getattr (UrlMeta.retrieved_url url_meta) (Some ""))
           (getattr (UrlMeta.url_retrieval_status url_meta) (Some "unknown")) None).
  rewrite (for_each_ext _ (λ acc x,
             match Some x with
             | Some y =>
                 match build y with
                 | inl e => inl e
                 | inr z => inr (acc ++ [z])
                 end
             | None => inr acc
             end)) by done.
  assert (∀ url_meta entry,
            build url_meta = inr entry → reports entry url_meta ∧ retrieval_set url_meta)
    as Hok.
  { intros url_meta entry.
    unfold build, new_UrlMetadata, reports, retrieval_set, attr_set.
    destruct (UrlMeta.retrieved_url url_meta) as [|[url|]],
      (UrlMeta.url_retrieval_status url_meta) as [|[status|]]; simpl; try done.
    all: by intros [= <-]. }
  assert (∀ url_meta e, build url_meta = inl e → ¬ retrieval_set url_meta) as Hko.
  { intros url_meta e.
    unfold build, new_UrlMetadata, retrieval_set, attr_set.
    destruct (UrlMeta.retrieved_url url_meta) as [|[url|]],
      (UrlMeta.url_retrieval_status url_meta) as [|[status|]]; simpl; try done.
    all: intros _ (? & ?); done. }
  pose proof (for_each_collect Some build reports retrieval_set (meta :: metas) [] Hok Hko)
    as Hloop.
  rewrite omap_Some_id in Hloop.
  destruct (for_each _ (meta :: metas) []) as [e|url_metadata]; [done|].
  by destruct Hloop as (built & -> & Hbuilt & Hall).
Qed.

Lemma truthy_list_total {A B} (f : list A → Result (list B)) (a : attr (option (list A))) :
  f [] = inr [] →
  match QuickSearchClient.truthy_list a with
  | Some l => f l
  | None => inr []
  end
  = f match a with
      | Has (Some l) => l
      | _ => []
      end.
Proof. intros Hnil. by destruct a as [|[[|x l]|]]. Qed.

(** The block "Extract grounding metadata": when it does not raise, its
    citations, grounding supports and search queries are those of the
    response, in the provider's order; it raises exactly when a web source
    has the uri [None] or a segmented support a field [None]. *)
Lemma extract_grounding_spec (response : Response.t) :
  match QuickSearchClient.extract_grounding sdk response with
  | inr (citations, grounding_supports, search_queries) =>
      Forall2 cites citations (web_sources (response_chunks response))
      ∧ Forall2 renders grounding_supports
          (segmented_supports (response_supports response))
      ∧ search_queries = response_queries response
      ∧ Forall source_set (web_sources (response_chunks response))
      ∧ Forall segment_set (segmented_supports (response_supports response))
  | inl e =>
      ¬ (Forall source_set (web_sources (response_chunks response))
         ∧ Forall segment_set (segmented_supports (response_supports response)))
  end.
Proof.
  unfold QuickSearchClient.extract_grounding, QuickSearchClient.first_candidate,
    response_chunks, response_supports, response_queries, response_grounding.
  destruct (Response.candidates response) as [[|candidate rest]|];
    [by repeat split; constructor| |by repeat split; constructor].
  destruct (Candidate.grounding_metadata candidate) as [|[metadata|]];
    [by repeat split; constructor| |by repeat split; constructor].
  cbv zeta.
  rewrite (truthy_list_total (QuickSearchClient.extract_citations sdk)) by done.
  rewrite (truthy_list_total (QuickSearchClient.extract_supports sdk)) by done.
  set (chunks := match GroundingMetadata.grounding_chunks metadata with
                 | Has (Some l) => l
                 | _ => []
                 end).
  set (supports := match GroundingMetadata.grounding_supports metadata with
                   | Has (Some l) => l
                   | _ => []
                   end).
  pose proof (extract_citations_spec chunks) as Hcitations.
  pose proof (extract_supports_spec supports) as Hsupports.
  destruct (QuickSearchClient.extract_citations sdk chunks) as [e|citations];
    [by intros [? ?]|].
  destruct (QuickSearchClient.extract_supports sdk supports) as [e|grounding_supports];
    [by intros [? ?]|].
  destruct Hcitations as [? ?], Hsupports as [? ?]. repeat split; try done.
  by destruct (GroundingMetadata.web_search_queries metadata) as [|[[|q qs]|]].
Qed.
End QuickSearch.


(** C3: for every list of more than 20 URLs, analyze_urls returns, without
    raising, a UrlAnalysisResult whose error names the 20-URL limit, whose
    content is empty and whose url_metadata is empty; the world is left as
    it was, so no remote call is made. *)
Theorem analyze_urls_limit (sdk : Remote) (urls : list string) (query model language : string)
    (w : World) :
  (length urls > 20)%nat →
  QuickSearchClient.analyze_urls sdk urls query model language w
  = (inr {| UrlAnalysisResult.urls := urls;
            UrlAnalysisResult.query := query;
            UrlAnalysisResult.content := "";
            UrlAnalysisResult.url_metadata := [];
            UrlAnalysisResult.model := model;
            UrlAnalysisResult.error := Some "Maximum 20 URLs allowed per request" |},
     w).
Proof.
  intros Hlen. rewrite analyze_urls_eq. by rewrite bool_decide_eq_true_2 by lia.
Qed.

Lemma analyze_urls_limit_witness :
  (length (replicate 21 "https://example.com/page") > 20)%nat
  ∧ QuickSearchClient.analyze_urls grounded_sdk (replicate 21 "https://example.com/page")
      "compare" "gemini-3-flash-preview" "ja" empty_world
    = (inr {| UrlAnalysisResult.urls := replicate 21 "https://example.com/page";
              UrlAnalysisResult.query := "compare";
              UrlAnalysisResult.content := "";
              UrlAnalysisResult.url_metadata := [];
              UrlAnalysisResult.model := "gemini-3-flash-preview";
              UrlAnalysisResult.error := Some "Maximum 20 URLs allowed per request" |},
       empty_world).
Proof.
  assert (length (replicate 21 "https://example.com/page") > 20)%nat as Hlen
    by (vm_compute; lia).
  split; [exact Hlen|].
  exact (analyze_urls_limit grounded_sdk _ "compare" "gemini-3-flash-preview" "ja"
           empty_world Hlen).
Defined.

(** C5: for every query, when the remote call of quick_search raises an
    exception e, quick_search does not raise: it returns a QuickSearchResult
    with content "", citations [] and error str(e). *)
Theorem quick_search_remote_failure (sdk : Remote) (query model language : string)
    (w : World) (e : Exception) :
  generate_content sdk (length (calls w)) (quick_search_request query model language) = inl e →
  QuickSearchClient.quick_search sdk query model language w
  = (inr {| QuickSearchResult.query := query;
            QuickSearchResult.content := "";
            QuickSearchResult.citations := [];
            QuickSearchResult.grounding_supports := [];
            QuickSearchResult.search_queries := [];
            QuickSearchResult.model := model;
            QuickSearchResult.error := Some (exc_str e) |},
     log_call (GenerateContent (quick_search_request query model language)) w).
Proof. intros Hfail. by rewrite quick_search_eq, Hfail. Qed.

Lemma quick_search_remote_failure_witness :
  QuickSearchClient.quick_search sample_sdk "news" "gemini-3-flash-preview" "ja" empty_world
  = (inr {| QuickSearchResult.query := "news";
            QuickSearchResult.content := "";
            QuickSearchResult.citations := [];
            QuickSearchResult.grounding_supports := [];
            QuickSearchResult.search_queries := [];
            QuickSearchResult.model := "gemini-3-flash-preview";
            QuickSearchResult.error := Some "service unavailable" |},
     log_call (GenerateContent (quick_search_request "news" "gemini-3-flash-preview" "ja"))
       empty_world).
Proof.
  exact (quick_search_remote_failure sample_sdk "news" "gemini-3-flash-preview" "ja"
           empty_world sample_exception eq_refl).
Defined.

(** The result of [quick_search] and of [search_and_analyze] on a returned
    response, by what the parsing of the response gives. *)
Lemma grounded_result_spec (sdk : Remote) (query model : string) (response : Response.t) :
  let result :=
    match QuickSearchClient.extract_grounding sdk response with
    | inr (citations, grounding_supports, search_queries) =>
        {| QuickSearchResult.query := query;
           QuickSearchResult.content := QuickSearchClient.response_content response;
           QuickSearchResult.citations := citations;
           QuickSearchResult.grounding_supports := grounding_supports;
           QuickSearchResult.search_queries := search_queries;
           QuickSearchResult.model := model;
           QuickSearchResult.error := None |}
    | inl e => search_failure query model e
    end in
  (QuickSearchResult.error result = None
   ↔ Forall source_set (web_sources (response_chunks response))
     ∧ Forall segment_set (segmented_supports (response_supports response)))
  ∧ (QuickSearchResult.error result = None →
     Forall2 cites (QuickSearchResult.citations result)
       (web_sources (response_chunks response))
     ∧ Forall2 renders (QuickSearchResult.grounding_supports result)
         (segmented_supports (response_supports response))
     ∧ QuickSearchResult.search_queries result = response_queries response
     ∧ QuickSearchResult.content result = QuickSearchClient.response_content response)
  ∧ (QuickSearchResult.error result ≠ None →
     QuickSearchResult.content result = ""
     ∧ QuickSearchResult.citations result = []
     ∧ QuickSearchResult.grounding_supports result = []
     ∧ QuickSearchResult.search_queries result = []).
Proof.
  pose proof (extract_grounding_spec sdk response) as Hspec.
  destruct (QuickSearchClient.extract_grounding sdk response)
    as [e|[[citations grounding_supports] search_queries]]; simpl.
  - split; [split; [done|intros Hall; by destruct Hspec]|]. by split.
  - destruct Hspec as (? & ? & ? & ? & ?). by repeat split.
Qed.



(** The example of the specification: chunks [{url: a}, {url: b}] give the
    citations [Citation(url=a), Citation(url=b)]. *)
Example citations_a_b :
  ∃ result w',
    QuickSearchClient.quick_search grounded_sdk "q" "m" "en" empty_world = (inr result, w')
    ∧ QuickSearchResult.citations result
      = [ {| Citation.url := "a"; Citation.title := None |};
          {| Citation.url := "b"; Citation.title := None |} ].
Proof. by do 2 eexists. Qed.

(** Duplicates are kept: two chunks with the same uri give two citations. *)
Example citations_keep_duplicates :
  QuickSearchClient.extract_citations grounded_sdk
    [source_chunk "a"; source_chunk "b"; source_chunk "a"]
  = inr [ {| Citation.url := "a"; Citation.title := None |};
          {| Citation.url := "b"; Citation.title := None |};
          {| Citation.url := "a"; Citation.title := None |} ].
Proof. reflexivity. Qed.



(** C9: quick_search, analyze_urls and search_and_analyze return, on every
    outcome, a result that echoes the call's inputs: query and model, and
    for analyze_urls the URL list too. *)
Theorem results_echo_inputs (sdk : Remote) (query model language : string)
    (urls : list string) (optional_urls : option (list string)) (w : World) :
  (∃ result w', QuickSearchClient.quick_search sdk query model language w = (inr result, w')
     ∧ QuickSearchResult.query result = query
     ∧ QuickSearchResult.model result = model)
  ∧ (∃ result w',
       QuickSearchClient.analyze_urls sdk urls query model language w = (inr result, w')
       ∧ UrlAnalysisResult.urls result = urls
       ∧ UrlAnalysisResult.query result = query
       ∧ UrlAnalysisResult.model result = model)
  ∧ (∃ result w',
       QuickSearchClient.search_and_analyze sdk query optional_urls model language w
         = (inr result, w')
       ∧ QuickSearchResult.query result = query
       ∧ QuickSearchResult.model result = model).
Proof.
  split; [|split].
  - rewrite quick_search_eq.
    destruct (generate_content sdk _ _) as [e|response]; [by do 2 eexists|].
    destruct (QuickSearchClient.extract_grounding sdk response) as [e|[[? ?] ?]];
      by do 2 eexists.
  - rewrite analyze_urls_eq. case_bool_decide; [by do 2 eexists|].
    destruct (generate_content sdk _ _) as [e|response]; [by do 2 eexists|].
    destruct (QuickSearchClient.extract_url_metadata sdk response); by do 2 eexists.
  - rewrite search_and_analyze_eq.
    destruct (generate_content sdk _ _) as [e|response]; [by do 2 eexists|].
    destruct (QuickSearchClient.extract_grounding sdk response) as [e|[[? ?] ?]];
      by do 2 eexists.
Qed.

(** ** The polling loop *)

Section Polling.
Variable sdk : Remote.
Variables (interaction_id : string) (poll_interval timeout : Z) (start_time : Q).

Local Notation "'loop' fuel w" :=
  (DeepResearchClient.poll_loop sdk fuel interaction_id poll_interval timeout start_time w)
  (at level 10, fuel at level 9, w at level 9).
Local Notation "'round' w" := (next_round interaction_id poll_interval w)
  (at level 10, w at level 9).
Local Notation "'rounds' k w" := (after_rounds interaction_id poll_interval k w)
  (at level 10, k at level 9, w at level 9).

Lemma pending_round w j :
  pending sdk interaction_id (round w) j ↔ pending sdk interaction_id w (S j).
Proof.
  unfold pending, poll_reply. simpl. rewrite length_app. simpl.
  by replace (length (calls w) + 1 + j) with (length (calls w) + S j) by lia.
Qed.

Lemma after_rounds_fields k w :
  calls (rounds k w) = calls w ++ replicate k (InteractionsGet interaction_id)
  ∧ ticks (rounds k w) = ticks w + k
  ∧ slept (rounds k w) = slept w ++ replicate k poll_interval.
Proof.
  revert w. induction k as [|k IH]; intros w; simpl.
  - by rewrite !(right_id_L [] (++)), Nat.add_0_r.
  - destruct (IH (round w)) as (-> & -> & ->). simpl.
    rewrite <- !(assoc_L (++)). simpl. repeat split; lia.
Qed.

(** What one iteration does, by the fetched reply. *)
Lemma poll_loop_raises fuel w e :
  poll_reply sdk interaction_id w 0 = inl e →
  loop (S fuel) w = Some (inl e, log_call (InteractionsGet interaction_id) w).
Proof.
  unfold poll_reply. rewrite Nat.add_0_r. intros Hget. simpl.
  by rewrite get_status_eq, Hget.
Qed.

Lemma poll_loop_completed fuel w interaction :
  poll_reply sdk interaction_id w 0 = inr interaction →
  canonical_status (Interaction.status interaction) = COMPLETED →
  loop (S fuel) w
  = Some (DeepResearchClient.get_result sdk interaction_id
            (log_call (InteractionsGet interaction_id) w)).
Proof.
  unfold poll_reply, canonical_status. rewrite Nat.add_0_r. intros Hget Hstatus. simpl.
  rewrite get_status_eq, Hget. simpl. by rewrite Hstatus.
Qed.

Lemma poll_loop_failed fuel w interaction :
  poll_reply sdk interaction_id w 0 = inr interaction →
  canonical_status (Interaction.status interaction) ∈ [FAILED; CANCELLED] →
  loop (S fuel) w
  = Some (inr {| ResearchResult.interaction_id := interaction_id;
                 ResearchResult.status := canonical_status (Interaction.status interaction);
                 ResearchResult.content := None;
                 ResearchResult.citations := None;
                 ResearchResult.error :=
                   DeepResearchClient.error_message
                     (getattr (Interaction.error interaction) py_None) |},
          log_call (InteractionsGet interaction_id) w).
Proof.
  unfold poll_reply, canonical_status. rewrite Nat.add_0_r. intros Hget Hstatus. simpl.
  rewrite get_status_eq, Hget. simpl.
  rewrite bool_decide_eq_false_2.
  - by rewrite bool_decide_eq_true_2.
  - intros Heq. rewrite Heq in Hstatus.
    apply (bool_decide_eq_true_2 _) in Hstatus. by vm_compute in Hstatus.
Qed.

Lemma poll_loop_pending fuel w :
  pending sdk interaction_id w 0 →
  loop (S fuel) w
  = if Qle_bool (inject_Z timeout) (time sdk (ticks w) - start_time)
    then Some (inl (TimeoutError
                      ("Research did not complete within " +:+ pretty timeout
                       +:+ " seconds. Interaction ID: " +:+ interaction_id)),
               {| calls := calls w ++ [InteractionsGet interaction_id];
                  ticks := S (ticks w);
                  slept := slept w |})
    else loop fuel (round w).
Proof.
  intros (interaction & Hget & Hstatus).
  unfold poll_reply, canonical_status in *. rewrite Nat.add_0_r in Hget. simpl.
  rewrite get_status_eq, Hget. simpl. rewrite Hstatus. simpl.
  by destruct (Qle_bool _ _).
Qed.

(** As long as the polls observe no terminal status and the elapsed time
    stays under the timeout, the loop goes on to the next round. *)
Lemma poll_loop_rounds k w fuel :
  (∀ j, (j < k)%nat → pending sdk interaction_id w j
                ∧ ¬ reaches timeout (time sdk (ticks w + j) - start_time)) →
  loop (k + fuel) w = loop fuel (rounds k w).
Proof.
  revert w. induction k as [|k IH]; intros w Hbefore; [done|].
  destruct (Hbefore 0) as [Hpending Hunder]; [lia|].
  rewrite Nat.add_0_r in Hunder.
  change (S k + fuel) with (S (k + fuel)).
  rewrite (poll_loop_pending _ _ Hpending).
  destruct (Qle_bool _ _) eqn:Hle; [by apply Qle_bool_iff in Hle|].
  simpl. apply IH. intros j Hj. destruct (Hbefore (S j)) as [Hp Hu]; [lia|].
  split; [by apply pending_round|].
  simpl. by replace (S (ticks w + j)) with (ticks w + S j) by lia.
Qed.

Lemma poll_reply_round w j :
  poll_reply sdk interaction_id (round w) j = poll_reply sdk interaction_id w (S j).
Proof.
  unfold poll_reply. simpl. rewrite length_app. simpl.
  by replace (length (calls w) + 1 + j) with (length (calls w) + S j) by lia.
Qed.

(** The loop raises its [TimeoutError] when some check finds the elapsed
    time at the timeout with every poll so far pending. *)
Lemma poll_loop_times_out_exact k w :
  (∀ j, (j ≤ k)%nat → pending sdk interaction_id w j) →
  reaches timeout (time sdk (ticks w + k) - start_time) →
  ∃ fuel w', loop fuel w = Some (inl (poll_timeout interaction_id timeout), w').
Proof.
  revert w. induction k as [|k IH]; intros w Hpending Hreach.
  - exists 1. rewrite (poll_loop_pending _ _ (Hpending 0 (le_n 0))).
    rewrite Nat.add_0_r in Hreach. apply Qle_bool_iff in Hreach. rewrite Hreach.
    by eexists.
  - destruct (Qle_bool (inject_Z timeout) (time sdk (ticks w) - start_time)) eqn:Hle.
    + exists 1. rewrite (poll_loop_pending _ _ (Hpending 0 (Nat.le_0_l _))), Hle.
      by eexists.
    + destruct (IH (round w)) as (fuel & w' & Hrun).
      * intros j Hj. apply pending_round, Hpending. lia.
      * simpl. by replace (S (ticks w + k)) with (ticks w + S k) by lia.
      * exists (S fuel), w'.
        by rewrite (poll_loop_pending _ _ (Hpending 0 (Nat.le_0_l _))), Hle.
Qed.

(** [get_result] raises only what the fetch raises. *)
Lemma get_result_raises w e w' :
  DeepResearchClient.get_result sdk interaction_id w = (inl e, w') →
  interactions_get sdk (length (calls w)) interaction_id = inl e.
Proof.
  destruct (interactions_get sdk (length (calls w)) interaction_id)
    as [e0|interaction] eqn:Hget.
  - unfold DeepResearchClient.get_result, DeepResearchClient.client_interactions_get,
      mbind, M_bind. rewrite Hget. congruence.
  - by rewrite (get_result_eq _ _ _ _ Hget).
Qed.

(** What the loop raises is the [TimeoutError] of one of its checks, or
    what a status fetch raised, or what the fetch of [get_result] raised
    after a poll that saw completed. *)
Lemma poll_loop_raise_inv fuel w e w' :
  loop fuel w = Some (inl e, w') →
  ∃ k, (∀ j, (j < k)%nat → pending sdk interaction_id w j
                          ∧ ¬ reaches timeout (time sdk (ticks w + j) - start_time))
       ∧ ((pending sdk interaction_id w k
           ∧ reaches timeout (time sdk (ticks w + k) - start_time)
           ∧ e = poll_timeout interaction_id timeout)
          ∨ poll_reply sdk interaction_id w k = inl e
          ∨ (∃ interaction,
               poll_reply sdk interaction_id w k = inr interaction
               ∧ canonical_status (Interaction.status interaction) = COMPLETED
               ∧ poll_reply sdk interaction_id w (S k) = inl e)).
Proof.
  revert w. induction fuel as [|fuel IH]; intros w Hrun; [done|].
  destruct (poll_reply sdk interaction_id w 0) as [e0|interaction] eqn:Hget.
  { rewrite (poll_loop_raises _ _ _ Hget) in Hrun. simplify_eq.
    exists 0. split; [intros j Hj; lia|]. by right; left. }
  destruct (canonical_status (Interaction.status interaction)) eqn:Hstatus.
  - assert (pending sdk interaction_id w 0) as Hpending by by exists interaction.
    rewrite (poll_loop_pending _ _ Hpending) in Hrun.
    destruct (Qle_bool _ _) eqn:Hle.
    + simplify_eq. exists 0. split; [intros j Hj; lia|]. left.
      split; [done|]. split; [|done]. rewrite Nat.add_0_r. by apply Qle_bool_iff.
    + destruct (IH _ Hrun) as (k & Hbefore & Hend).
      exists (S k). split.
      * intros [|j] Hj.
        -- split; [done|]. rewrite Nat.add_0_r. intros Hreach.
           apply Qle_bool_iff in Hreach. congruence.
        -- destruct (Hbefore j) as [Hp Hu]; [lia|]. split; [by apply pending_round|].
           simpl in Hu. by replace (ticks w + S j) with (S (ticks w + j)) by lia.
      * rewrite !poll_reply_round, pending_round in Hend. simpl in Hend.
        by replace (ticks w + S k) with (S (ticks w + k)) by lia.
  - rewrite (poll_loop_completed _ _ _ Hget Hstatus) in Hrun.
    simplify_eq. apply get_result_raises in Hrun.
    exists 0. split; [intros j Hj; lia|]. right; right.
    exists interaction. split; [done|]. split; [done|].
    unfold poll_reply. simpl in Hrun. rewrite length_app in Hrun. exact Hrun.
  - rewrite (poll_loop_failed _ _ _ Hget) in Hrun
      by (rewrite Hstatus; by apply (bool_decide_unpack _)).
    simplify_eq.
  - rewrite (poll_loop_failed _ _ _ Hget) in Hrun
      by (rewrite Hstatus; by apply (bool_decide_unpack _)).
    simplify_eq.
Qed.
End Polling.

Lemma poll_loop_fuel_mono sdk fuel fuel' interaction_id poll_interval timeout start_time w r :
  DeepResearchClient.poll_loop sdk fuel interaction_id poll_interval timeout start_time w
    = Some r →
  (fuel ≤ fuel')%nat →
  DeepResearchClient.poll_loop sdk fuel' interaction_id poll_interval timeout start_time w
    = Some r.
Proof.
  revert fuel' w. induction fuel as [|fuel IH]; intros fuel' w Hrun Hle; [done|].
  destruct fuel' as [|fuel']; [lia|]. simpl in *.
  repeat case_match; try done. apply IH; [done | lia].
Qed.

Lemma at_poll_calls interaction_id poll_interval k w :
  calls (at_poll interaction_id poll_interval k w)
  = calls w ++ replicate k (InteractionsGet interaction_id).
Proof. unfold at_poll. by destruct (after_rounds_fields interaction_id poll_interval k
         {| calls := calls w; ticks := S (ticks w); slept := slept w |}) as (-> & _ & _). Qed.

Lemma poll_reply_at_poll sdk interaction_id poll_interval k w j :
  poll_reply sdk interaction_id (at_poll interaction_id poll_interval k w) j
  = poll_reply sdk interaction_id w (k + j).
Proof.
  unfold poll_reply. rewrite at_poll_calls, length_app, length_replicate.
  by rewrite Nat.add_assoc.
Qed.

Lemma poll_until_complete_at_poll sdk interaction_id poll_interval timeout w k fuel :
  (∀ j, (j < k)%nat → pending sdk interaction_id w j
                      ∧ ¬ reaches timeout (elapsed_after sdk w j)) →
  DeepResearchClient.poll_until_complete sdk (k + fuel) interaction_id poll_interval timeout w
  = DeepResearchClient.poll_loop sdk fuel interaction_id poll_interval timeout
      (time sdk (ticks w)) (at_poll interaction_id poll_interval k w).
Proof.
  intros Hbefore.
  exact (poll_loop_rounds sdk interaction_id poll_interval timeout _ k
           {| calls := calls w; ticks := S (ticks w); slept := slept w |} fuel Hbefore).
Qed.

Lemma error_message_remote (interaction : Interaction.t) :
  DeepResearchClient.error_message (getattr (Interaction.error interaction) py_None)
  = remote_error interaction.
Proof. unfold remote_error. by destruct (Interaction.error interaction). Qed.

(** C1: poll_until_complete raises in three cases and no other: the
    TimeoutError of its own check, when the check that follows a poll finds
    the elapsed time at or over the timeout, that poll and every poll before
    it having observed no terminal status; the exception of a status fetch
    that raises; the exception of the fetch of get_result that raises after
    a poll observed completed.  When a poll observes failed or cancelled,
    it returns a ResearchResult with that status, the error of the
    interaction and no content; when a poll observes completed, it returns
    what get_result returns for the same handle.  The elapsed time is the
    one the loop reads after each poll that observed no terminal status. *)
Theorem poll_until_complete_outcomes (sdk : Remote) (interaction_id : string)
    (poll_interval timeout : Z) (w : World) :
  (∀ e,
     (∃ fuel w',
        DeepResearchClient.poll_until_complete sdk fuel interaction_id poll_interval
          timeout w = Some (inl e, w'))
     ↔ (∃ k, (∀ j, (j < k)%nat → pending sdk interaction_id w j
                                 ∧ ¬ reaches timeout (elapsed_after sdk w j))
             ∧ ((pending sdk interaction_id w k
                 ∧ reaches timeout (elapsed_after sdk w k)
                 ∧ e = poll_timeout interaction_id timeout)
                ∨ poll_reply sdk interaction_id w k = inl e
                ∨ (∃ interaction,
                     poll_reply sdk interaction_id w k = inr interaction
                     ∧ Interaction.status interaction = "completed"
                     ∧ poll_reply sdk interaction_id w (S k) = inl e))))
  ∧ (∀ k interaction,
       (∀ j, (j < k)%nat → pending sdk interaction_id w j
                           ∧ ¬ reaches timeout (elapsed_after sdk w j)) →
       poll_reply sdk interaction_id w k = inr interaction →
       (∀ terminal, terminal ∈ [FAILED; CANCELLED] →
          Interaction.status interaction = ResearchStatusEnum_value terminal →
          ∃ fuel,
            DeepResearchClient.poll_until_complete sdk fuel interaction_id
              poll_interval timeout w
            = Some (inr {| ResearchResult.interaction_id := interaction_id;
                           ResearchResult.status := terminal;
                           ResearchResult.content := None;
                           ResearchResult.citations := None;
                           ResearchResult.error := remote_error interaction |},
                    log_call (InteractionsGet interaction_id)
                      (at_poll interaction_id poll_interval k w)))
       ∧ (Interaction.status interaction = "completed" →
          ∃ fuel,
            DeepResearchClient.poll_until_complete sdk fuel interaction_id
              poll_interval timeout w
            = Some (DeepResearchClient.get_result sdk interaction_id
                      (log_call (InteractionsGet interaction_id)
                         (at_poll interaction_id poll_interval k w))))).
Proof.
  set (w0 := {| calls := calls w; ticks := S (ticks w); slept := slept w |}).
  split; [intros e; split|].
  - intros (fuel & w' & Hrun).
    destruct (poll_loop_raise_inv sdk interaction_id poll_interval timeout _ fuel w0 e w'
                Hrun) as (k & Hbefore & Hend).
    exists k. split; [exact Hbefore|].
    destruct Hend as [Hcheck|[Hfetch|(interaction & Hget & Hstatus & Hfetch)]].
    + by left.
    + by right; left.
    + right; right. exists interaction. split; [done|]. split; [|done].
      by apply mapped_status_completed.
  - intros (k & Hbefore & [(Hpending & Hreach & ->)|[Hfetch|Hdone]]).
    + apply (poll_loop_times_out_exact sdk interaction_id poll_interval timeout _ k w0);
        [|exact Hreach].
      intros j Hj. destruct (decide (j = k)) as [->|Hne]; [done|].
      apply (Hbefore j). lia.
    + exists (k + 1), (log_call (InteractionsGet interaction_id)
                         (at_poll interaction_id poll_interval k w)).
      rewrite (poll_until_complete_at_poll _ _ _ _ _ _ _ Hbefore).
      apply poll_loop_raises. by rewrite poll_reply_at_poll, Nat.add_0_r.
    + destruct Hdone as (interaction & Hget & Hstatus & Hfetch).
      exists (k + 1). rewrite (poll_until_complete_at_poll _ _ _ _ _ _ _ Hbefore).
      rewrite (poll_loop_completed _ _ _ _ _ _ _ interaction);
        [|by rewrite poll_reply_at_poll, Nat.add_0_r|by apply mapped_status_completed].
      unfold DeepResearchClient.get_result, DeepResearchClient.client_interactions_get,
        mbind, M_bind.
      replace (length (calls (log_call (InteractionsGet interaction_id)
                                (at_poll interaction_id poll_interval k w))))
        with (length (calls w) + S k).
      * unfold poll_reply in Hfetch. rewrite Hfetch. by eexists.
      * simpl. rewrite at_poll_calls, !length_app, length_replicate. simpl. lia.
  - intros k interaction Hbefore Hget.
    assert (poll_reply sdk interaction_id (at_poll interaction_id poll_interval k w) 0
            = inr interaction) as Hget'
      by by rewrite poll_reply_at_poll, Nat.add_0_r.
    split.
    + intros terminal Hterminal Hstatus. exists (k + 1).
      rewrite (poll_until_complete_at_poll _ _ _ _ _ _ _ Hbefore).
      pose proof (mapped_status_value _ _ (eq_sym Hstatus)) as Hcanon.
      fold (canonical_status (Interaction.status interaction)) in Hcanon.
      rewrite (poll_loop_failed _ _ _ _ _ _ _ _ Hget') by by rewrite Hcanon.
      by rewrite Hcanon, error_message_remote.
    + intros Hstatus. exists (k + 1).
      rewrite (poll_until_complete_at_poll _ _ _ _ _ _ _ Hbefore).
      apply (poll_loop_completed _ _ _ _ _ _ _ _ Hget').
      by apply mapped_status_completed.
Qed.

(** A task that never leaves in_progress, polled every second with a
    timeout of two seconds on a clock that shows one more second at each
    reading: TimeoutError at the second poll. *)
Example poll_until_complete_times_out :
  DeepResearchClient.poll_until_complete (pending_sdk "in_progress") 3 "h" 1 2 empty_world
  = Some (inl (TimeoutError
                 "Research did not complete within 2 seconds. Interaction ID: h"),
          {| calls := [InteractionsGet "h"; InteractionsGet "h"];
             ticks := 3;
             slept := [1%Z] |}).
Proof. reflexivity. Qed.

Lemma poll_until_complete_outcomes_witness :
  ∃ fuel,
    DeepResearchClient.poll_until_complete failing_sdk fuel "h" 1 10 empty_world
    = Some (inr {| ResearchResult.interaction_id := "h";
                   ResearchResult.status := FAILED;
                   ResearchResult.content := None;
                   ResearchResult.citations := None;
                   ResearchResult.error := Some "quota exceeded" |},
            {| calls := [InteractionsGet "h"; InteractionsGet "h"];
               ticks := 2;
               slept := [1%Z] |}).
Proof.
  destruct (poll_until_complete_outcomes failing_sdk "h" 1 10 empty_world)
    as [_ Hterminal].
  refine (proj1 (Hterminal 1%nat failing_interaction _ eq_refl) FAILED _ eq_refl).
  - intros [|j] Hj; [|lia]. split.
    + by exists (sample_interaction "in_progress" []).
    + by vm_compute.
  - by apply (bool_decide_unpack _).
Defined.

(** A fetch that times out on the network makes poll_until_complete raise
    a TimeoutError while the clock has not moved. *)
Example poll_until_complete_network_timeout :
  DeepResearchClient.poll_until_complete unreachable_sdk 1 "h" 1 10 empty_world
  = Some (inl (TimeoutError "timed out"),
          {| calls := [InteractionsGet "h"]; ticks := 1; slept := [] |}).
Proof. reflexivity. Qed.

(** C1 as stated fails.  A TimeoutError of the service is passed on though
    no check ever found the elapsed time at the timeout; and with a
    poll_interval of 10 and a timeout of 5, a task that is in progress at
    the first poll and completed at the second gives a COMPLETED result
    after a sleep of 10 seconds, the elapsed time being read only after a
    poll that observed no terminal status. *)
Lemma poll_timeout_refuted :
  ¬ poll_timeout_claim
  ∧ ∃ fuel result w',
      DeepResearchClient.poll_until_complete completing_sdk fuel "h" 10 5 empty_world
        = Some (inr result, w')
      ∧ ResearchResult.status result = COMPLETED
      ∧ slept w' = [10%Z].
Proof.
  split.
  - intros Hclaim.
    destruct (Hclaim unreachable_sdk "h" 1%Z 10%Z empty_world) as [Honly _].
    destruct Honly as (k & Hpending & _).
    { exists 1, (TimeoutError "timed out"). eexists.
      split; [exact poll_until_complete_network_timeout|done]. }
    destruct (Hpending 0) as (interaction & Hget & _); [lia|]. by vm_compute in Hget.
  - exists 2. by do 2 eexists.
Qed.

(** ** The event stream *)

Section Streaming.
Variable sdk : Remote.

(** One chunk gives at most one event: a delta event for a chunk that is
    not a completion or an error, an end event for one that is. *)
Lemma stream_dispatch_events chunk interaction_id last_event_id w :
  let events :=
    (DeepResearchClient.stream_dispatch sdk chunk interaction_id last_event_id w).1.1 in
  if is_end_chunk chunk
  then ∃ event, events = [event] ∧ is_end_event event
  else events = [] ∨ ∃ event, events = [event] ∧ is_delta_event event.
Proof.
  unfold DeepResearchClient.stream_dispatch, is_end_chunk, is_delta_event, is_end_event.
  repeat case_bool_decide; simpl; try congruence.
  all: repeat case_match; simplify_eq; simpl; eauto.
Qed.

Lemma stream_dispatch_start chunk interaction_id last_event_id w :
  is_start_chunk chunk = true →
  DeepResearchClient.stream_dispatch sdk chunk interaction_id last_event_id w
  = ([], inr (), w).
Proof.
  unfold is_start_chunk, DeepResearchClient.stream_dispatch.
  intros Hstart%bool_decide_eq_true. rewrite Hstart. by repeat case_bool_decide.
Qed.




End Streaming.




(** * Further properties of the client *)

(** ** Prompts *)

Lemma string_app_nil_r (s : string) : s +:+ "" = s.
Proof. induction s as [|c s IH]; [done | exact (f_equal (String c) IH)]. Qed.

Lemma string_app_assoc (s1 s2 s3 : string) : (s1 +:+ s2) +:+ s3 = s1 +:+ s2 +:+ s3.
Proof. induction s1 as [|c s1 IH]; [done | exact (f_equal (String c) IH)]. Qed.

(** X1: _build_input puts the language directive first, then the query, a blank
    line between them, and appends the format instructions after another
    blank line only when they are a non-empty string: empty instructions
    are the same as none. *)
Theorem build_input_parts (query : string) (format_instructions : option string) :
  DeepResearchClient._build_input query format_instructions
  = DeepResearchClient.SYSTEM_PROMPT_JA +:+ LF +:+ LF +:+ query
      +:+ match format_instructions with
          | Some (String c rest) => LF +:+ LF +:+ String c rest
          | _ => ""
          end
  ∧ DeepResearchClient._build_input query (Some "")
    = DeepResearchClient._build_input query None.
Proof.
  split; [|done].
  unfold DeepResearchClient._build_input.
  destruct format_instructions as [[|c rest]|]; cbn [str_truthy default];
    try (rewrite bool_decide_eq_true_2 by done);
    try (rewrite bool_decide_eq_false_2 by done); cbn [negb app String.concat].
  - by rewrite string_app_nil_r.
  - done.
  - by rewrite string_app_nil_r.
Qed.

(** ** More on the polling loop *)

(** [get_result] makes one fetch, whatever comes of it. *)
Lemma get_result_world sdk interaction_id w :
  (DeepResearchClient.get_result sdk interaction_id w).2
  = log_call (InteractionsGet interaction_id) w.
Proof.
  unfold DeepResearchClient.get_result, DeepResearchClient.client_interactions_get,
    mbind, M_bind, mret, M_ret, lift.
  repeat case_match; simplify_eq; done.
Qed.

Lemma poll_loop_effects sdk fuel interaction_id poll_interval timeout start_time w r w' :
  DeepResearchClient.poll_loop sdk fuel interaction_id poll_interval timeout start_time w
    = Some (r, w') →
  ∃ k extra,
    (extra ≤ 1)%nat
    ∧ calls w' = calls w ++ replicate (S k + extra) (InteractionsGet interaction_id)
    ∧ slept w' = slept w ++ replicate k poll_interval.
Proof.
  revert w. induction fuel as [|fuel IH]; intros w Hrun; [done|].
  destruct (poll_reply sdk interaction_id w 0) as [e|interaction] eqn:Hget.
  { rewrite (poll_loop_raises _ _ _ _ _ _ _ _ Hget) in Hrun. simplify_eq.
    exists 0, 0. simpl. rewrite (right_id_L [] (++)). repeat split; [lia|done..]. }
  destruct (canonical_status (Interaction.status interaction)) eqn:Hstatus.
  - assert (pending sdk interaction_id w 0) as Hpending by by exists interaction.
    rewrite (poll_loop_pending _ _ _ _ _ _ _ Hpending) in Hrun.
    destruct (Qle_bool _ _).
    + simplify_eq. exists 0, 0. simpl. rewrite (right_id_L [] (++)). repeat split; [lia|done..].
    + destruct (IH _ Hrun) as (k & extra & Hextra & Hcalls & Hslept).
      exists (S k), extra. split; [done|]. rewrite Hcalls, Hslept. simpl.
      by rewrite <- !(assoc_L (++)).
  - rewrite (poll_loop_completed _ _ _ _ _ _ _ _ Hget Hstatus) in Hrun.
    exists 0, 1. split; [lia|]. simpl.
    unfold DeepResearchClient.get_result, DeepResearchClient.client_interactions_get,
      mbind, M_bind, mret, M_ret, lift in Hrun.
    assert (w' = log_call (InteractionsGet interaction_id)
                   (log_call (InteractionsGet interaction_id) w)) as ->.
    { repeat case_match; simplify_eq; done. }
    simpl. by rewrite <- (assoc_L (++)), (right_id_L [] (++)).
  - rewrite (poll_loop_failed _ _ _ _ _ _ _ _ Hget) in Hrun
      by (rewrite Hstatus; by apply (bool_decide_unpack _)).
    simplify_eq. exists 0, 0. simpl. rewrite (right_id_L [] (++)). repeat split; [lia|done..].
  - rewrite (poll_loop_failed _ _ _ _ _ _ _ _ Hget) in Hrun
      by (rewrite Hstatus; by apply (bool_decide_unpack _)).
    simplify_eq. exists 0, 0. simpl. rewrite (right_id_L [] (++)). repeat split; [lia|done..].
Qed.

(** The fetches and sleeps of the loop, by what its last poll observed. *)
Lemma poll_loop_trace sdk fuel interaction_id poll_interval timeout start_time w r w' :
  DeepResearchClient.poll_loop sdk fuel interaction_id poll_interval timeout start_time w
    = Some (r, w') →
  ∃ k,
    (∀ j, (j < k)%nat → pending sdk interaction_id w j
                        ∧ ¬ reaches timeout (time sdk (ticks w + j) - start_time))
    ∧ slept w' = slept w ++ replicate k poll_interval
    ∧ (((∃ interaction, poll_reply sdk interaction_id w k = inr interaction
                        ∧ Interaction.status interaction = "completed")
        ∧ calls w' = calls w ++ replicate (k + 2) (InteractionsGet interaction_id))
       ∨ ((∀ interaction, poll_reply sdk interaction_id w k = inr interaction →
                          Interaction.status interaction ≠ "completed")
          ∧ calls w' = calls w ++ replicate (k + 1) (InteractionsGet interaction_id))).
Proof.
  revert w. induction fuel as [|fuel IH]; intros w Hrun; [done|].
  destruct (poll_reply sdk interaction_id w 0) as [e|interaction] eqn:Hget.
  { rewrite (poll_loop_raises _ _ _ _ _ _ _ _ Hget) in Hrun. simplify_eq.
    exists 0. split; [intros j Hj; lia|]. simpl. rewrite (right_id_L [] (++)).
    split; [done|]. right. split; [|done]. intros interaction. by rewrite Hget. }
  destruct (canonical_status (Interaction.status interaction)) eqn:Hstatus.
  - assert (pending sdk interaction_id w 0) as Hpending by by exists interaction.
    rewrite (poll_loop_pending _ _ _ _ _ _ _ Hpending) in Hrun.
    destruct (Qle_bool _ _) eqn:Hle.
    + simplify_eq. exists 0. split; [intros j Hj; lia|]. simpl.
      rewrite (right_id_L [] (++)). split; [done|]. right. split; [|done].
      intros interaction' Hget'. rewrite Hget in Hget'. simplify_eq.
      intros Hdone%mapped_status_completed. unfold canonical_status in Hstatus. congruence.
    + destruct (IH _ Hrun) as (k & Hbefore & Hslept & Hcalls).
      exists (S k). split; [|split].
      * intros [|j] Hj.
        -- split; [done|]. rewrite Nat.add_0_r. intros Hreach.
           apply Qle_bool_iff in Hreach. congruence.
        -- destruct (Hbefore j) as [Hp Hu]; [lia|].
           split; [by apply (pending_round sdk interaction_id poll_interval)|].
           simpl in Hu. by replace (ticks w + S j) with (S (ticks w + j)) by lia.
      * rewrite Hslept. simpl. by rewrite <- (assoc_L (++)).
      * setoid_rewrite (poll_reply_round sdk interaction_id poll_interval) in Hcalls.
        simpl in Hcalls.
        rewrite <- !(assoc_L (++)) in Hcalls. exact Hcalls.
  - rewrite (poll_loop_completed _ _ _ _ _ _ _ _ Hget Hstatus) in Hrun.
    exists 0. split; [intros j Hj; lia|].
    unfold DeepResearchClient.get_result, DeepResearchClient.client_interactions_get,
      mbind, M_bind, mret, M_ret, lift in Hrun.
    assert (w' = log_call (InteractionsGet interaction_id)
                   (log_call (InteractionsGet interaction_id) w)) as ->.
    { repeat case_match; simplify_eq; done. }
    simpl. rewrite (right_id_L [] (++)). split; [done|]. left. split.
    + exists interaction. split; [done|]. by apply mapped_status_completed.
    + by rewrite <- (assoc_L (++)).
  - rewrite (poll_loop_failed _ _ _ _ _ _ _ _ Hget) in Hrun
      by (rewrite Hstatus; by apply (bool_decide_unpack _)).
    simplify_eq. exists 0. split; [intros j Hj; lia|]. simpl.
    rewrite (right_id_L [] (++)). split; [done|]. right. split; [|done].
    intros interaction' Hget'. rewrite Hget in Hget'. simplify_eq.
    intros Hdone%mapped_status_completed. unfold canonical_status in Hstatus. congruence.
  - rewrite (poll_loop_failed _ _ _ _ _ _ _ _ Hget) in Hrun
      by (rewrite Hstatus; by apply (bool_decide_unpack _)).
    simplify_eq. exists 0. split; [intros j Hj; lia|]. simpl.
    rewrite (right_id_L [] (++)). split; [done|]. right. split; [|done].
    intros interaction' Hget'. rewrite Hget in Hget'. simplify_eq.
    intros Hdone%mapped_status_completed. unfold canonical_status in Hstatus. congruence.
Qed.

(** X2: However poll_until_complete ends, all it has done to the service is
    fetch the given handle.  With k the number of polls that observed no
    terminal status under the timeout and were followed by a further poll,
    it has made k + 1 polls and slept poll_interval seconds k times; it has
    made one more fetch, k + 2 in all, exactly when the last poll observed
    completed. *)
Theorem poll_until_complete_effects (sdk : Remote) (fuel : nat) (interaction_id : string)
    (poll_interval timeout : Z) (w : World) (r : Result ResearchResult.t) (w' : World) :
  DeepResearchClient.poll_until_complete sdk fuel interaction_id poll_interval timeout w
    = Some (r, w') →
  ∃ k,
    (∀ j, (j < k)%nat → pending sdk interaction_id w j
                        ∧ ¬ reaches timeout (elapsed_after sdk w j))
    ∧ slept w' = slept w ++ replicate k poll_interval
    ∧ (((∃ interaction, poll_reply sdk interaction_id w k = inr interaction
                        ∧ Interaction.status interaction = "completed")
        ∧ calls w' = calls w ++ replicate (k + 2) (InteractionsGet interaction_id))
       ∨ ((∀ interaction, poll_reply sdk interaction_id w k = inr interaction →
                          Interaction.status interaction ≠ "completed")
          ∧ calls w' = calls w ++ replicate (k + 1) (InteractionsGet interaction_id))).
Proof.
  intros Hrun.
  exact (poll_loop_trace sdk fuel interaction_id poll_interval timeout _
           {| calls := calls w; ticks := S (ticks w); slept := slept w |} r w' Hrun).
Qed.

Lemma poll_until_complete_effects_witness :
  ∃ k,
    (∀ j, (j < k)%nat → pending completing_sdk "h" empty_world j
                        ∧ ¬ reaches 5 (elapsed_after completing_sdk empty_world j))
    ∧ [10%Z] = [] ++ replicate k 10%Z
    ∧ (((∃ interaction, poll_reply completing_sdk "h" empty_world k = inr interaction
                        ∧ Interaction.status interaction = "completed")
        ∧ [InteractionsGet "h"; InteractionsGet "h"; InteractionsGet "h"]
          = [] ++ replicate (k + 2) (InteractionsGet "h"))
       ∨ ((∀ interaction, poll_reply completing_sdk "h" empty_world k = inr interaction →
                          Interaction.status interaction ≠ "completed")
          ∧ [InteractionsGet "h"; InteractionsGet "h"; InteractionsGet "h"]
            = [] ++ replicate (k + 1) (InteractionsGet "h"))).
Proof.
  exact (poll_until_complete_effects completing_sdk 2 "h" 10 5 empty_world _ _ eq_refl).
Defined.

(** X3: A status fetch that raises ends the wait at once: poll_until_complete
    raises that same exception, without another fetch and without sleeping
    again. *)
Theorem poll_until_complete_propagates (sdk : Remote) (interaction_id : string)
    (poll_interval timeout : Z) (w : World) (k : nat) (e : Exception) :
  (∀ j, (j < k)%nat → pending sdk interaction_id w j
                      ∧ ¬ reaches timeout (elapsed_after sdk w j)) →
  poll_reply sdk interaction_id w k = inl e →
  ∃ fuel,
    DeepResearchClient.poll_until_complete sdk fuel interaction_id poll_interval timeout w
    = Some (inl e, log_call (InteractionsGet interaction_id)
                     (at_poll interaction_id poll_interval k w)).
Proof.
  intros Hbefore Hget. exists (k + 1).
  rewrite (poll_until_complete_at_poll _ _ _ _ _ _ _ Hbefore).
  apply poll_loop_raises. by rewrite poll_reply_at_poll, Nat.add_0_r.
Qed.


Lemma poll_until_complete_propagates_witness :
  ∃ fuel,
    DeepResearchClient.poll_until_complete grounded_sdk fuel "h" 1 10 empty_world
    = Some (inl sample_exception,
            log_call (InteractionsGet "h") (at_poll "h" 1 0 empty_world)).
Proof.
  apply (poll_until_complete_propagates grounded_sdk "h" 1 10 empty_world 0 sample_exception).
  - intros j Hj. lia.
  - reflexivity.
Defined.


(** ** Citations of a fetched result *)



(** ** [start_research] and [research] *)

(** X6: research creates the task and then only fetches the handle the service
    gave it, sleeping between polls as poll_until_complete does; when the
    creation raises, research raises the same exception and has made no
    fetch. *)
Theorem research_effects (sdk : Remote) (fuel : nat) (query : string)
    (format_instructions : option string) (poll_interval timeout : Z) (w : World)
    (r : Result ResearchResult.t) (w' : World) :
  DeepResearchClient.research sdk fuel query format_instructions poll_interval timeout w
    = Some (r, w') →
  match interactions_create sdk (length (calls w))
          (start_request query format_instructions) with
  | inl e =>
      r = inl e
      ∧ w' = log_call (InteractionsCreate (start_request query format_instructions)) w
  | inr interaction =>
      ∃ k extra,
        (extra ≤ 1)%nat
        ∧ calls w' = calls w
                     ++ InteractionsCreate (start_request query format_instructions)
                        :: replicate (S k + extra)
                             (InteractionsGet (Interaction.id interaction))
        ∧ slept w' = slept w ++ replicate k poll_interval
  end.
Proof.
  unfold DeepResearchClient.research, DeepResearchClient.start_research,
    DeepResearchClient.client_interactions_create, mbind, M_bind, mret, M_ret.
  fold (start_request query format_instructions).
  destruct (interactions_create sdk _ _) as [e|interaction]; intros Hrun.
  - by simplify_eq.
  - apply poll_loop_effects in Hrun as (k & extra & Hextra & Hcalls & Hslept).
    exists k, extra. split; [done|]. rewrite Hcalls, Hslept. simpl.
    by rewrite <- (assoc_L (++)).
Qed.

Lemma research_effects_witness :
  ∃ k extra,
    (extra ≤ 1)%nat
    ∧ [InteractionsCreate (start_request "topic" None);
       InteractionsGet "h"; InteractionsGet "h"]
      = [] ++ InteractionsCreate (start_request "topic" None)
           :: replicate (S k + extra) (InteractionsGet "h")
    ∧ [] = [] ++ replicate k 1%Z.
Proof.
  exact (research_effects (research_sdk "completed") 1 "topic" None 1 10 empty_world
           _ _ eq_refl).
Defined.

(** ** More on the event stream *)

Section StreamingMore.
Variable sdk : Remote.

(** The loop is the body, chunk after chunk, until the body raises. *)
Lemma stream_loop_cons chunk rest interaction_id last_event_id w :
  DeepResearchClient.stream_loop sdk (chunk :: rest) interaction_id last_event_id w
  = let '(events, r, w') :=
      DeepResearchClient.stream_body sdk chunk interaction_id last_event_id w in
    match r with
    | inl e => (events, inl e, w')
    | inr (interaction_id', last_event_id') =>
        let '(later, r', w'') :=
          DeepResearchClient.stream_loop sdk rest interaction_id' last_event_id' w' in
        (events ++ later, r', w'')
    end.
Proof.
  simpl. unfold DeepResearchClient.stream_body.
  destruct (if bool_decide (Chunk.event_type chunk = "interaction.start") then _ else _)
    as [e|[interaction_id' yielded]]; [done|].
  destruct (DeepResearchClient.stream_dispatch sdk chunk _ _ w) as [[events r] w'].
  destruct r as [e|[]]; [done|].
  destruct (DeepResearchClient.stream_loop sdk rest _ _ w') as [[later r'] w''].
  by rewrite (assoc_L (++)).
Qed.

(** What the chain does to the world: nothing, or one fetch at a
    completion chunk. *)
Lemma stream_dispatch_world chunk interaction_id last_event_id w :
  let w' := (DeepResearchClient.stream_dispatch sdk chunk interaction_id last_event_id w).2 in
  w' = w
  ∨ (Chunk.event_type chunk = "interaction.complete"
     ∧ ∃ fetched, w' = log_call (InteractionsGet fetched) w).
Proof.
  unfold DeepResearchClient.stream_dispatch.
  repeat case_bool_decide; simpl.
  - repeat case_match; simpl; eauto.
  - match goal with
    | |- context [DeepResearchClient.get_result sdk ?id w] =>
        pose proof (get_result_world sdk id w) as Hworld;
        destruct (DeepResearchClient.get_result sdk id w) as [[e|result] w1]
    end; simpl in Hworld; subst w1; repeat case_match; simplify_eq; simpl; eauto.
  - eauto.
  - eauto.
Qed.

Lemma stream_body_events chunk interaction_id last_event_id w :
  (length (DeepResearchClient.stream_body sdk chunk interaction_id last_event_id w).1.1
   ≤ 1)%nat.
Proof.
  unfold DeepResearchClient.stream_body.
  case_bool_decide as Hstart.
  - destruct (Chunk.interaction chunk) as [|[interaction|]]; simpl; [lia| |lia].
    rewrite stream_dispatch_start by by apply bool_decide_eq_true_2. simpl. lia.
  - pose proof (stream_dispatch_events sdk chunk interaction_id
        (match Chunk.event_id chunk with
         | Has event_id => if str_truthy event_id then event_id else last_event_id
         | Missing => last_event_id
         end) w) as Hevents.
    destruct (DeepResearchClient.stream_dispatch sdk chunk _ _ w) as [[events r] w'].
    simpl in Hevents.
    assert (length events ≤ 1)%nat as Hlen.
    { destruct (is_end_chunk chunk).
      - destruct Hevents as (? & -> & _). simpl. lia.
      - destruct Hevents as [-> | (? & -> & _)]; simpl; lia. }
    by destruct r.
Qed.

Lemma stream_body_world chunk interaction_id last_event_id w :
  let w' := (DeepResearchClient.stream_body sdk chunk interaction_id last_event_id w).2 in
  w' = w
  ∨ (Chunk.event_type chunk = "interaction.complete"
     ∧ ∃ fetched, w' = log_call (InteractionsGet fetched) w).
Proof.
  unfold DeepResearchClient.stream_body.
  destruct (if bool_decide (Chunk.event_type chunk = "interaction.start") then _ else _)
    as [e|[interaction_id' yielded]]; [by left|].
  match goal with
  | |- context [DeepResearchClient.stream_dispatch sdk chunk ?i ?l w] =>
      pose proof (stream_dispatch_world chunk i l w) as Hworld;
      destruct (DeepResearchClient.stream_dispatch sdk chunk i l w) as [[events r] w']
  end.
  by destruct r.
Qed.

Lemma stream_loop_length chunks interaction_id last_event_id w :
  (length (DeepResearchClient.stream_loop sdk chunks interaction_id last_event_id w).1.1
   ≤ length chunks)%nat.
Proof.
  revert interaction_id last_event_id w.
  induction chunks as [|chunk rest IH]; intros interaction_id last_event_id w; [done|].
  rewrite stream_loop_cons.
  pose proof (stream_body_events chunk interaction_id last_event_id w) as Hone.
  destruct (DeepResearchClient.stream_body sdk chunk interaction_id last_event_id w)
    as [[events r] w'].
  destruct r as [e|[interaction_id' last_event_id']]; simpl in *; [lia|].
  specialize (IH interaction_id' last_event_id' w').
  destruct (DeepResearchClient.stream_loop sdk rest interaction_id' last_event_id' w')
    as [[later r'] w''].
  simpl in *. rewrite length_app. lia.
Qed.

Lemma stream_loop_calls chunks interaction_id last_event_id w :
  let w' := (DeepResearchClient.stream_loop sdk chunks interaction_id last_event_id w).2 in
  ∃ fetches,
    calls w' = calls w ++ (InteractionsGet <$> fetches)
    ∧ (length fetches ≤ length (filter is_completion_chunk chunks))%nat
    ∧ ticks w' = ticks w
    ∧ slept w' = slept w.
Proof.
  revert interaction_id last_event_id w.
  induction chunks as [|chunk rest IH]; intros interaction_id last_event_id w.
  { exists []. simpl. by rewrite (right_id_L [] (++)). }
  rewrite stream_loop_cons.
  pose proof (stream_body_world chunk interaction_id last_event_id w) as Hbody.
  destruct (DeepResearchClient.stream_body sdk chunk interaction_id last_event_id w)
    as [[events r] w1].
  simpl in Hbody.
  assert (∃ first, calls w1 = calls w ++ (InteractionsGet <$> first)
                   ∧ (length first ≤ length (filter is_completion_chunk [chunk]))%nat
                   ∧ ticks w1 = ticks w ∧ slept w1 = slept w)
    as (first & Hcalls1 & Hlen1 & Hticks1 & Hslept1).
  { destruct Hbody as [-> | (Htype & fetched & ->)].
    - exists []. simpl. rewrite (right_id_L [] (++)). repeat split; lia.
    - exists [fetched]. simpl. repeat split.
      rewrite filter_cons_True by done. simpl. lia. }
  assert (length (filter is_completion_chunk (chunk :: rest))
          = length (filter is_completion_chunk [chunk])
            + length (filter is_completion_chunk rest)) as Hsplit.
  { by rewrite <- length_app, <- filter_app. }
  destruct r as [e|[interaction_id' last_event_id']]; simpl.
  - exists first. repeat split; try done. lia.
  - specialize (IH interaction_id' last_event_id' w1).
    destruct (DeepResearchClient.stream_loop sdk rest interaction_id' last_event_id' w1)
      as [[later r'] w2].
    simpl in *. destruct IH as (fetches & Hcalls2 & Hlen2 & Hticks2 & Hslept2).
    exists (first ++ fetches). rewrite Hcalls2, Hcalls1, fmap_app, (assoc_L (++)).
    rewrite length_app. repeat split; [lia | congruence | congruence].
Qed.

(** Without an [interaction.start] chunk, every event carries the
    [interaction_id] the loop started with. *)
Lemma stream_dispatch_ids chunk interaction_id last_event_id w :
  Forall (λ event, ResearchEvent.interaction_id event = interaction_id)
    (DeepResearchClient.stream_dispatch sdk chunk interaction_id last_event_id w).1.1.
Proof.
  unfold DeepResearchClient.stream_dispatch.
  repeat case_bool_decide; simpl; repeat case_match; simpl;
    repeat constructor.
Qed.

Lemma stream_loop_ids chunks interaction_id last_event_id w :
  Forall (λ chunk, is_start_chunk chunk = false) chunks →
  Forall (λ event, ResearchEvent.interaction_id event = interaction_id)
    (DeepResearchClient.stream_loop sdk chunks interaction_id last_event_id w).1.1.
Proof.
  revert last_event_id w.
  induction chunks as [|chunk rest IH]; intros last_event_id w Hnone; [constructor|].
  apply Forall_cons in Hnone as [Hchunk Hrest]. unfold is_start_chunk in Hchunk.
  simpl. rewrite Hchunk.
  match goal with
  | |- context [DeepResearchClient.stream_dispatch sdk chunk ?i ?l w] =>
      pose proof (stream_dispatch_ids chunk i l w) as Hevents;
      destruct (DeepResearchClient.stream_dispatch sdk chunk i l w) as [[events r] w'];
      specialize (IH l w' Hrest);
      destruct (DeepResearchClient.stream_loop sdk rest i l w') as [[later r'] w'']
  end.
  simpl in *. destruct r; simpl; [done|]. by apply Forall_app.
Qed.
End StreamingMore.

(** X7: stream_research yields at most one event for each chunk the provider
    sends. *)
Theorem stream_research_events_bound (sdk : Remote) (query : string)
    (format_instructions : option string) (w : World) (chunks : list Chunk.t) :
  interactions_create_stream sdk (length (calls w))
    (stream_request query format_instructions) = inr chunks →
  (length (DeepResearchClient.stream_research sdk query format_instructions w).1.1
   ≤ length chunks)%nat.
Proof.
  intros Hcreate.
  unfold DeepResearchClient.stream_research,
    DeepResearchClient.client_interactions_create_stream.
  fold (stream_request query format_instructions). rewrite Hcreate.
  apply stream_loop_length.
Qed.

Lemma stream_research_events_bound_witness :
  (length (DeepResearchClient.stream_research
             (streaming_sdk [start_chunk "h"; text_chunk "foo"; error_chunk])
             "topic" None empty_world).1.1
   ≤ 3)%nat.
Proof.
  exact (stream_research_events_bound
           (streaming_sdk [start_chunk "h"; text_chunk "foo"; error_chunk])
           "topic" None empty_world _ eq_refl).
Defined.

(** X8: stream_research opens the stream with one create request and, besides,
    makes at most one fetch for each interaction.complete chunk; it never
    reads the clock and never sleeps. When the create request raises, it
    yields nothing and raises the same exception. *)
Theorem stream_research_effects (sdk : Remote) (query : string)
    (format_instructions : option string) (w : World) :
  let '(events, r, w') :=
    DeepResearchClient.stream_research sdk query format_instructions w in
  match interactions_create_stream sdk (length (calls w))
          (stream_request query format_instructions) with
  | inl e =>
      events = [] ∧ r = inl e
      ∧ w' = log_call (InteractionsCreate (stream_request query format_instructions)) w
  | inr chunks =>
      ∃ fetches,
        calls w' = calls w
                   ++ InteractionsCreate (stream_request query format_instructions)
                      :: (InteractionsGet <$> fetches)
        ∧ (length fetches ≤ length (filter is_completion_chunk chunks))%nat
        ∧ ticks w' = ticks w
        ∧ slept w' = slept w
  end.
Proof.
  unfold DeepResearchClient.stream_research,
    DeepResearchClient.client_interactions_create_stream.
  fold (stream_request query format_instructions).
  destruct (interactions_create_stream sdk _ _) as [e|chunks]; [done|].
  pose proof (stream_loop_calls sdk chunks None None
                (log_call (InteractionsCreate (stream_request query format_instructions)) w))
    as Hloop.
  destruct (DeepResearchClient.stream_loop sdk chunks None None _) as [[events r] w'].
  simpl in Hloop. destruct Hloop as (fetches & Hcalls & Hlen & Hticks & Hslept).
  exists fetches. rewrite Hcalls. by rewrite <- (assoc_L (++)).
Qed.

(** X9: When the first chunk is an interaction.start chunk and no other one
    follows, the first event is the start event and every event carries
    the handle of that chunk's interaction; when there is no
    interaction.start chunk at all, every event carries no handle. *)
Theorem stream_research_handle (sdk : Remote) (query : string)
    (format_instructions : option string) (w : World) (chunks : list Chunk.t) :
  interactions_create_stream sdk (length (calls w))
    (stream_request query format_instructions) = inr chunks →
  let events := (DeepResearchClient.stream_research sdk query format_instructions w).1.1 in
  (∀ first rest interaction,
     chunks = first :: rest →
     Chunk.event_type first = "interaction.start" →
     Chunk.interaction first = Has (Some interaction) →
     Forall (λ chunk, Chunk.event_type chunk ≠ "interaction.start") rest →
     (ResearchEvent.event_type <$> head events) = Some START
     ∧ Forall (λ event, ResearchEvent.interaction_id event
                        = Some (Interaction.id interaction)) events)
  ∧ (Forall (λ chunk, Chunk.event_type chunk ≠ "interaction.start") chunks →
     Forall (λ event, ResearchEvent.interaction_id event = None) events).
Proof.
  intros Hcreate.
  unfold DeepResearchClient.stream_research,
    DeepResearchClient.client_interactions_create_stream.
  fold (stream_request query format_instructions). rewrite Hcreate.
  assert (∀ l, Forall (λ chunk, Chunk.event_type chunk ≠ "interaction.start") l →
               Forall (λ chunk, is_start_chunk chunk = false) l) as Hnot.
  { intros l Hl. eapply Forall_impl; [exact Hl|].
    intros chunk Hc. by apply bool_decide_eq_false_2. }
  split.
  - intros first rest interaction -> Hfirst Hinter Hrest. simpl.
    rewrite bool_decide_eq_true_2 by done. rewrite Hinter.
    rewrite stream_dispatch_start by by apply bool_decide_eq_true_2.
    match goal with
    | |- context [DeepResearchClient.stream_loop sdk rest ?i ?l ?w'] =>
        pose proof (stream_loop_ids sdk rest i l w' (Hnot _ Hrest)) as Hids;
        destruct (DeepResearchClient.stream_loop sdk rest i l w') as [[later r] w'']
    end.
    simpl in *. split; [done|]. by constructor.
  - intros Hnone. by apply stream_loop_ids, Hnot.
Qed.

Lemma stream_research_handle_witness :
  (ResearchEvent.event_type
     <$> head (DeepResearchClient.stream_research
                 (streaming_sdk [start_chunk "h"; text_chunk "foo"; error_chunk])
                 "topic" None empty_world).1.1) = Some START
  ∧ Forall (λ event, ResearchEvent.interaction_id event = Some "h")
      (DeepResearchClient.stream_research
         (streaming_sdk [start_chunk "h"; text_chunk "foo"; error_chunk])
         "topic" None empty_world).1.1.
Proof.
  refine (proj1 (stream_research_handle
                   (streaming_sdk [start_chunk "h"; text_chunk "foo"; error_chunk])
                   "topic" None empty_world _ eq_refl) _ _ _ eq_refl eq_refl eq_refl _).
  repeat constructor; by vm_compute.
Defined.

(** X10: At an interaction.complete chunk the generator yields one complete
    event and does not raise. The content is the last non-empty text of the
    chunk's own outputs when there is one, and then nothing is fetched;
    otherwise, when a non-empty handle is known, the handle is fetched once
    and the content is the fetched content if that is non-empty, and None
    if it is empty or the fetch raises; with no handle known nothing is
    fetched and the content is None. *)
Theorem stream_complete_content (sdk : Remote) (chunk : Chunk.t)
    (interaction_id last_event_id : option string) (w : World) :
  Chunk.event_type chunk = "interaction.complete" →
  ∃ content w',
    DeepResearchClient.stream_dispatch sdk chunk interaction_id last_event_id w
    = ([ {| ResearchEvent.event_type := COMPLETE;
            ResearchEvent.interaction_id := interaction_id;
            ResearchEvent.content := content;
            ResearchEvent.event_id := last_event_id |} ], inr (), w')
    ∧ (∀ interaction outputs s,
         Chunk.interaction chunk = Has (Some interaction) →
         Interaction.outputs interaction = Some outputs →
         last_text_is outputs s →
         content = Some s ∧ w' = w)
    ∧ ((∀ interaction outputs,
          Chunk.interaction chunk = Has (Some interaction) →
          Interaction.outputs interaction = Some outputs →
          Forall textless outputs) →
       match interaction_id with
       | Some (String c rest) =>
           w' = log_call (InteractionsGet (String c rest)) w
           ∧ match DeepResearchClient.get_result sdk (String c rest) w with
             | (inr result, _) =>
                 content = if str_truthy (ResearchResult.content result)
                           then ResearchResult.content result
                           else None
             | (inl _, _) => content = None
             end
       | _ => content = None ∧ w' = w
       end).
Proof.
  intros Htype. unfold DeepResearchClient.stream_dispatch.
  rewrite bool_decide_eq_false_2 by (rewrite Htype; done).
  rewrite bool_decide_eq_true_2 by done.
  set (own := match Chunk.interaction chunk with
              | Has (Some interaction) =>
                  if DeepResearchClient.outputs_truthy (Interaction.outputs interaction)
                  then scan_text (reverse (default [] (Interaction.outputs interaction)))
                  else None
              | _ => None
              end).
  assert (∀ interaction outputs s,
            Chunk.interaction chunk = Has (Some interaction) →
            Interaction.outputs interaction = Some outputs →
            last_text_is outputs s → own = Some s) as Hown.
  { intros interaction outputs s Hi Ho (older & output & newer & -> & Hs & Hnewer).
    unfold own. rewrite Hi, Ho.
    assert (DeepResearchClient.outputs_truthy (Some (older ++ output :: newer)) = true)
      as -> by by destruct older.
    simpl. by apply scan_text_reverse. }
  assert ((∀ interaction outputs,
             Chunk.interaction chunk = Has (Some interaction) →
             Interaction.outputs interaction = Some outputs →
             Forall textless outputs) → own = None) as Hnone.
  { intros Hall. unfold own.
    destruct (Chunk.interaction chunk) as [|[interaction|]]; [done| |done].
    destruct (Interaction.outputs interaction) as [outputs|] eqn:Ho; [|done].
    case_match; [|done]. simpl. by apply scan_text_reverse_None, (Hall interaction). }
  clearbody own. destruct own as [s|].
  - do 2 eexists. split; [reflexivity|]. split.
    + intros interaction outputs s' Hi Ho Hs'.
      by rewrite <- (Hown _ _ _ Hi Ho Hs').
    + intros Hall. by specialize (Hnone Hall).
  - destruct interaction_id as [[|c rest]|]; simpl.
    + do 2 eexists. split; [reflexivity|]. split; [|done].
      intros interaction outputs s' Hi Ho Hs'. by specialize (Hown _ _ _ Hi Ho Hs').
    + pose proof (get_result_world sdk (String c rest) w) as Hworld.
      destruct (DeepResearchClient.get_result sdk (String c rest) w) as [[e|result] w1];
        simpl in Hworld; subst w1.
      * do 2 eexists. split; [reflexivity|]. split; [|done].
        intros interaction outputs s' Hi Ho Hs'. by specialize (Hown _ _ _ Hi Ho Hs').
      * do 2 eexists. split; [reflexivity|]. split; [|done].
        intros interaction outputs s' Hi Ho Hs'. by specialize (Hown _ _ _ Hi Ho Hs').
    + do 2 eexists. split; [reflexivity|]. split; [|done].
      intros interaction outputs s' Hi Ho Hs'. by specialize (Hown _ _ _ Hi Ho Hs').
Qed.

Lemma stream_complete_content_witness :
  ∃ content w',
    DeepResearchClient.stream_dispatch sample_sdk (complete_chunk []) (Some "h") None
      empty_world
    = ([ {| ResearchEvent.event_type := COMPLETE;
            ResearchEvent.interaction_id := Some "h";
            ResearchEvent.content := content;
            ResearchEvent.event_id := None |} ], inr (), w')
    ∧ content = Some "second"
    ∧ w' = log_call (InteractionsGet "h") empty_world.
Proof.
  destruct (stream_complete_content sample_sdk (complete_chunk []) (Some "h") None
              empty_world eq_refl) as (content & w' & Hrun & _ & Hfetch).
  exists content, w'. split; [exact Hrun|].
  destruct Hfetch as [Hw Hc].
  - intros interaction outputs [= <-] [= <-]. constructor.
  - split; [exact Hc | exact Hw].
Defined.

(** ** More on [QuickSearchClient] *)

Lemma Forall2_indexed {A B} (R : A → B → Prop) (l1 : list A) (l2 : list B) :
  Forall2 R l1 l2 →
  length l1 = length l2
  ∧ ∀ i y, l2 !! i = Some y → ∃ x, l1 !! i = Some x ∧ R x y.
Proof.
  intros Hall. split; [by eapply Forall2_length|].
  intros i y Hi. by eapply Forall2_lookup_r.
Qed.

(** The result of [analyze_urls] on a returned response, by what the parsing
    of the response gives. *)
Lemma analysis_result_spec (sdk : Remote) (urls : list string) (query model : string)
    (response : Response.t) :
  let result :=
    match QuickSearchClient.extract_url_metadata sdk response with
    | inr url_metadata =>
        {| UrlAnalysisResult.urls := urls;
           UrlAnalysisResult.query := query;
           UrlAnalysisResult.content := QuickSearchClient.response_content response;
           UrlAnalysisResult.url_metadata := url_metadata;
           UrlAnalysisResult.model := model;
           UrlAnalysisResult.error := None |}
    | inl e => analysis_failure urls query model e
    end in
  (UrlAnalysisResult.error result = None
   ↔ Forall retrieval_set (response_retrievals response))
  ∧ (UrlAnalysisResult.error result = None →
     Forall2 reports (UrlAnalysisResult.url_metadata result) (response_retrievals response)
     ∧ UrlAnalysisResult.content result = QuickSearchClient.response_content response)
  ∧ (UrlAnalysisResult.error result ≠ None →
     UrlAnalysisResult.content result = ""
     ∧ UrlAnalysisResult.url_metadata result = []).
Proof.
  pose proof (extract_url_metadata_spec sdk response) as Hspec.
  destruct (QuickSearchClient.extract_url_metadata sdk response) as [e|url_metadata]; simpl.
  - split; [split; [done|intros Hall; by destruct Hspec]|]. by split.
  - destruct Hspec as [? ?]. by repeat split.
Qed.

Lemma response_content_text (response : Response.t) :
  QuickSearchClient.response_content response
  = match Response.text response with
    | Some text => text
    | None => ""
    end.
Proof.
  unfold QuickSearchClient.response_content, str_truthy.
  destruct (Response.text response) as [text|]; [|done]. simpl.
  by case_bool_decide.
Qed.

(** X11: When the remote call of analyze_urls (made for at most 20 URLs)
    raises an exception e, analyze_urls does not raise: it returns its
    result with empty content, no metadata and error str(e); and so does
    search_and_analyze, with no citations, when its own remote call raises. *)
Theorem analyze_remote_failure (sdk : Remote) (urls : list string)
    (optional_urls : option (list string)) (query model language : string) (w : World) :
  (∀ e, (length urls ≤ 20)%nat →
        generate_content sdk (length (calls w))
          (analyze_urls_request urls query model language) = inl e →
        QuickSearchClient.analyze_urls sdk urls query model language w
        = (inr {| UrlAnalysisResult.urls := urls;
                  UrlAnalysisResult.query := query;
                  UrlAnalysisResult.content := "";
                  UrlAnalysisResult.url_metadata := [];
                  UrlAnalysisResult.model := model;
                  UrlAnalysisResult.error := Some (exc_str e) |},
           log_call (GenerateContent (analyze_urls_request urls query model language)) w))
  ∧ (∀ e, generate_content sdk (length (calls w))
            (search_and_analyze_request query optional_urls model language) = inl e →
          QuickSearchClient.search_and_analyze sdk query optional_urls model language w
          = (inr {| QuickSearchResult.query := query;
                    QuickSearchResult.content := "";
                    QuickSearchResult.citations := [];
                    QuickSearchResult.grounding_supports := [];
                    QuickSearchResult.search_queries := [];
                    QuickSearchResult.model := model;
                    QuickSearchResult.error := Some (exc_str e) |},
             log_call (GenerateContent
                         (search_and_analyze_request query optional_urls model language))
               w)).
Proof.
  split.
  - intros e Hlen Hfail. rewrite analyze_urls_eq, Hfail.
    by rewrite bool_decide_eq_false_2 by lia.
  - intros e Hfail. by rewrite search_and_analyze_eq, Hfail.
Qed.

Lemma analyze_remote_failure_witness :
  QuickSearchClient.analyze_urls sample_sdk ["https://a.example"] "compare" "m" "en"
    empty_world
  = (inr {| UrlAnalysisResult.urls := ["https://a.example"];
            UrlAnalysisResult.query := "compare";
            UrlAnalysisResult.content := "";
            UrlAnalysisResult.url_metadata := [];
            UrlAnalysisResult.model := "m";
            UrlAnalysisResult.error := Some "service unavailable" |},
     log_call (GenerateContent
                 (analyze_urls_request ["https://a.example"] "compare" "m" "en"))
       empty_world)
  ∧ QuickSearchClient.search_and_analyze sample_sdk "compare" None "m" "en" empty_world
    = (inr {| QuickSearchResult.query := "compare";
              QuickSearchResult.content := "";
              QuickSearchResult.citations := [];
              QuickSearchResult.grounding_supports := [];
              QuickSearchResult.search_queries := [];
              QuickSearchResult.model := "m";
              QuickSearchResult.error := Some "service unavailable" |},
       log_call (GenerateContent (search_and_analyze_request "compare" None "m" "en"))
         empty_world).
Proof.
  destruct (analyze_remote_failure sample_sdk ["https://a.example"] None "compare" "m" "en"
              empty_world) as [Hanalyze Hsearch].
  split.
  - apply (Hanalyze sample_exception); [simpl; lia | done].
  - by apply (Hsearch sample_exception).
Defined.

(** X12: The error field of a result tells how the call went: it is None
    exactly when the remote call returned a response from which every
    pydantic model could be built, that is one in which no web source has
    the uri None and no support with a segment a None text, index or list of
    chunk indices (for analyze_urls: when there were at most 20 URLs and no
    retrieval entry of the response has a None url or status); and a result
    with an error has empty content and empty lists. *)
Theorem error_field_tells_outcome (sdk : Remote) (query model language : string)
    (urls : list string) (optional_urls : option (list string)) (w : World) :
  (∃ result w',
     QuickSearchClient.quick_search sdk query model language w = (inr result, w')
     ∧ (QuickSearchResult.error result = None
        ↔ ∃ response,
            generate_content sdk (length (calls w))
              (quick_search_request query model language) = inr response
            ∧ Forall source_set (web_sources (response_chunks response))
            ∧ Forall segment_set (segmented_supports (response_supports response)))
     ∧ (QuickSearchResult.error result ≠ None →
        QuickSearchResult.content result = ""
        ∧ QuickSearchResult.citations result = []
        ∧ QuickSearchResult.grounding_supports result = []
        ∧ QuickSearchResult.search_queries result = []))
  ∧ (∃ result w',
       QuickSearchClient.search_and_analyze sdk query optional_urls model language w
         = (inr result, w')
       ∧ (QuickSearchResult.error result = None
          ↔ ∃ response,
              generate_content sdk (length (calls w))
                (search_and_analyze_request query optional_urls model language)
                = inr response
              ∧ Forall source_set (web_sources (response_chunks response))
              ∧ Forall segment_set (segmented_supports (response_supports response)))
       ∧ (QuickSearchResult.error result ≠ None →
          QuickSearchResult.content result = ""
          ∧ QuickSearchResult.citations result = []
          ∧ QuickSearchResult.grounding_supports result = []
          ∧ QuickSearchResult.search_queries result = []))
  ∧ (∃ result w',
       QuickSearchClient.analyze_urls sdk urls query model language w = (inr result, w')
       ∧ (UrlAnalysisResult.error result = None
          ↔ (length urls ≤ 20)%nat
            ∧ ∃ response,
                generate_content sdk (length (calls w))
                  (analyze_urls_request urls query model language) = inr response
                ∧ Forall retrieval_set (response_retrievals response))
       ∧ (UrlAnalysisResult.error result ≠ None →
          UrlAnalysisResult.content result = ""
          ∧ UrlAnalysisResult.url_metadata result = [])).
Proof.
  split; [|split].
  - rewrite quick_search_eq.
    destruct (generate_content sdk _ _) as [e|response].
    + do 2 eexists. split; [reflexivity|]. simpl. split; [|done].
      split; [done | by intros (? & ? & _)].
    + destruct (grounded_result_spec sdk query model response) as (Hiff & _ & Hko).
      do 2 eexists. split; [reflexivity|]. split; [|exact Hko].
      rewrite Hiff. split; [by exists response|]. by intros (? & [= <-] & ?).
  - rewrite search_and_analyze_eq.
    destruct (generate_content sdk _ _) as [e|response].
    + do 2 eexists. split; [reflexivity|]. simpl. split; [|done].
      split; [done | by intros (? & ? & _)].
    + destruct (grounded_result_spec sdk query model response) as (Hiff & _ & Hko).
      do 2 eexists. split; [reflexivity|]. split; [|exact Hko].
      rewrite Hiff. split; [by exists response|]. by intros (? & [= <-] & ?).
  - rewrite analyze_urls_eq. case_bool_decide as Hlen.
    + do 2 eexists. split; [reflexivity|]. simpl. split; [|done].
      split; [done | intros [? _]; lia].
    + destruct (generate_content sdk _ _) as [e|response].
      * do 2 eexists. split; [reflexivity|]. simpl. split; [|done].
        split; [done | by intros [_ (? & ? & _)]].
      * destruct (analysis_result_spec sdk urls query model response) as (Hiff & _ & Hko).
        do 2 eexists. split; [reflexivity|]. split; [|exact Hko].
        rewrite Hiff. split.
        -- intros Hall. split; [lia|]. by exists response.
        -- by intros [_ (? & [= <-] & ?)].
Qed.

(** X13: With at most 20 URLs, 20 included, analyze_urls makes exactly one remote
    call, whatever comes of it: a generate_content request with the
    URL-context tool alone, whose prompt carries the query, a blank line,
    the line URLs: and the URLs one per line. *)
Theorem analyze_urls_request_sent (sdk : Remote) (urls : list string)
    (query model language : string) (w : World) :
  (length urls ≤ 20)%nat →
  (QuickSearchClient.analyze_urls sdk urls query model language w).2
  = log_call
      (GenerateContent
         {| generate_model := model;
            generate_contents :=
              (if bool_decide (language = "ja")
               then QuickSearchClient.SYSTEM_PROMPT_JA +:+ LF +:+ LF else "")
              +:+ query +:+ LF +:+ LF +:+ "URLs:" +:+ LF +:+ String.concat LF urls;
            generate_tools := [url_context] |}) w.
Proof.
  intros Hlen. rewrite analyze_urls_eq. rewrite bool_decide_eq_false_2 by lia. simpl.
  unfold analyze_urls_request, QuickSearchClient._build_prompt.
  case_bool_decide; [|done]. by rewrite !string_app_assoc.
Qed.

Lemma analyze_urls_request_sent_witness :
  (QuickSearchClient.analyze_urls grounded_sdk (replicate 20 "https://example.com/page")
     "compare" "m" "en" empty_world).2
  = log_call
      (GenerateContent
         {| generate_model := "m";
            generate_contents :=
              "compare" +:+ LF +:+ LF +:+ "URLs:" +:+ LF
              +:+ String.concat LF (replicate 20 "https://example.com/page");
            generate_tools := [url_context] |}) empty_world.
Proof.
  apply (analyze_urls_request_sent grounded_sdk (replicate 20 "https://example.com/page")
           "compare" "m" "en" empty_world).
  simpl. lia.
Defined.

(** X14: From a response without a None url or status among its retrieval
    entries, analyze_urls reports one entry per URL the provider says it
    retrieved, in the provider's order: the retrieved URL (empty when the
    entry has no such attribute), the retrieval status (unknown when the
    entry has no such attribute), and no title, ever.  A response with such
    a None gives the error result instead, without content or entries. *)
Theorem url_metadata_follows_provider (sdk : Remote) (urls : list string)
    (query model language : string) (w : World) (response : Response.t) :
  (length urls ≤ 20)%nat →
  generate_content sdk (length (calls w))
    (analyze_urls_request urls query model language) = inr response →
  ∃ result w',
    QuickSearchClient.analyze_urls sdk urls query model language w = (inr result, w')
    ∧ (UrlAnalysisResult.error result = None
       ↔ Forall retrieval_set (response_retrievals response))
    ∧ (UrlAnalysisResult.error result = None →
       length (UrlAnalysisResult.url_metadata result)
       = length (response_retrievals response)
       ∧ ∀ i meta, response_retrievals response !! i = Some meta →
           ∃ reported,
             UrlAnalysisResult.url_metadata result !! i = Some reported
             ∧ reports reported meta)
    ∧ (UrlAnalysisResult.error result ≠ None →
       UrlAnalysisResult.content result = ""
       ∧ UrlAnalysisResult.url_metadata result = []).
Proof.
  intros Hlen Hget. rewrite analyze_urls_eq, Hget.
  rewrite bool_decide_eq_false_2 by lia.
  destruct (analysis_result_spec sdk urls query model response) as (Hiff & Hok & Hko).
  do 2 eexists. split; [reflexivity|]. split; [exact Hiff|]. split; [|exact Hko].
  intros Hnone. by apply Forall2_indexed, Hok.
Qed.

Lemma url_metadata_follows_provider_witness :
  ∃ result w',
    QuickSearchClient.analyze_urls retrieving_sdk ["https://a.example"; "https://b.example"]
      "compare" "m" "en" empty_world = (inr result, w')
    ∧ UrlAnalysisResult.error result = None
    ∧ length (UrlAnalysisResult.url_metadata result) = 2.
Proof.
  destruct (url_metadata_follows_provider retrieving_sdk
              ["https://a.example"; "https://b.example"] "compare" "m" "en" empty_world
              retrieved_response ltac:(simpl; lia) eq_refl)
    as (result & w' & Hrun & Hiff & Hok & _).
  assert (UrlAnalysisResult.error result = None) as Hnone.
  { apply Hiff. by repeat constructor. }
  exists result, w'. split; [exact Hrun|]. split; [exact Hnone|].
  exact (proj1 (Hok Hnone)).
Defined.

(** The two entries of the sample response, the second without a status. *)
Example url_metadata_reported :
  (QuickSearchClient.analyze_urls retrieving_sdk ["https://a.example"; "https://b.example"]
     "compare" "m" "en" empty_world).1
  = inr {| UrlAnalysisResult.urls := ["https://a.example"; "https://b.example"];
           UrlAnalysisResult.query := "compare";
           UrlAnalysisResult.content := "analysis";
           UrlAnalysisResult.url_metadata :=
             [ {| UrlMetadata.url := "https://a.example"; UrlMetadata.status := "SUCCESS";
                  UrlMetadata.title := None |};
               {| UrlMetadata.url := "https://b.example"; UrlMetadata.status := "unknown";
                  UrlMetadata.title := None |} ];
           UrlAnalysisResult.model := "m";
           UrlAnalysisResult.error := None |}.
Proof. by vm_compute. Qed.

(** X15: From a response that it turns into a result without an error,
    quick_search passes on the search queries of the provider unchanged,
    takes the text of the response as content ("" when there is none) and
    builds one grounding support per provider support that has a segment,
    in the provider's order, with an empty text, zero indices and no
    citation indices where the segment or the support has no such
    attribute.  A support whose segment has the start index None makes the
    whole result the error result: no content, no citations, no supports. *)
Theorem grounding_follows_provider (sdk : Remote) (query model language : string)
    (w : World) (response : Response.t) :
  generate_content sdk (length (calls w)) (quick_search_request query model language)
    = inr response →
  ∃ result w',
    QuickSearchClient.quick_search sdk query model language w = (inr result, w')
    ∧ (QuickSearchResult.error result = None →
       QuickSearchResult.content result
       = match Response.text response with
         | Some text => text
         | None => ""
         end
       ∧ QuickSearchResult.search_queries result = response_queries response
       ∧ length (QuickSearchResult.grounding_supports result)
         = length (segmented_supports (response_supports response))
       ∧ ∀ i entry, segmented_supports (response_supports response) !! i = Some entry →
           ∃ grounding_support,
             QuickSearchResult.grounding_supports result !! i = Some grounding_support
             ∧ renders grounding_support entry)
    ∧ (∀ support segment,
         (support, segment) ∈ segmented_supports (response_supports response) →
         Segment.start_index segment = Has None →
         QuickSearchResult.error result ≠ None
         ∧ QuickSearchResult.content result = ""
         ∧ QuickSearchResult.citations result = []
         ∧ QuickSearchResult.grounding_supports result = []
         ∧ QuickSearchResult.search_queries result = []).
Proof.
  intros Hget. rewrite quick_search_eq, Hget.
  destruct (grounded_result_spec sdk query model response) as (Hiff & Hok & Hko).
  do 2 eexists. split; [reflexivity|]. split.
  - intros Hnone. destruct (Hok Hnone) as (_ & Hsupports & Hqueries & Hcontent).
    split; [by rewrite Hcontent, response_content_text|]. split; [done|].
    by apply Forall2_indexed.
  - intros support segment Hin Hstart.
    assert (QuickSearchResult.error
              match QuickSearchClient.extract_grounding sdk response with
              | inr (citations, grounding_supports, search_queries) =>
                  {| QuickSearchResult.query := query;
                     QuickSearchResult.content :=
                       QuickSearchClient.response_content response;
                     QuickSearchResult.citations := citations;
                     QuickSearchResult.grounding_supports := grounding_supports;
                     QuickSearchResult.search_queries := search_queries;
                     QuickSearchResult.model := model;
                     QuickSearchResult.error := None |}
              | inl e => search_failure query model e
              end ≠ None) as Herror.
    { intros Hnone. apply Hiff in Hnone as [_ Hall].
      rewrite Forall_forall in Hall. destruct (Hall _ Hin) as (_ & Hset & _).
      simpl in Hset. by apply Hset. }
    split; [exact Herror|]. by apply Hko.
Qed.

Lemma grounding_follows_provider_witness :
  ∃ result w',
    QuickSearchClient.quick_search supported_sdk "q" "m" "en" empty_world = (inr result, w')
    ∧ QuickSearchResult.content result = ""
    ∧ QuickSearchResult.search_queries result = ["nobel 2024"; "physics prize"]
    ∧ length (QuickSearchResult.grounding_supports result) = 1.
Proof.
  destruct (grounding_follows_provider supported_sdk "q" "m" "en" empty_world
              supported_response eq_refl)
    as (result & w' & Hrun & Hok & _).
  exists result, w'. split; [exact Hrun|].
  assert (QuickSearchResult.error result = None) as Hnone by by injection Hrun as <- _.
  destruct (Hok Hnone) as (Hcontent & Hqueries & Hlength & _).
  by repeat split.
Defined.

(** The support of the sample response, whose segment has no start index
    attribute and whose support has no chunk indices attribute. *)
Example grounding_support_defaults :
  ∃ result w',
    QuickSearchClient.quick_search supported_sdk "q" "m" "en" empty_world = (inr result, w')
    ∧ QuickSearchResult.grounding_supports result
      = [ {| GroundingSupport.text := "claim";
             GroundingSupport.start_index := 0;
             GroundingSupport.end_index := 5;
             GroundingSupport.citation_indices := [] |} ].
Proof. by do 2 eexists. Qed.

(** X16: search_and_analyze treats an empty URL list as no list: the request and
    the result are the same, and the prompt is the one quick_search sends,
    with the URL-context tool enabled beside the search tool. With URLs the
    prompt goes on with a blank line, the reference heading and the URLs one
    per line. *)
Theorem search_and_analyze_urls (sdk : Remote) (query model language : string)
    (u : string) (us : list string) (w : World) :
  QuickSearchClient.search_and_analyze sdk query (Some []) model language w
  = QuickSearchClient.search_and_analyze sdk query None model language w
  ∧ (QuickSearchClient.search_and_analyze sdk query None model language w).2
    = log_call (GenerateContent
                  {| generate_model := model;
                     generate_contents :=
                       generate_contents (quick_search_request query model language);
                     generate_tools := [google_search; url_context] |}) w
  ∧ (QuickSearchClient.search_and_analyze sdk query (Some (u :: us)) model language w).2
    = log_call (GenerateContent
                  {| generate_model := model;
                     generate_contents :=
                       generate_contents (quick_search_request query model language)
                       +:+ LF +:+ LF +:+ "参考URL:" +:+ LF +:+ String.concat LF (u :: us);
                     generate_tools := [google_search; url_context] |}) w.
Proof.
  rewrite !search_and_analyze_eq. done.
Qed.

(** ** The tool handlers of the protocol server *)


(** X17: A deep_research call that waits and whose polling times out returns a
    dict with status failed whose error is the message of the TimeoutError
    as it is, naming the timeout and the handle; the interaction_id entry
    itself is None. *)
Theorem deep_research_timeout (sdk : Remote) (query : string)
    (format_instructions : option string) (timeout : Z) (w : World)
    (interaction : Interaction.t) (k : nat) :
  interactions_create sdk (length (calls w)) (start_request query format_instructions)
    = inr interaction →
  let w1 := log_call (InteractionsCreate (start_request query format_instructions)) w in
  (∀ j, (j ≤ k)%nat → pending sdk (Interaction.id interaction) w1 j) →
  reaches timeout (elapsed_after sdk w1 k) →
  ∃ fuel w',
    McpServer.deep_research sdk fuel query format_instructions true timeout w
    = Some ([ ("interaction_id", VNone);
              ("status", VStr "failed");
              ("content", VNone);
              ("citations", VNone);
              ("error", VStr ("Research did not complete within " +:+ pretty timeout
                              +:+ " seconds. Interaction ID: "
                              +:+ Interaction.id interaction)) ], w').
Proof.
  intros Hcreate w1 Hpending Hreach.
  destruct (poll_loop_times_out_exact sdk (Interaction.id interaction)
              DeepResearchClient.DEFAULT_POLL_INTERVAL timeout (time sdk (ticks w1)) k
              {| calls := calls w1; ticks := S (ticks w1); slept := slept w1 |}
              Hpending Hreach) as (fuel & w' & Hrun).
  exists fuel, w'.
  unfold McpServer.deep_research, DeepResearchClient.research,
    DeepResearchClient.start_research, DeepResearchClient.client_interactions_create,
    mbind, M_bind, mret, M_ret.
  fold (start_request query format_instructions). rewrite Hcreate.
  unfold DeepResearchClient.poll_until_complete, DeepResearchClient.time_time.
  fold w1. by rewrite Hrun.
Qed.

Lemma deep_research_timeout_witness :
  ∃ fuel w',
    McpServer.deep_research (research_sdk "in_progress") fuel "topic" None true 2
      empty_world
    = Some ([ ("interaction_id", VNone);
              ("status", VStr "failed");
              ("content", VNone);
              ("citations", VNone);
              ("error",
               VStr "Research did not complete within 2 seconds. Interaction ID: h") ],
            w').
Proof.
  apply (deep_research_timeout (research_sdk "in_progress") "topic" None 2 empty_world
           (sample_interaction "in_progress" []) 1 eq_refl).
  - intros j Hj. by exists (sample_interaction "in_progress" [text_output "report"]).
  - by vm_compute.
Defined.

(** X18: When the creation of the task raises, deep_research makes no fetch and
    returns a dict with status failed and no handle, in either mode: its
    error is Research failed: followed by str(e), except for an instance of
    TimeoutError, of that class or of a subclass, whose message is passed on
    as it is. *)
Theorem deep_research_creation_failure (sdk : Remote) (fuel : nat) (query : string)
    (format_instructions : option string) (wait_for_completion : bool) (timeout : Z)
    (w : World) (e : Exception) :
  interactions_create sdk (length (calls w)) (start_request query format_instructions)
    = inl e →
  ∃ message,
    McpServer.deep_research sdk fuel query format_instructions wait_for_completion timeout w
    = Some ([ ("interaction_id", VNone);
              ("status", VStr "failed");
              ("content", VNone);
              ("citations", VNone);
              ("error", VStr message) ],
            log_call (InteractionsCreate (start_request query format_instructions)) w)
    ∧ (exc_class e = "TimeoutError" ∨ "TimeoutError" ∈ exc_bases e →
       message = exc_str e)
    ∧ (exc_class e ≠ "TimeoutError" → "TimeoutError" ∉ exc_bases e →
       message = "Research failed: " +:+ exc_str e).
Proof.
  intros Hcreate.
  unfold McpServer.deep_research, DeepResearchClient.research,
    DeepResearchClient.start_research, DeepResearchClient.client_interactions_create,
    mbind, M_bind, mret, M_ret.
  fold (start_request query format_instructions). rewrite Hcreate.
  eexists. split; [by destruct wait_for_completion|].
  unfold isinstance. split.
  - intros [Hclass|Hbase].
    + by rewrite (bool_decide_eq_true_2 _ (eq_sym Hclass)).
    + rewrite (bool_decide_eq_true_2 _ Hbase). by rewrite orb_true_r.
  - intros Hclass Hbase.
    rewrite bool_decide_eq_false_2 by congruence.
    by rewrite (bool_decide_eq_false_2 _ Hbase).
Qed.

Lemma deep_research_creation_failure_witness :
  McpServer.deep_research slow_sdk 0 "topic" None true 3600 empty_world
  = Some ([ ("interaction_id", VNone);
            ("status", VStr "failed");
            ("content", VNone);
            ("citations", VNone);
            ("error", VStr "connect timed out") ],
          log_call (InteractionsCreate (start_request "topic" None)) empty_world).
Proof.
  destruct (deep_research_creation_failure slow_sdk 0 "topic" None true 3600 empty_world
              _ eq_refl) as (message & Hrun & Htimeout & _).
  rewrite Hrun. rewrite Htimeout; [reflexivity|]. right. simpl. by left.
Defined.

(** The exception of the sample service is no TimeoutError: its message
    gets the prefix. *)
Example deep_research_creation_fails :
  McpServer.deep_research grounded_sdk 0 "topic" None true 3600 empty_world
  = Some ([ ("interaction_id", VNone);
            ("status", VStr "failed");
            ("content", VNone);
            ("citations", VNone);
            ("error", VStr "Research failed: service unavailable") ],
          log_call (InteractionsCreate (start_request "topic" None)) empty_world).
Proof. reflexivity. Qed.

(** X19: The status entry of get_research_status is always one of the four
    status names: the canonical status of the interaction when the fetch
    succeeds, and failed, with an error that starts with Failed to get
    status:, when the fetch raises; the handle is echoed either way. *)
Theorem get_research_status_dict (sdk : Remote) (interaction_id : string) (w : World) :
  ∃ d w',
    McpServer.get_research_status sdk interaction_id w = (inr d, w')
    ∧ dict_keys d = ["interaction_id"; "status"; "error"]
    ∧ dict_get "interaction_id" d = Some (VStr interaction_id)
    ∧ (∃ status, dict_get "status" d = Some (VStr (ResearchStatusEnum_value status)))
    ∧ match interactions_get sdk (length (calls w)) interaction_id with
      | inr interaction =>
          dict_get "status" d
          = Some (VStr (ResearchStatusEnum_value
                          (canonical_status (Interaction.status interaction))))
          ∧ dict_get "error" d
            = Some (opt_str (DeepResearchClient.error_message
                               (getattr (Interaction.error interaction) py_None)))
      | inl e =>
          dict_get "status" d = Some (VStr "failed")
          ∧ dict_get "error" d = Some (VStr ("Failed to get status: " +:+ exc_str e))
      end.
Proof.
  unfold McpServer.get_research_status, try_except, mbind, M_bind, mret, M_ret.
  rewrite get_status_eq.
  destruct (interactions_get sdk _ _) as [e|interaction].
  - do 2 eexists. split; [reflexivity|]. repeat split. by exists FAILED.
  - do 2 eexists. split; [reflexivity|]. repeat split. by eexists.
Qed.

(** X20: When the remote call of the handler quick_search, search_and_analyze
    or analyze_urls raises e, the client has caught it before the except
    clause of the handler can: the dict returned has the content "", not
    None, and the error str(e) without the handler's prefix. *)
Theorem search_handlers_failure (sdk : Remote) (query model language : string)
    (urls : list string) (optional_urls : option (list string)) (w : World) :
  (∀ e, generate_content sdk (length (calls w))
          (quick_search_request query model language) = inl e →
        ∃ w', McpServer.quick_search sdk query model language w
              = (inr [ ("query", VStr query); ("content", VStr "");
                       ("citations", VList []); ("search_queries", VList []);
                       ("model", VStr model); ("error", VStr (exc_str e)) ], w'))
  ∧ (∀ e, generate_content sdk (length (calls w))
            (search_and_analyze_request query optional_urls model language) = inl e →
          ∃ w', McpServer.search_and_analyze sdk query optional_urls model language w
                = (inr [ ("query", VStr query); ("content", VStr "");
                         ("citations", VList []); ("search_queries", VList []);
                         ("model", VStr model); ("error", VStr (exc_str e)) ], w'))
  ∧ (∀ e, (length urls ≤ 20)%nat →
          generate_content sdk (length (calls w))
            (analyze_urls_request urls query model language) = inl e →
          ∃ w', McpServer.analyze_urls sdk urls query model language w
                = (inr [ ("urls", str_list urls); ("query", VStr query);
                         ("content", VStr ""); ("url_metadata", VList []);
                         ("model", VStr model); ("error", VStr (exc_str e)) ], w')).
Proof.
  unfold McpServer.quick_search, McpServer.search_and_analyze, McpServer.analyze_urls,
    try_except, mbind, M_bind, mret, M_ret.
  rewrite quick_search_eq, search_and_analyze_eq, analyze_urls_eq.
  split; [|split].
  - intros e ->. by eexists.
  - intros e ->. by eexists.
  - intros e Hlen ->. rewrite bool_decide_eq_false_2 by lia. by eexists.
Qed.

Lemma search_handlers_failure_witness :
  ∃ w', McpServer.quick_search sample_sdk "news" "m" "en" empty_world
        = (inr [ ("query", VStr "news"); ("content", VStr ""); ("citations", VList []);
                 ("search_queries", VList []); ("model", VStr "m");
                 ("error", VStr "service unavailable") ], w').
Proof.
  exact (proj1 (search_handlers_failure sample_sdk "news" "m" "en" [] None empty_world)
           sample_exception eq_refl).
Defined.

(** ** The streaming handler *)

Lemma consume_events_app events1 events2 state :
  McpServer.consume_events (events1 ++ events2) state
  = match McpServer.consume_events events1 state with
    | inl returned => inl returned
    | inr state' => McpServer.consume_events events2 state'
    end.
Proof.
  revert state. induction events1 as [|event events1 IH]; intros state; simpl; [done|].
  destruct (McpServer.consume_event event state); [done | apply IH].
Qed.

Lemma consume_stream_handle sdk chunks generator_id generator_last state w :
  (McpServer.consume_stream sdk chunks generator_id generator_last state w).1
  = let '(events, r, _) :=
      DeepResearchClient.stream_loop sdk chunks generator_id generator_last w in
    match McpServer.consume_events events state with
    | inl returned => returned
    | inr state' =>
        match r with
        | inl e => McpServer.stream_failure_dict e
        | inr _ => McpServer.stream_completed_dict state'
        end
    end.
Proof.
  revert generator_id generator_last state w.
  induction chunks as [|chunk rest IH]; intros generator_id generator_last state w;
    [done|].
  rewrite stream_loop_cons. simpl.
  destruct (DeepResearchClient.stream_body sdk chunk generator_id generator_last w)
    as [[events r] w1].
  destruct r as [e|[generator_id' generator_last']].
  - by destruct (McpServer.consume_events events state).
  - specialize (IH generator_id' generator_last').
    destruct (McpServer.consume_events events state) as [returned|state'] eqn:Hfirst.
    + destruct (DeepResearchClient.stream_loop sdk rest _ _ w1) as [[later r'] w2].
      by rewrite consume_events_app, Hfirst.
    + rewrite IH.
      destruct (DeepResearchClient.stream_loop sdk rest _ _ w1) as [[later r'] w2].
      by rewrite consume_events_app, Hfirst.
Qed.

Lemma stream_handler_handle sdk query format_instructions w :
  (McpServer.stream_research sdk query format_instructions w).1
  = let '(events, r, _) :=
      DeepResearchClient.stream_research sdk query format_instructions w in
    handle_events events r.
Proof.
  unfold McpServer.stream_research, DeepResearchClient.stream_research, handle_events.
  destruct (DeepResearchClient.client_interactions_create_stream sdk _ w)
    as [[e|chunks] w1]; [done|].
  apply consume_stream_handle.
Qed.

Lemma truthy_content (content : option string) :
  (if str_truthy content then [default "" content] else [])
  = match content with
    | Some (String c rest) => [String c rest]
    | _ => []
    end.
Proof. by destruct content as [[|c rest]|]. Qed.

Lemma consume_events_no_error events interaction_id content_parts thoughts :
  Forall (λ event, ¬ is_error_event event) events →
  McpServer.consume_events events (interaction_id, content_parts, thoughts)
  = inr (last_started events interaction_id,
         content_parts ++ contents_of TEXT_DELTA events,
         thoughts ++ contents_of THOUGHT events).
Proof.
  revert interaction_id content_parts thoughts.
  induction events as [|event events IH]; intros interaction_id content_parts thoughts Hno.
  { simpl. by rewrite !(right_id_L [] (++)). }
  apply Forall_cons in Hno as [Hevent Hno]. unfold is_error_event in Hevent.
  unfold contents_of, last_started in *. simpl.
  destruct event as [type id content event_id]. simpl in *.
  destruct type; try done; simpl; rewrite (IH _ _ _ Hno).
  all: destruct content as [[|c rest]|]; simpl; try done.
  all: by rewrite <- (assoc_L (++)).
Qed.

Lemma consume_events_error before error after interaction_id content_parts thoughts :
  Forall (λ event, ¬ is_error_event event) before →
  is_error_event error →
  McpServer.consume_events (before ++ error :: after)
    (interaction_id, content_parts, thoughts)
  = inl [ ("interaction_id", opt_str (last_started before interaction_id));
          ("status", VStr "failed");
          ("content", VNone);
          ("thoughts", str_list (thoughts ++ contents_of THOUGHT before));
          ("error", opt_str (ResearchEvent.content error)) ].
Proof.
  intros Hbefore Herror. rewrite consume_events_app.
  rewrite (consume_events_no_error _ _ _ _ Hbefore). simpl.
  unfold is_error_event in Herror. unfold McpServer.consume_event. by rewrite Herror.
Qed.

(** X21: The dict of the handler stream_research is decided by the events of
    the generator. When no event is an error and the generator ends
    normally, the status is completed and the content is the non-empty
    text_delta contents joined in order, whatever the complete event
    carries; at the first error event the handler returns failed with the
    event's content as error, the thoughts so far and no content; when the
    generator raises, the handler returns failed with Streaming research
    failed: and str(e), and no thoughts. *)
Theorem stream_handler_outcomes (sdk : Remote) (query : string)
    (format_instructions : option string) (w : World) :
  let '(events, r, _) := DeepResearchClient.stream_research sdk query format_instructions w in
  let d := (McpServer.stream_research sdk query format_instructions w).1 in
  (Forall (λ event, ¬ is_error_event event) events →
   match r with
   | inr _ =>
       d = [ ("interaction_id", opt_str (last_started events None));
             ("status", VStr "completed");
             ("content", VStr (String.concat "" (contents_of TEXT_DELTA events)));
             ("thoughts", str_list (contents_of THOUGHT events));
             ("error", VNone) ]
   | inl e =>
       d = [ ("interaction_id", VNone);
             ("status", VStr "failed");
             ("content", VNone);
             ("thoughts", VList []);
             ("error", VStr ("Streaming research failed: " +:+ exc_str e)) ]
   end)
  ∧ (∀ before error after,
       events = before ++ error :: after →
       Forall (λ event, ¬ is_error_event event) before →
       is_error_event error →
       d = [ ("interaction_id", opt_str (last_started before None));
             ("status", VStr "failed");
             ("content", VNone);
             ("thoughts", str_list (contents_of THOUGHT before));
             ("error", opt_str (ResearchEvent.content error)) ]).
Proof.
  pose proof (stream_handler_handle sdk query format_instructions w) as Hhandle.
  destruct (DeepResearchClient.stream_research sdk query format_instructions w)
    as [[events r] w1].
  simpl. rewrite Hhandle. unfold handle_events. split.
  - intros Hno. rewrite (consume_events_no_error _ _ _ _ Hno). by destruct r.
  - intros before error after -> Hbefore Herror.
    by rewrite (consume_events_error _ _ _ _ _ _ Hbefore Herror).
Qed.

(** The example of the specification: start(H), text_delta foo, text_delta
    bar and a complete event give the content foobar. *)
Example stream_handler_foobar :
  (McpServer.stream_research
     (streaming_sdk [start_chunk "H"; text_chunk "foo"; text_chunk "bar";
                     complete_chunk [text_output "final report"]])
     "topic" None empty_world).1
  = [ ("interaction_id", VStr "H");
      ("status", VStr "completed");
      ("content", VStr "foobar");
      ("thoughts", VList []);
      ("error", VNone) ].
Proof. reflexivity. Qed.

Lemma consume_stream_stops sdk before error after generator_id generator_last state w :
  Chunk.event_type error = "error" →
  McpServer.consume_stream sdk (before ++ error :: after) generator_id generator_last state w
  = McpServer.consume_stream sdk (before ++ [error]) generator_id generator_last state w.
Proof.
  intros Htype. revert generator_id generator_last state w.
  induction before as [|chunk before IH]; intros generator_id generator_last state w.
  - simpl. unfold DeepResearchClient.stream_body.
    rewrite bool_decide_eq_false_2 by (rewrite Htype; done).
    unfold DeepResearchClient.stream_dispatch.
    rewrite bool_decide_eq_false_2 by (rewrite Htype; done).
    rewrite bool_decide_eq_false_2 by (rewrite Htype; done).
    rewrite bool_decide_eq_true_2 by done.
    simpl. by destruct state as [[? ?] ?].
  - simpl.
    destruct (DeepResearchClient.stream_body sdk chunk generator_id generator_last w)
      as [[events r] w1].
    destruct (McpServer.consume_events events state); [done|].
    destruct r as [e|[? ?]]; [done | apply IH].
Qed.

Lemma consume_stream_ext sdk sdk' chunks generator_id generator_last state w :
  interactions_get sdk' = interactions_get sdk →
  McpServer.consume_stream sdk chunks generator_id generator_last state w
  = McpServer.consume_stream sdk' chunks generator_id generator_last state w.
Proof.
  intros Hsame. revert generator_id generator_last state w.
  induction chunks as [|chunk rest IH]; intros generator_id generator_last state w;
    [done|].
  simpl.
  assert (DeepResearchClient.stream_body sdk chunk generator_id generator_last w
          = DeepResearchClient.stream_body sdk' chunk generator_id generator_last w) as ->.
  { unfold DeepResearchClient.stream_body, DeepResearchClient.stream_dispatch,
      DeepResearchClient.get_result, DeepResearchClient.client_interactions_get.
    by rewrite Hsame. }
  destruct (DeepResearchClient.stream_body sdk' chunk generator_id generator_last w)
    as [[events r] w1].
  destruct (McpServer.consume_events events state); [done|].
  destruct r as [e|[? ?]]; [done | apply IH].
Qed.

(** X22: Once the provider has sent an error chunk, the handler stream_research
    has returned: the chunks that follow change neither its dict nor what
    it has asked of the service. *)
Theorem stream_handler_stops (sdk sdk' : Remote) (query : string)
    (format_instructions : option string) (w : World)
    (before after : list Chunk.t) (error : Chunk.t) :
  Chunk.event_type error = "error" →
  interactions_create_stream sdk (length (calls w))
    (stream_request query format_instructions) = inr (before ++ error :: after) →
  interactions_create_stream sdk' (length (calls w))
    (stream_request query format_instructions) = inr (before ++ [error]) →
  interactions_get sdk' = interactions_get sdk →
  McpServer.stream_research sdk query format_instructions w
  = McpServer.stream_research sdk' query format_instructions w.
Proof.
  intros Htype Hlong Hshort Hsame.
  unfold McpServer.stream_research, DeepResearchClient.client_interactions_create_stream.
  fold (stream_request query format_instructions). rewrite Hlong, Hshort.
  rewrite (consume_stream_stops _ _ _ _ _ _ _ _ Htype).
  by apply consume_stream_ext.
Qed.

Lemma stream_handler_stops_witness :
  McpServer.stream_research (streaming_sdk [text_chunk "foo"; error_chunk; text_chunk "late"])
    "topic" None empty_world
  = McpServer.stream_research (streaming_sdk [text_chunk "foo"; error_chunk])
      "topic" None empty_world.
Proof.
  exact (stream_handler_stops
           (streaming_sdk [text_chunk "foo"; error_chunk; text_chunk "late"])
           (streaming_sdk [text_chunk "foo"; error_chunk])
           "topic" None empty_world [text_chunk "foo"] [text_chunk "late"] error_chunk
           eq_refl eq_refl eq_refl eq_refl).
Defined.

(** ** Key sets of the handlers' dicts *)

Lemma consume_events_keys events state returned :
  McpServer.consume_events events state = inl returned →
  dict_keys returned = ["interaction_id"; "status"; "content"; "thoughts"; "error"].
Proof.
  revert state. induction events as [|event events IH]; intros state Hrun; [done|].
  simpl in Hrun.
  destruct (McpServer.consume_event event state) as [d|state'] eqn:Hevent.
  - simplify_eq. unfold McpServer.consume_event in Hevent.
    destruct state as [[? ?] ?]. by repeat case_match; simplify_eq.
  - by eapply IH.
Qed.

(** X23: Each handler returns a dict with the same keys on success and on
    failure, in the same order, but for deep_research: when it is told not
    to wait and the task is created, its dict has the key message after the
    five keys it has otherwise. *)
Theorem handler_key_sets (sdk : Remote) (w : World) :
  (∀ fuel query format_instructions wait_for_completion timeout d w',
     McpServer.deep_research sdk fuel query format_instructions wait_for_completion
       timeout w = Some (d, w') →
     dict_keys d
     = ["interaction_id"; "status"; "content"; "citations"; "error"]
       ++ match wait_for_completion,
                interactions_create sdk (length (calls w))
                  (start_request query format_instructions) with
          | false, inr _ => ["message"]
          | _, _ => []
          end)
  ∧ (∀ interaction_id, ∃ d w',
       McpServer.get_research_result sdk interaction_id w = (inr d, w')
       ∧ dict_keys d = ["interaction_id"; "status"; "content"; "citations"; "error"])
  ∧ (∀ previous_interaction_id question, ∃ d w',
       McpServer.ask_followup_question sdk previous_interaction_id question w = (inr d, w')
       ∧ dict_keys d = ["previous_interaction_id"; "question"; "answer"; "error"])
  ∧ (∀ query format_instructions,
       dict_keys (McpServer.stream_research sdk query format_instructions w).1
       = ["interaction_id"; "status"; "content"; "thoughts"; "error"])
  ∧ (∀ query model language, ∃ d w',
       McpServer.quick_search sdk query model language w = (inr d, w')
       ∧ dict_keys d = ["query"; "content"; "citations"; "search_queries"; "model"; "error"])
  ∧ (∀ urls query model language, ∃ d w',
       McpServer.analyze_urls sdk urls query model language w = (inr d, w')
       ∧ dict_keys d = ["urls"; "query"; "content"; "url_metadata"; "model"; "error"])
  ∧ (∀ query urls model language, ∃ d w',
       McpServer.search_and_analyze sdk query urls model language w = (inr d, w')
       ∧ dict_keys d = ["query"; "content"; "citations"; "search_queries"; "model"; "error"]).
Proof.
  repeat split.
  - intros fuel query format_instructions wait_for_completion timeout d w'.
    unfold McpServer.deep_research, DeepResearchClient.research,
      DeepResearchClient.start_research, DeepResearchClient.client_interactions_create,
      mbind, M_bind, mret, M_ret.
    fold (start_request query format_instructions).
    destruct wait_for_completion;
      destruct (interactions_create sdk _ _) as [e|interaction]; intros Hrun;
      repeat case_match; by simplify_eq.
  - intros interaction_id.
    unfold McpServer.get_research_result, try_except, mbind, M_bind, mret, M_ret.
    destruct (DeepResearchClient.get_result sdk interaction_id w) as [[e|result] w'];
      by do 2 eexists.
  - intros previous_interaction_id question.
    unfold McpServer.ask_followup_question, try_except, mbind, M_bind, mret, M_ret.
    destruct (DeepResearchClient.ask_followup sdk _ _ w) as [[e|answer] w'];
      by do 2 eexists.
  - intros query format_instructions. rewrite stream_handler_handle.
    destruct (DeepResearchClient.stream_research sdk query format_instructions w)
      as [[events r] w1].
    unfold handle_events.
    destruct (McpServer.consume_events events (None, [], [])) as [d|[[? ?] ?]] eqn:Hrun.
    + by eapply consume_events_keys.
    + by destruct r.
  - intros query model language.
    unfold McpServer.quick_search, try_except, mbind, M_bind, mret, M_ret.
    destruct (QuickSearchClient.quick_search sdk _ _ _ w) as [[e|result] w'];
      by do 2 eexists.
  - intros urls query model language.
    unfold McpServer.analyze_urls, try_except, mbind, M_bind, mret, M_ret.
    destruct (QuickSearchClient.analyze_urls sdk _ _ _ _ w) as [[e|result] w'];
      by do 2 eexists.
  - intros query urls model language.
    unfold McpServer.search_and_analyze, try_except, mbind, M_bind, mret, M_ret.
    destruct (QuickSearchClient.search_and_analyze sdk _ _ _ _ w) as [[e|result] w'];
      by do 2 eexists.
Qed.

(** ** The status and result tools of the plugin *)

Section DifyTools.
Variable sdk : Remote.
Variable credentials : gmap string string.

(** X24: Both tools yield exactly two messages on every path: a JSON message,
    then a text message. *)
Theorem dify_tools_two_messages (tool_parameters : gmap string string) (w : World) :
  (∃ d text,
     (GetResearchStatusTool._invoke sdk credentials tool_parameters w).1
     = [JsonMessage d; TextMessage text])
  ∧ (∃ d text,
       (GetResearchResultTool._invoke sdk credentials tool_parameters w).1
       = [JsonMessage d; TextMessage text]).
Proof.
  unfold GetResearchStatusTool._invoke, GetResearchResultTool._invoke.
  split; repeat case_match; simplify_eq; simpl; eauto.
Qed.

(** X25: The tools fetch the interaction once when the handle is not empty and
    the credentials hold a non-empty API key, and ask nothing of the
    service otherwise. *)
Theorem dify_tools_effects (tool_parameters : gmap string string) (w : World) :
  let interaction_id := default "" (tool_parameters !! "interaction_id") in
  let expected :=
    if bool_decide (interaction_id ≠ "") && str_truthy (credentials !! "gemini_api_key")
    then log_call (InteractionsGet interaction_id) w
    else w in
  (GetResearchStatusTool._invoke sdk credentials tool_parameters w).2 = expected
  ∧ (GetResearchResultTool._invoke sdk credentials tool_parameters w).2 = expected.
Proof.
  unfold GetResearchStatusTool._invoke, GetResearchResultTool._invoke,
    DifyTool._get_client.
  simpl. destruct (default "" (tool_parameters !! "interaction_id")) as [|c rest] eqn:Hid.
  - by rewrite bool_decide_eq_true_2 by done.
  - rewrite bool_decide_eq_false_2 by done. rewrite bool_decide_eq_true_2 by done.
    simpl. destruct (str_truthy (credentials !! "gemini_api_key")); [|done].
    split; repeat case_match; simplify_eq; done.
Qed.
End DifyTools.

Lemma dify_status_map_lookup (s : string) :
  GetResearchStatusTool.status_map !! s =
    if decide (s = "in_progress") then Some "in_progress"
    else if decide (s = "completed") then Some "completed"
    else if decide (s = "failed") then Some "failed"
    else if decide (s = "cancelled") then Some "cancelled"
    else None.
Proof.
  unfold GetResearchStatusTool.status_map.
  do 3 (case_decide; [subst; by vm_compute | rewrite lookup_insert_ne by done]).
  case_decide; [subst; by vm_compute | by apply lookup_singleton_ne].
Qed.

(** X26: The status tool of the plugin reports the vendor status under its own
    name when it is one of in_progress, completed, failed and cancelled, and
    as unknown otherwise, where the client's get_status says in_progress. *)
Theorem dify_status_unknown (sdk : Remote) (credentials tool_parameters : gmap string string)
    (w : World) (interaction_id : string) (interaction : Interaction.t) :
  tool_parameters !! "interaction_id" = Some interaction_id →
  interaction_id ≠ "" →
  str_truthy (credentials !! "gemini_api_key") = true →
  interactions_get sdk (length (calls w)) interaction_id = inr interaction →
  ∃ d text,
    (GetResearchStatusTool._invoke sdk credentials tool_parameters w).1
    = [JsonMessage d; TextMessage text]
    ∧ dict_get "interaction_id" d = Some (VStr interaction_id)
    ∧ (∀ canonical, ResearchStatusEnum_value canonical = Interaction.status interaction →
         dict_get "status" d = Some (VStr (Interaction.status interaction)))
    ∧ ((∀ canonical, ResearchStatusEnum_value canonical ≠ Interaction.status interaction) →
         dict_get "status" d = Some (VStr "unknown")
         ∧ canonical_status (Interaction.status interaction) = IN_PROGRESS).
Proof.
  intros Hid Hne Hkey Hget.
  unfold GetResearchStatusTool._invoke, DifyTool._get_client.
  rewrite Hid. simpl. rewrite bool_decide_eq_false_2 by done. rewrite Hkey, Hget.
  do 2 eexists. split; [reflexivity|]. simpl. split; [done|].
  rewrite dify_status_map_lookup. split.
  - intros canonical <-. by destruct canonical.
  - intros Hno. split; [|by apply mapped_status_unknown].
    repeat case_decide; try done; subst.
    + by destruct (Hno IN_PROGRESS).
    + by destruct (Hno COMPLETED).
    + by destruct (Hno FAILED).
    + by destruct (Hno CANCELLED).
Qed.

Lemma dify_status_unknown_witness :
  ∃ d text,
    (GetResearchStatusTool._invoke (pending_sdk "requires_action")
       {[ "gemini_api_key" := "key" ]} {[ "interaction_id" := "h" ]} empty_world).1
    = [JsonMessage d; TextMessage text]
    ∧ dict_get "status" d = Some (VStr "unknown").
Proof.
  destruct (dify_status_unknown (pending_sdk "requires_action")
              {[ "gemini_api_key" := "key" ]} {[ "interaction_id" := "h" ]} empty_world
              "h" (sample_interaction "requires_action" []) ltac:(by vm_compute) ltac:(done)
              ltac:(by vm_compute) eq_refl) as (d & text & Hrun & _ & _ & Hunknown).
  exists d, text. split; [exact Hrun|].
  apply Hunknown. by intros [].
Defined.



Lemma numbered_lines {A} (f : nat → A → string) (l : list A) (k : nat)
    (lines : list string) :
  fold_left (λ lines '(i, x), lines ++ [f i x]) (zip (seq k (length l)) l) lines
  = lines ++ imap (λ i x, f (k + i) x) l.
Proof.
  revert k lines. induction l as [|x l IH]; intros k lines; simpl.
  - by rewrite (right_id_L [] (++)).
  - rewrite IH, <- (assoc_L (++)), Nat.add_0_r. simpl. do 2 f_equal.
    apply imap_ext. intros i y _. simpl. f_equal. lia.
Qed.

(** X28: The text of the result tool has the heading, the handle, the content
    (a placeholder when there is none or it is empty) and, only when there
    are citations, the reference heading followed by one line per citation:
    the i-th citation, counted from 1, as i. url. *)
Theorem format_result_output_lines (interaction_id : string) (content : option string)
    (citations : list string) :
  GetResearchResultTool._format_result_output interaction_id content citations
  = String.concat LF
      ([ "## リサーチ結果"; ""; "**Interaction ID**: `" +:+ interaction_id +:+ "`"; "" ]
       ++ [ match content with
            | Some (String c rest) => String c rest
            | _ => "（コンテンツなし）"
            end; "" ]
       ++ match citations with
          | [] => []
          | _ :: _ => "### 参照元:"
                      :: imap (λ i url, pretty (S i) +:+ ". " +:+ url) citations
          end).
Proof.
  unfold GetResearchResultTool._format_result_output. f_equal.
  destruct citations as [|url citations].
  - by destruct content as [[|c rest]|].
  - rewrite (numbered_lines (λ i url, pretty i +:+ ". " +:+ url)).
    by destruct content as [[|c rest]|].
Qed.
